(** * Billing system: persistent store, account directory, account entity

    A shallow embedding of [tStyle.py] (the classes [FileManager],
    [AccountManager] and [BankAccount] and the function
    [validate_account_name]) and the properties of its specification,
    followed by the rest of [tStyle.py] that works on data (the class
    [TransactionLogger] and the helper functions) and by the methods of
    [Biller.py] that move money and update the registry.

    - A Python [float] is an IEEE 754 binary64 number and is embedded as a
      primitive float of Rocq, with the same sums, differences and
      comparisons, NaN and the infinities included.
    - The files and the clock are an explicit state, [world]; a file
      operation can fail, as the [try] blocks of the program expect.
    - A Python exception is a value of the type [result]; methods are
      functions in the monad [IO] of state and exceptions.
    - [float(str)], [str(float)] and the [json] module are parameters of
      the embedding (the class [PyBuiltins]); the module [Reference]
      implements them to run the program on concrete inputs.

    The first part of the file holds the definitions, the second part the
    properties. *)

From Stdlib Require Import ZArith Ascii String List Lia.
From Stdlib Require Import PrimFloat SpecFloat FloatOps FloatAxioms.
From stdpp Require Import base option gmap strings pretty list.

Set Warnings "-inexact-float".
Local Open Scope Z_scope.

(** ** Python values, exceptions and results *)

(** The exception classes the code can meet.  [JSONDecodeError] is a
    subclass of [ValueError], [FileNotFoundError] and [PermissionError]
    are subclasses of [OSError]; all of them are subclasses of
    [Exception]. *)
Inductive exn : Type :=
| ValueError (msg : string)
| JSONDecodeError (msg : string)
| TypeError (msg : string)
| OverflowError (msg : string)
| FileNotFoundError (msg : string)
| PermissionError (msg : string)
| Exception_ (msg : string).

(** [str(e)] *)
Definition exn_str (e : exn) : string :=
  match e with
  | ValueError m | JSONDecodeError m | TypeError m | OverflowError m
  | FileNotFoundError m | PermissionError m | Exception_ m => m
  end.

(** [isinstance(e, ValueError)] *)
Definition is_ValueError (e : exn) : bool :=
  match e with ValueError _ | JSONDecodeError _ => true | _ => false end.

(** [isinstance(e, TypeError)] *)
Definition is_TypeError (e : exn) : bool :=
  match e with TypeError _ => true | _ => false end.

(** [isinstance(e, FileNotFoundError)] *)
Definition is_FileNotFoundError (e : exn) : bool :=
  match e with FileNotFoundError _ => true | _ => false end.

(** [isinstance(e, json.JSONDecodeError)] *)
Definition is_JSONDecodeError (e : exn) : bool :=
  match e with JSONDecodeError _ => true | _ => false end.

Inductive result (A : Type) : Type :=
| Ok (a : A)
| Raise (e : exn).
Arguments Ok {A} a.
Arguments Raise {A} e.

(** The objects that reach [float(...)] in this program. *)
Inductive pyobj : Type :=
| PyFloat (x : float)
| PyInt (n : Z)
| PyBool (b : bool)
| PyStr (s : string)
| PyNone.

(** ** Strings *)

(** [c.isspace()] for a code point below 256. *)
Definition isspace (c : ascii) : bool :=
  let n := N_of_ascii c in
  ((9 <=? n) && (n <=? 13) || (28 <=? n) && (n <=? 32)
   || (n =? 133) || (n =? 160))%N.

Fixpoint lstrip (s : string) : string :=
  match s with
  | String c s' => if isspace c then lstrip s' else s
  | EmptyString => EmptyString
  end.

Fixpoint rstrip (s : string) : string :=
  match s with
  | String c s' =>
      match rstrip s' with
      | EmptyString => if isspace c then EmptyString else String c EmptyString
      | t => String c t
      end
  | EmptyString => EmptyString
  end.

(** [s.strip()] *)
Definition strip (s : string) : string := rstrip (lstrip s).

(** [bool(s)] for a string: the truth value is "non-empty". *)
Definition truthy (s : string) : bool :=
  match s with EmptyString => false | _ => true end.

(** [c in s] for a one-character [c]. *)
Fixpoint contains_char (c : ascii) (s : string) : bool :=
  match s with
  | EmptyString => false
  | String d s' => if Ascii.eqb c d then true else contains_char c s'
  end.

(** [str(n)] for an [int]. *)
Definition str_of_int (n : Z) : string := pretty n.

(** ** Floats *)

(** [float(n)] for an [int]: the nearest double, ties to even, and
    [OverflowError] beyond the range of doubles. *)
Definition float_of_int (n : Z) : result float :=
  match binary_normalize prec emax n 0 false with
  | S754_infinity _ => Raise (OverflowError "int too large to convert to float")
  | x => Ok (SF2Prim x)
  end.

(** Digits of a natural number in groups of three: [f"{n:,}"]. *)
Fixpoint group_thousands (fuel : nat) (n : Z) : string :=
  match fuel with
  | O => pretty n
  | S fuel' =>
      if n <? 1000 then pretty n
      else
        let r := n mod 1000 in
        let pad :=
          if r <? 10 then "00" else if r <? 100 then "0" else EmptyString in
        group_thousands fuel' (n / 1000) +:+ "," +:+ pad +:+ pretty r
  end.

(** [m * 2^e * 100] rounded to an integer, ties to even. *)
Definition round_hundredths (m : positive) (e : Z) : Z :=
  let n := Zpos m * 100 in
  if 0 <=? e then n * 2 ^ e
  else
    let d := 2 ^ (- e) in
    let q := n / d in
    let r := n mod d in
    if (d <? 2 * r) || ((d =? 2 * r) && Z.odd q) then q + 1 else q.

(** [f"{x:,.2f}"] *)
Definition format_money (x : float) : string :=
  match Prim2SF x with
  | S754_nan => "nan"
  | S754_infinity s => if s then "-inf" else "inf"
  | S754_zero s => if s then "-0.00" else "0.00"
  | S754_finite s m e =>
      let h := round_hundredths m e in
      let c := h mod 100 in
      (if s then "-" else EmptyString) +:+ group_thousands 120 (h / 100)
      +:+ "." +:+ (if c <? 10 then "0" else EmptyString) +:+ pretty c
  end.

(** ** Library functions outside the repository

    [float(str)], [str(float)] and the [json] module belong to Python and
    its standard library, not to the repository.  The program is embedded
    over any implementation of them; [None] stands for the exception they
    raise on malformed input ([ValueError], [json.JSONDecodeError]). *)

(** An entry of the registry, as [create_new_account] writes it. *)
Record account_info : Type := mk_account_info {
  id : Z;
  name : string;
  created : string;
  info_balance : float
}.

(** What [json.loads] returns: a dictionary (the registry) or some other
    JSON value (a list, a number, a string, ...). *)
Inductive jdoc : Type :=
| JDict (accounts : gmap string account_info)
| JOther.

Class PyBuiltins : Type := {
  float_of_str : string -> option float;
  float_repr : float -> string;
  json_loads : string -> option jdoc;
  json_dumps : gmap string account_info -> string
}.

(** ** The file system and the clock *)

Record datetime : Type := mk_datetime {
  year : Z; month : Z; day : Z; hour : Z; minute : Z; second : Z
}.

Definition pad2 (n : Z) : string :=
  if n <? 10 then "0" +:+ pretty n else pretty n.

Definition pad4 (n : Z) : string :=
  if n <? 10 then "000" +:+ pretty n
  else if n <? 100 then "00" +:+ pretty n
  else if n <? 1000 then "0" +:+ pretty n
  else pretty n.

(** [d.strftime('%Y%m%d_%H%M%S')] *)
Definition strftime_compact (d : datetime) : string :=
  pad4 (year d) +:+ pad2 (month d) +:+ pad2 (day d) +:+ "_"
  +:+ pad2 (hour d) +:+ pad2 (minute d) +:+ pad2 (second d).

(** [d.strftime("%Y-%m-%d %H:%M:%S")] *)
Definition strftime_iso (d : datetime) : string :=
  pad4 (year d) +:+ "-" +:+ pad2 (month d) +:+ "-" +:+ pad2 (day d) +:+ " "
  +:+ pad2 (hour d) +:+ ":" +:+ pad2 (minute d) +:+ ":" +:+ pad2 (second d).

(** The part of the outside world the code touches: the files with their
    text, the paths that cannot be opened for reading, the paths that
    cannot be opened for writing (or renamed onto), and the clock. *)
Record world : Type := mk_world {
  files : gmap string string;
  unreadable : gset string;
  unwritable : gset string;
  now : datetime
}.

Definition set_files (f : gmap string string -> gmap string string)
    (w : world) : world :=
  {| files := f (files w); unreadable := unreadable w;
     unwritable := unwritable w; now := now w |}.

(** Code that reads and writes the world and may raise.  A raised
    exception keeps the effects that happened before it. *)
Definition IO (A : Type) : Type := world -> result A * world.

Definition ret {A} (a : A) : IO A := fun w => (Ok a, w).

Definition raise {A} (e : exn) : IO A := fun w => (Raise e, w).

Definition bind {A B} (m : IO A) (k : A -> IO B) : IO B :=
  fun w =>
    match m w with
    | (Ok a, w') => k a w'
    | (Raise e, w') => (Raise e, w')
    end.

(** [try: m  except Exception as e: h e] *)
Definition try_except {A} (m : IO A) (h : exn -> IO A) : IO A :=
  fun w =>
    match m w with
    | (Ok a, w') => (Ok a, w')
    | (Raise e, w') => h e w'
    end.

Definition lift {A} (r : result A) : IO A := fun w => (r, w).

Notation "x <- m ;; k" := (bind m (fun x => k))
  (at level 100, m at next level, right associativity).
Notation "m ;;; k" := (bind m (fun _ => k))
  (at level 100, right associativity).

Definition os_path_exists (p : string) : IO bool :=
  fun w => (Ok (bool_decide (is_Some (files w !! p))), w).

(** [open(p, 'r')] and the text of the file as it is stored.  A read in
    text mode hands this text over with the line ends translated, which
    is [universal_newlines] below.  [load_json_file] and
    [load_balance_from_file] strip the text and hand it to [json.loads]
    and to [float()], which take one line end for the other; where the
    text read is kept as text, in [copy_backup] and in [readlines], the
    translation is applied to it. *)
Definition read_text (p : string) : IO string :=
  fun w =>
    match files w !! p with
    | None => (Raise (FileNotFoundError p), w)
    | Some c =>
        if bool_decide (p ∈ unreadable w) then (Raise (PermissionError p), w)
        else (Ok c, w)
    end.

(** What a file opened for reading in text mode hands over: each of the
    line ends [\r\n] and [\r] comes as [\n]. *)
Fixpoint universal_newlines (s : string) : string :=
  match s with
  | EmptyString => EmptyString
  | String c r =>
      if Ascii.eqb c "013" then
        String "010"
          match r with
          | String d r' =>
              if Ascii.eqb d "010" then universal_newlines r'
              else universal_newlines r
          | EmptyString => EmptyString
          end
      else String c (universal_newlines r)
  end.

(** [with open(p, 'w') as f: f.write(c)] *)
Definition write_text (p c : string) : IO unit :=
  fun w =>
    if bool_decide (p ∈ unwritable w) then (Raise (PermissionError p), w)
    else (Ok tt, set_files (insert p c) w).

(** [os.rename(src, dst)] *)
Definition os_rename (src dst : string) : IO unit :=
  fun w =>
    match files w !! src with
    | None => (Raise (FileNotFoundError src), w)
    | Some c =>
        if bool_decide (dst ∈ unwritable w) then (Raise (PermissionError dst), w)
        else (Ok tt, set_files (fun fs => <[dst:=c]> (delete src fs)) w)
    end.

Definition datetime_now : IO datetime := fun w => (Ok (now w), w).

(** [os.path.join(folder, file)] for a relative [file]. *)
Definition os_path_join (folder file : string) : string :=
  match rev (list_ascii_of_string folder) with
  | [] => file
  | c :: _ => if Ascii.eqb c "/" then folder +:+ file else folder +:+ "/" +:+ file
  end.

(** ** The program *)

Section Program.
Context `{PyBuiltins}.

(** [float(v)] *)
Definition py_float (v : pyobj) : result float :=
  match v with
  | PyFloat x => Ok x
  | PyInt n => float_of_int n
  | PyBool b => Ok (if b then 1%float else 0%float)
  | PyStr s =>
      match float_of_str s with
      | Some x => Ok x
      | None => Raise (ValueError "could not convert string to float")
      end
  | PyNone =>
      Raise (TypeError
               "float() argument must be a string or a real number, not 'NoneType'")
  end.

(** *** class FileManager *)

Record FileManager : Type := mk_FileManager {
  accounts_folder : string;
  registry_file : string
}.

(** [FileManager()] with its default arguments. *)
Definition default_FileManager : FileManager :=
  {| accounts_folder := "accounts"; registry_file := "accounts_registry.json" |}.

(** The backup step shared by the two save methods:
    [try: copy src to dst  except Exception: pass].  The copy is what
    [src.read()] hands over, so it has [\n] for every line end of the
    original. *)
Definition copy_backup (src dst : string) : IO unit :=
  try_except (c <- read_text src;; write_text dst (universal_newlines c))
    (fun _ => ret tt).

Definition load_json_file (file_path : string) : IO jdoc :=
  try_except
    (present <- os_path_exists file_path;;
     if present : bool then
       text <- read_text file_path;;
       let content := strip text in
       if truthy content then
         match json_loads content with
         | Some data => ret data
         | None => raise (JSONDecodeError "Expecting value")
         end
       else ret (JDict ∅)
     else ret (JDict ∅))
    (fun e =>
       if is_JSONDecodeError e then
         t <- datetime_now;;
         let backup_path := file_path +:+ ".corrupted_" +:+ strftime_compact t in
         try_except (os_rename file_path backup_path) (fun _ => ret tt);;;
         ret (JDict ∅)
       else ret (JDict ∅)).

Definition save_json_file (file_path : string)
    (data : gmap string account_info) : IO bool :=
  try_except
    (present <- os_path_exists file_path;;
     (if present : bool then copy_backup file_path (file_path +:+ ".backup")
      else ret tt);;;
     write_text file_path (json_dumps data);;;
     ret true)
    (fun _ => ret false).

Definition get_account_balance_path (self : FileManager) (account_id : Z)
    : string :=
  os_path_join (accounts_folder self)
    ("account_" +:+ str_of_int account_id +:+ "_balance.txt").

Definition save_balance_to_file (self : FileManager) (account_id : Z)
    (balance : float) : IO bool :=
  try_except
    (if (balance <? 0)%float then ret false
     else
       let balance_file := get_account_balance_path self account_id in
       present <- os_path_exists balance_file;;
       (if present : bool then copy_backup balance_file (balance_file +:+ ".backup")
        else ret tt);;;
       write_text balance_file (float_repr balance);;;
       ret true)
    (fun _ => ret false).

Definition load_balance_from_file (self : FileManager) (account_id : Z)
    (default_balance : float) : IO float :=
  try_except
    (let balance_file := get_account_balance_path self account_id in
     let create_default :=
       save_balance_to_file self account_id default_balance;;;
       ret default_balance in
     present <- os_path_exists balance_file;;
     if present : bool then
       text <- read_text balance_file;;
       let content := strip text in
       if truthy content then
         balance <- lift (py_float (PyStr content));;
         ret (if (0 <=? balance)%float then balance else default_balance)
       else create_default
     else create_default)
    (fun e =>
       if is_ValueError e || is_FileNotFoundError e then ret default_balance
       else ret default_balance).

(** *** class AccountManager *)

Record AccountManager : Type := mk_AccountManager {
  file_manager : FileManager
}.

Definition get_accounts_list (self : AccountManager) : IO jdoc :=
  load_json_file (registry_file (file_manager self)).

Definition save_accounts_list (self : AccountManager)
    (accounts : gmap string account_info) : IO bool :=
  save_json_file (registry_file (file_manager self)) accounts.

(** The loop [while str(account_id) in accounts: account_id += 1].  Each
    turn finds one more key of the dictionary, so [size accounts] turns
    and a last test are all it can take. *)
Fixpoint next_id_loop (turns : nat) (accounts : gmap string account_info)
    (account_id : Z) : Z :=
  match turns with
  | O => account_id
  | S turns' =>
      if bool_decide (is_Some (accounts !! str_of_int account_id))
      then next_id_loop turns' accounts (account_id + 1)
      else account_id
  end.

Definition next_account_id (accounts : gmap string account_info) : Z :=
  next_id_loop (S (size accounts)) accounts 1.

Definition create_new_account (self : AccountManager) (account_name : string)
    (initial_balance : pyobj) : IO (Z * account_info) :=
  if negb (truthy account_name) || negb (truthy (strip account_name)) then
    raise (ValueError "Account name cannot be empty")
  else
    initial_balance <- lift (py_float initial_balance);;
    if (initial_balance <? 0)%float then
      raise (ValueError "Initial balance cannot be negative")
    else
      loaded <- get_accounts_list self;;
      match loaded with
      | JOther => raise (TypeError "object does not support item assignment")
      | JDict accounts =>
          let account_id := next_account_id accounts in
          t <- datetime_now;;
          let account_info :=
            {| id := account_id; name := strip account_name;
               created := strftime_iso t; info_balance := initial_balance |} in
          let accounts := <[str_of_int account_id := account_info]> accounts in
          saved <- save_accounts_list self accounts;;
          if negb saved then raise (Exception_ "Failed to save account registry")
          else
            saved <- save_balance_to_file (file_manager self) account_id
                       initial_balance;;
            if negb saved then
              save_accounts_list self (delete (str_of_int account_id) accounts);;;
              raise (Exception_ "Failed to create balance file")
            else ret (account_id, account_info)
      end.

(** *** class BankAccount *)

(** The balance is a float in all cases but one: an account without a
    balance file starts with the [int] 1000000, the default argument of
    [load_balance_from_file].  Python compares, adds and formats this int
    as the float 1000000.0, which stands for it here. *)
Record BankAccount : Type := mk_BankAccount {
  account_id : Z;
  account_manager : AccountManager;
  balance : float
}.

Definition set_balance (self : BankAccount) (b : float) : BankAccount :=
  {| account_id := account_id self; account_manager := account_manager self;
     balance := b |}.

(** [BankAccount(account_id, account_manager)] *)
Definition BankAccount_init (account_id : Z) (account_manager : AccountManager)
    : IO BankAccount :=
  b <- load_balance_from_file (file_manager account_manager) account_id 1000000;;
  ret {| account_id := account_id; account_manager := account_manager;
         balance := b |}.

Definition get_balance (self : BankAccount) : float := balance self.

Definition update_balance_from_file (self : BankAccount)
    : IO (BankAccount * float) :=
  b <- load_balance_from_file (file_manager (account_manager self))
         (account_id self) (balance self);;
  ret (set_balance self b, b).

Definition save_balance (self : BankAccount) : IO bool :=
  save_balance_to_file (file_manager (account_manager self))
    (account_id self) (balance self).

(** A method returns the object as it has left it and its own result;
    [deposit] and [withdraw] return the pair [(success, message)].  Only
    the coercion [float(amount)] can raise in their [try] block, before
    the balance is touched, so the [except] clauses see the object as it
    was on entry. *)
Definition deposit (self : BankAccount) (amount : pyobj)
    : IO (BankAccount * (bool * string)) :=
  try_except
    (amount <- lift (py_float amount);;
     if (amount <=? 0)%float then
       ret (self, (false, "Deposit amount must be positive"))
     else
       let old_balance := balance self in
       let self := set_balance self (balance self + amount)%float in
       saved <- save_balance self;;
       if saved : bool then
         ret (self, (true, "Deposit successful. New balance: R"
                           +:+ format_money (balance self)))
       else
         let self := set_balance self old_balance in
         ret (self, (false, "Failed to save transaction to file")))
    (fun e =>
       if is_ValueError e || is_TypeError e then
         ret (self, (false, "Invalid amount format"))
       else ret (self, (false, "Deposit error: " +:+ exn_str e))).

Definition withdraw (self : BankAccount) (amount : pyobj)
    : IO (BankAccount * (bool * string)) :=
  try_except
    (amount <- lift (py_float amount);;
     if (amount <=? 0)%float then
       ret (self, (false, "Withdrawal amount must be positive"))
     else if (balance self <? amount)%float then
       ret (self, (false, "Insufficient funds. Available: R"
                          +:+ format_money (balance self)))
     else
       let old_balance := balance self in
       let self := set_balance self (balance self - amount)%float in
       saved <- save_balance self;;
       if saved : bool then
         ret (self, (true, "Withdrawal successful. New balance: R"
                           +:+ format_money (balance self)))
       else
         let self := set_balance self old_balance in
         ret (self, (false, "Failed to save transaction to file")))
    (fun e =>
       if is_ValueError e || is_TypeError e then
         ret (self, (false, "Invalid amount format"))
       else ret (self, (false, "Withdrawal error: " +:+ exn_str e))).

End Program.

(** *** validate_account_name *)



(** ** A reference implementation of the library functions

    Used to run the program on concrete inputs.  [float(str)] covers
    decimal literals with an optional sign, fraction and exponent,
    underscores between digits, and the words [inf], [infinity] and
    [nan]; [str(float)] is the shortest decimal string that reads back as
    the same double; [json.dump] writes a registry in key order and
    [json.loads] reads JSON text over code points below 256. *)

Module Reference.

Definition is_digit (c : ascii) : bool :=
  let n := N_of_ascii c in ((48 <=? n) && (n <=? 57))%N.

Definition lower (c : ascii) : ascii :=
  let n := N_of_ascii c in
  if ((65 <=? n) && (n <=? 90))%N then ascii_of_N (n + 32) else c.

Fixpoint lower_string (s : string) : string :=
  match s with
  | EmptyString => EmptyString
  | String c s' => String (lower c) (lower_string s')
  end.

(** A run of digits: its value on top of [acc], its length, the rest. *)
Fixpoint read_digits (s : string) (acc : Z) (len : Z) : Z * Z * string :=
  match s with
  | String c s' =>
      if is_digit c
      then read_digits s' (10 * acc + (Z.of_N (N_of_ascii c) - 48)) (len + 1)
      else (acc, len, s)
  | EmptyString => (acc, len, s)
  end.

(** Underscores are legal between two digits only, and are skipped. *)
Fixpoint drop_underscores (after_digit : bool) (s : string) : option string :=
  match s with
  | EmptyString => Some EmptyString
  | String c s' =>
      if Ascii.eqb c "_" then
        match s' with
        | String d _ =>
            if after_digit && is_digit d then drop_underscores false s' else None
        | EmptyString => None
        end
      else option_map (String c) (drop_underscores (is_digit c) s')
  end.

(** [digits [. digits] [e [sign] digits]] as a pair [(n, k)] that stands
    for [n * 10^k]. *)
Definition parse_decimal (s : string) : option (Z * Z) :=
  let '(n1, len1, r1) := read_digits s 0 0 in
  let '(n2, len2, r2) :=
    match r1 with
    | String "." r => read_digits r n1 0
    | _ => (n1, 0, r1)
    end in
  if len1 + len2 =? 0 then None
  else
    match r2 with
    | EmptyString => Some (n2, - len2)
    | String c r3 =>
        if Ascii.eqb (lower c) "e" then
          let '(sgn, r4) :=
            match r3 with
            | String "-" r => (-1, r)
            | String "+" r => (1, r)
            | _ => (1, r3)
            end in
          let '(n3, len3, r5) := read_digits r4 0 0 in
          if len3 =? 0 then None
          else match r5 with
               | EmptyString => Some (n2, sgn * n3 - len2)
               | _ => None
               end
        else None
    end.

(** The double nearest to [n * 10^k], ties to even. *)
Definition round_decimal (n k : Z) : float :=
  match n with
  | Zpos p =>
      if 0 <=? k then SF2Prim (binary_normalize prec emax (n * 10 ^ k) 0 false)
      else SF2Prim (SFdiv prec emax (S754_finite false p 0)
                      (S754_finite false (Z.to_pos (10 ^ (- k))) 0))
  | _ => 0%float
  end.

Definition float_of_str (s : string) : option float :=
  let s := strip s in
  let '(neg, body) :=
    match s with
    | String "-" r => (true, r)
    | String "+" r => (false, r)
    | _ => (false, s)
    end in
  let signed (x : float) := if neg : bool then (- x)%float else x in
  let word := lower_string body in
  if (word =? "inf")%string || (word =? "infinity")%string
  then Some (signed infinity)
  else if (word =? "nan")%string then Some nan
  else
    match drop_underscores false body with
    | Some body =>
        match parse_decimal body with
        | Some (n, k) => Some (signed (round_decimal n k))
        | None => None
        end
    | None => None
    end.

(** Is [10^t <= num / den]? *)
Definition pow10_le (t num den : Z) : bool :=
  if 0 <=? t then 10 ^ t * den <=? num else den <=? num * 10 ^ (- t).

(** The largest [t] with [10^t <= num / den]. *)
Definition floor_log10 (num den : Z) : Z :=
  let t := (Z.log2 num - Z.log2 den) * 30103 / 100000 - 1 in
  let t := if pow10_le (t + 1) num den then t + 1 else t in
  let t := if pow10_le (t + 1) num den then t + 1 else t in
  if pow10_le (t + 1) num den then t + 1 else t.

(** The shortest digits [k] and exponent [p] such that [k * 10^p] reads
    back as the double [m * 2^e]; of two candidates the nearer one. *)
Fixpoint shortest_digits (todo : nat) (n : Z) (x : float) (num den t : Z)
    : Z * Z :=
  let p := t - n + 1 in
  let lo := if 0 <=? p then num / (den * 10 ^ p) else num * 10 ^ (- p) / den in
  let hi := lo + 1 in
  let err k :=
    Z.abs (if 0 <=? p then k * 10 ^ p * den - num
           else k * den - num * 10 ^ (- p)) in
  let ok k := (0 <? k) && PrimFloat.eqb (round_decimal k p) x in
  match todo with
  | O => (lo, p)
  | S todo' =>
      if ok lo && ok hi then (if err hi <? err lo then (hi, p) else (lo, p))
      else if ok lo then (lo, p)
      else if ok hi then (hi, p)
      else shortest_digits todo' (n + 1) x num den t
  end.

Fixpoint drop_zeros (fuel : nat) (k p : Z) : Z * Z :=
  match fuel with
  | O => (k, p)
  | S fuel' =>
      if (0 <? k) && (k mod 10 =? 0) then drop_zeros fuel' (k / 10) (p + 1)
      else (k, p)
  end.

Fixpoint zeros (n : nat) : string :=
  match n with O => EmptyString | S n' => String "0" (zeros n') end.

Definition layout (k p : Z) : string :=
  let ds := pretty k in
  let len := Z.of_nat (String.length ds) in
  let decpt := len + p in
  if (decpt <=? -4) || (16 <? decpt) then
    let e := decpt - 1 in
    substring 0 1 ds
    +:+ (if 1 <? len then "." +:+ substring 1 (String.length ds - 1) ds
         else EmptyString)
    +:+ "e" +:+ (if e <? 0 then "-" else "+") +:+ pad2 (Z.abs e)
  else if decpt <=? 0 then "0." +:+ zeros (Z.to_nat (- decpt)) +:+ ds
  else if len <=? decpt then ds +:+ zeros (Z.to_nat (decpt - len)) +:+ ".0"
  else substring 0 (Z.to_nat decpt) ds +:+ "."
       +:+ substring (Z.to_nat decpt) (String.length ds - Z.to_nat decpt) ds.

Definition float_repr (x : float) : string :=
  match Prim2SF x with
  | S754_nan => "nan"
  | S754_infinity s => if s then "-inf" else "inf"
  | S754_zero s => if s then "-0.0" else "0.0"
  | S754_finite s m e =>
      let num := if 0 <=? e then Zpos m * 2 ^ e else Zpos m in
      let den := if 0 <=? e then 1 else 2 ^ (- e) in
      let '(k, p) :=
        shortest_digits 17 1 (abs x) num den (floor_log10 num den) in
      let '(k, p) := drop_zeros 20 k p in
      (if s then "-" else EmptyString) +:+ layout k p
  end.

Definition quote : string := String "034" EmptyString.
Definition newline : string := String "010" EmptyString.

(** The text of a JSON string: quotes, backslashes and control characters
    are escaped, everything else is kept ([ensure_ascii=False]). *)
Fixpoint json_escape (s : string) : string :=
  match s with
  | EmptyString => EmptyString
  | String c s' =>
      (if Ascii.eqb c "034" then "\" +:+ quote
       else if Ascii.eqb c "\" then "\\"
       else if Ascii.eqb c "008" then "\b"
       else if Ascii.eqb c "012" then "\f"
       else if Ascii.eqb c "010" then "\n"
       else if Ascii.eqb c "013" then "\r"
       else if Ascii.eqb c "009" then "\t"
       else if (N_of_ascii c <? 32)%N
       then "\u00" +:+ (if (N_of_ascii c <? 16)%N then "0" else "1")
            +:+ substring (N.to_nat (N_of_ascii c mod 16)) 1 "0123456789abcdef"
       else String c EmptyString) +:+ json_escape s'
  end.

Definition json_string (s : string) : string :=
  quote +:+ json_escape s +:+ quote.

Definition json_number (x : float) : string :=
  match Prim2SF x with
  | S754_nan => "NaN"
  | S754_infinity s => if s then "-Infinity" else "Infinity"
  | _ => float_repr x
  end.

Definition json_entry (entry : string * account_info) : string :=
  let '(key, info) := entry in
  "  " +:+ json_string key +:+ ": {" +:+ newline
  +:+ "    " +:+ json_string "id" +:+ ": " +:+ pretty (id info) +:+ ","
  +:+ newline
  +:+ "    " +:+ json_string "name" +:+ ": " +:+ json_string (name info)
  +:+ "," +:+ newline
  +:+ "    " +:+ json_string "created" +:+ ": "
  +:+ json_string (created info) +:+ "," +:+ newline
  +:+ "    " +:+ json_string "balance" +:+ ": "
  +:+ json_number (info_balance info) +:+ newline
  +:+ "  }".

Fixpoint json_entries (entries : list (string * account_info)) : string :=
  match entries with
  | [] => EmptyString
  | [entry] => json_entry entry +:+ newline
  | entry :: rest => json_entry entry +:+ "," +:+ newline +:+ json_entries rest
  end.

(** [json.dump(data, indent=2, ensure_ascii=False)], entries in the order
    of the keys. *)
Definition json_dumps (data : gmap string account_info) : string :=
  match map_to_list data with
  | [] => "{}"
  | entries => "{" +:+ newline +:+ json_entries entries +:+ "}"
  end.

(** JSON values, as far as [json.loads] needs them here. *)
#[local] Unset Elimination Schemes.
Inductive json : Type :=
| JNull
| JBool (b : bool)
| JInt (n : Z)
| JFloat (x : float)
| JString (s : string)
| JArray (items : list json)
| JObject (members : list (string * json)).
#[local] Set Elimination Schemes.

Fixpoint skip_ws (s : string) : string :=
  match s with
  | String c s' =>
      if Ascii.eqb c " " || Ascii.eqb c "009" || Ascii.eqb c "010"
         || Ascii.eqb c "013"
      then skip_ws s' else s
  | EmptyString => s
  end.

Definition hex_val (c : ascii) : option N :=
  let n := N_of_ascii c in
  if ((48 <=? n) && (n <=? 57))%N then Some (n - 48)%N
  else if ((97 <=? n) && (n <=? 102))%N then Some (n - 87)%N
  else if ((65 <=? n) && (n <=? 70))%N then Some (n - 55)%N
  else None.

(** The text of a string literal after its opening quote. *)
Fixpoint parse_string (s : string) : option (string * string) :=
  match s with
  | EmptyString => None
  | String c r =>
      if Ascii.eqb c "034" then Some (EmptyString, r)
      else if (N_of_ascii c <? 32)%N then None
      else if Ascii.eqb c "\" then
        match r with
        | String e r' =>
            let plain (d : ascii) :=
              match parse_string r' with
              | Some (t, rest) => Some (String d t, rest)
              | None => None
              end in
            if Ascii.eqb e "034" then plain "034"%char
            else if Ascii.eqb e "\" then plain "\"%char
            else if Ascii.eqb e "/" then plain "/"%char
            else if Ascii.eqb e "b" then plain "008"%char
            else if Ascii.eqb e "f" then plain "012"%char
            else if Ascii.eqb e "n" then plain "010"%char
            else if Ascii.eqb e "r" then plain "013"%char
            else if Ascii.eqb e "t" then plain "009"%char
            else if Ascii.eqb e "u" then
              match r' with
              | String h1 (String h2 (String h3 (String h4 r''))) =>
                  match hex_val h1, hex_val h2, hex_val h3, hex_val h4 with
                  | Some 0%N, Some 0%N, Some a, Some b =>
                      match parse_string r'' with
                      | Some (t, rest) =>
                          Some (String (ascii_of_N (16 * a + b)) t, rest)
                      | None => None
                      end
                  | _, _, _, _ => None
                  end
              | _ => None
              end
            else None
        | EmptyString => None
        end
      else
        match parse_string r with
        | Some (t, rest) => Some (String c t, rest)
        | None => None
        end
  end.

(** The longest prefix made of the characters of a number. *)
Fixpoint number_token (s : string) : string * string :=
  match s with
  | String c r =>
      if is_digit c || Ascii.eqb c "-" || Ascii.eqb c "+" || Ascii.eqb c "."
         || Ascii.eqb c "e" || Ascii.eqb c "E"
      then let '(t, rest) := number_token r in (String c t, rest)
      else (EmptyString, s)
  | EmptyString => (EmptyString, s)
  end.

(** A JSON number: an optional minus, digits without a leading zero, an
    optional fraction and an optional exponent. *)
Definition parse_number (t : string) : option json :=
  let '(neg, body) :=
    match t with String "-" r => (true, r) | _ => (false, t) end in
  let '(n, len, rest) := read_digits body 0 0 in
  let leading_zero :=
    match body with String "0" _ => 1 <? len | _ => false end in
  if (len =? 0) || leading_zero then None
  else
    match rest with
    | EmptyString => Some (JInt (if neg : bool then - n else n))
    | _ =>
        let '(_, flen, rest') :=
          match rest with
          | String "." r => read_digits r 0 0
          | _ => (0, 1, rest)
          end in
        let exponent_ok :=
          match rest' with
          | EmptyString => true
          | String c r =>
              Ascii.eqb (lower c) "e"
              && (let r := match r with
                           | String "-" r' | String "+" r' => r'
                           | _ => r
                           end in
                  let '(_, elen, r') := read_digits r 0 0 in
                  (0 <? elen) && negb (truthy r'))
          end in
        if (0 <? flen) && exponent_ok then
          match float_of_str t with
          | Some x => Some (JFloat x)
          | None => None
          end
        else None
    end.

Definition starts_with (p s : string) : option string :=
  if (substring 0 (String.length p) s =? p)%string
  then Some (substring (String.length p) (String.length s - String.length p) s)
  else None.

Fixpoint parse_value (fuel : nat) (s : string) : option (json * string) :=
  match fuel with
  | O => None
  | S fuel' =>
      match skip_ws s with
      | String "{" r =>
          match skip_ws r with
          | String "}" r' => Some (JObject [], r')
          | _ =>
              match parse_members fuel' r with
              | Some (ms, r') => Some (JObject ms, r')
              | None => None
              end
          end
      | String "[" r =>
          match skip_ws r with
          | String "]" r' => Some (JArray [], r')
          | _ =>
              match parse_items fuel' r with
              | Some (vs, r') => Some (JArray vs, r')
              | None => None
              end
          end
      | String "034" r =>
          match parse_string r with
          | Some (t, r') => Some (JString t, r')
          | None => None
          end
      | s' =>
          match starts_with "true" s', starts_with "false" s',
                starts_with "null" s', starts_with "NaN" s',
                starts_with "Infinity" s', starts_with "-Infinity" s' with
          | Some r, _, _, _, _, _ => Some (JBool true, r)
          | _, Some r, _, _, _, _ => Some (JBool false, r)
          | _, _, Some r, _, _, _ => Some (JNull, r)
          | _, _, _, Some r, _, _ => Some (JFloat nan, r)
          | _, _, _, _, Some r, _ => Some (JFloat infinity, r)
          | _, _, _, _, _, Some r => Some (JFloat neg_infinity, r)
          | _, _, _, _, _, _ =>
              let '(t, r) := number_token s' in
              match parse_number t with
              | Some v => Some (v, r)
              | None => None
              end
          end
      end
  end
with parse_items (fuel : nat) (s : string) : option (list json * string) :=
  match fuel with
  | O => None
  | S fuel' =>
      match parse_value fuel' s with
      | Some (v, r) =>
          match skip_ws r with
          | String "," r' =>
              match parse_items fuel' r' with
              | Some (vs, r'') => Some (v :: vs, r'')
              | None => None
              end
          | String "]" r' => Some ([v], r')
          | _ => None
          end
      | None => None
      end
  end
with parse_members (fuel : nat) (s : string)
    : option (list (string * json) * string) :=
  match fuel with
  | O => None
  | S fuel' =>
      match skip_ws s with
      | String "034" r =>
          match parse_string r with
          | Some (key, r1) =>
              match skip_ws r1 with
              | String ":" r2 =>
                  match parse_value fuel' r2 with
                  | Some (v, r3) =>
                      match skip_ws r3 with
                      | String "," r4 =>
                          match parse_members fuel' r4 with
                          | Some (ms, r5) => Some ((key, v) :: ms, r5)
                          | None => None
                          end
                      | String "}" r4 => Some ([(key, v)], r4)
                      | _ => None
                      end
                  | None => None
                  end
              | _ => None
              end
          | None => None
          end
      | _ => None
      end
  end.

(** The whole text as one JSON value. *)
Definition parse_json (s : string) : option json :=
  match parse_value (S (String.length s)) s with
  | Some (v, rest) =>
      match skip_ws rest with EmptyString => Some v | _ => None end
  | None => None
  end.

(** Later members win over earlier ones with the same key, as in a Python
    dictionary. *)
Definition member (key : string) (ms : list (string * json)) : option json :=
  snd <$> List.find (fun m => (fst m =? key)%string) (rev ms).

(** An object with the four fields of a registry entry and no other. *)
Definition entry_of_json (v : json) : option account_info :=
  match v with
  | JObject ms =>
      match member "id" ms, member "name" ms, member "created" ms,
            member "balance" ms with
      | Some (JInt i), Some (JString n), Some (JString c), Some b =>
          let others :=
            List.filter (fun m => negb (existsb (String.eqb (fst m))
                                   ["id"; "name"; "created"; "balance"])) ms in
          match b, others with
          | JFloat x, [] => Some (mk_account_info i n c x)
          | JInt k, [] =>
              match float_of_int k with
              | Ok x => Some (mk_account_info i n c x)
              | Raise _ => None
              end
          | _, _ => None
          end
      | _, _, _, _ => None
      end
  | _ => None
  end.

Fixpoint entries_of_json (ms : list (string * json))
    : option (gmap string account_info) :=
  match ms with
  | [] => Some ∅
  | (key, v) :: ms' =>
      match entry_of_json v, entries_of_json ms' with
      | Some info, Some accounts =>
          Some (match accounts !! key with
                | Some _ => accounts
                | None => <[key:=info]> accounts
                end)
      | _, _ => None
      end
  end.

(** [json.loads] on registries of the shape the program writes; other
    JSON values are [JOther]; an object that holds anything but registry
    entries is outside this fragment and is treated as malformed. *)
Definition json_loads (s : string) : option jdoc :=
  match parse_json s with
  | Some (JObject ms) => JDict <$> entries_of_json ms
  | Some _ => Some JOther
  | None => None
  end.

Definition builtins : PyBuiltins :=
  Build_PyBuiltins float_of_str float_repr json_loads json_dumps.

End Reference.

(** Worlds for the examples: the files [fs], all readable, of which the
    paths in [locked] cannot be written; the clock shows 2024-05-17
    09:30:00. *)
Definition world_with (fs : gmap string string) (locked : gset string)
    : world :=
  {| files := fs; unreadable := ∅; unwritable := locked;
     now := mk_datetime 2024 5 17 9 30 0 |}.

(** No file yet, nothing locked. *)
Definition fresh_world : world := world_with ∅ ∅.

(** [AccountManager()] *)
Definition default_AccountManager : AccountManager :=
  {| file_manager := default_FileManager |}.

(** ** Vocabulary of the statements *)

(** The message of the [except] clauses of [deposit] and [withdraw]:
    ["Invalid amount format"] for a [ValueError] or a [TypeError], and
    [f"{operation} error: {e}"] for any other exception. *)
Definition except_message (operation : string) (e : exn) : string :=
  if is_ValueError e || is_TypeError e then "Invalid amount format"
  else operation +:+ " error: " +:+ exn_str e.

(** The value a run has returned, if it has not raised. *)
Definition returned {A} (r : result A * world) : option A :=
  match fst r with Ok a => Some a | Raise _ => None end.

(** An account object as the examples use it. *)
Definition account_with (b : float) : BankAccount :=
  {| account_id := 1; account_manager := default_AccountManager; balance := b |}.

(** The balance file of the account with id 1. *)
Definition balance_file_1 : string := "accounts/account_1_balance.txt".

(** ** Classes of doubles *)

(** Not NaN and not below zero: what [0 <= x] means for a double. *)
Definition SF_nonneg (x : spec_float) : bool :=
  match x with
  | S754_zero _ | S754_infinity false | S754_finite false _ _ => true
  | _ => false
  end.

(** Above zero. *)
Definition SF_pos (x : spec_float) : bool :=
  match x with
  | S754_infinity false | S754_finite false _ _ => true
  | _ => false
  end.

Definition SF_finite (x : spec_float) : bool :=
  match x with
  | S754_zero _ | S754_finite _ _ _ => true
  | _ => false
  end.

(** ** Sequences of operations *)

(** [math.isfinite(x)] *)
Definition isfinite (x : float) : bool :=
  match Prim2SF x with
  | S754_zero _ | S754_finite _ _ _ => true
  | _ => false
  end.

Inductive operation : Type :=
| Deposit (amount : pyobj)
| Withdraw (amount : pyobj).

Definition amount_of (op : operation) : pyobj :=
  match op with Deposit amount | Withdraw amount => amount end.

Section Sequences.
Context `{PyBuiltins}.

Definition perform (self : BankAccount) (op : operation)
    : IO (BankAccount * (bool * string)) :=
  match op with
  | Deposit amount => deposit self amount
  | Withdraw amount => withdraw self amount
  end.

(** The calls of [ops] one after the other on the same object. *)
Fixpoint perform_all (self : BankAccount) (ops : list operation)
    : IO BankAccount :=
  match ops with
  | [] => ret self
  | op :: ops' => r <- perform self op;; perform_all (fst r) ops'
  end.

End Sequences.

(** ** Further vocabulary *)

(** The balance file of an account object. *)
Definition balance_file_of (self : BankAccount) : string :=
  get_account_balance_path (file_manager (account_manager self))
    (account_id self).

(** ** More of the library *)

Definition line_feed : string := String "010" EmptyString.

(** [with open(p, 'a') as f: f.write(c)]: the text goes after what the
    file holds, and a file that is not there is created. *)
Definition append_text (p c : string) : IO unit :=
  fun w =>
    if bool_decide (p ∈ unwritable w) then (Raise (PermissionError p), w)
    else
      (Ok tt,
       set_files (fun fs => <[p := default EmptyString (fs !! p) +:+ c]> fs) w).

(** The lines of a text, each with its line end; the last one may have
    none. *)
Fixpoint split_lines (s : string) : list string :=
  match s with
  | EmptyString => []
  | String c r =>
      if Ascii.eqb c "010" then String c EmptyString :: split_lines r
      else
        match split_lines r with
        | [] => [String c EmptyString]
        | line :: lines => String c line :: lines
        end
  end.

(** [with open(p, 'r') as f: f.readlines()] *)
Definition readlines (p : string) : IO (list string) :=
  text <- read_text p;;
  ret (split_lines (universal_newlines text)).

(** [l[start:]] *)
Definition slice_from {A} (start : Z) (l : list A) : list A :=
  let n := Z.of_nat (length l) in
  let start := if start <? 0 then Z.max 0 (start + n) else start in
  drop (Z.to_nat start) l.

(** [sep.join(parts)] *)
Fixpoint join (sep : string) (parts : list string) : string :=
  match parts with
  | [] => EmptyString
  | [part] => part
  | part :: rest => part +:+ sep +:+ join sep rest
  end.

(** [s.replace(c, '')] for a one-character [c]. *)
Fixpoint remove_char (c : ascii) (s : string) : string :=
  match s with
  | EmptyString => EmptyString
  | String d r =>
      if Ascii.eqb d c then remove_char c r else String d (remove_char c r)
  end.

(** [s.split('.')[0]] *)
Fixpoint before_dot (s : string) : string :=
  match s with
  | EmptyString => EmptyString
  | String c r => if Ascii.eqb c "." then EmptyString else String c (before_dot r)
  end.

(** [s.split('.')[1]] for an [s] that holds a ['.']: the text between the
    first ['.'] and the next one, or the end. *)
Fixpoint second_field (s : string) : string :=
  match s with
  | EmptyString => EmptyString
  | String c r => if Ascii.eqb c "." then before_dot r else second_field r
  end.

(** A text without a line end in it. *)
Definition single_line (s : string) : bool :=
  negb (contains_char "010" s) && negb (contains_char "013" s).

(** [str(v)] *)
Definition py_str `{PyBuiltins} (v : pyobj) : string :=
  match v with
  | PyFloat x => float_repr x
  | PyInt n => str_of_int n
  | PyBool b => if b then "True" else "False"
  | PyStr s => s
  | PyNone => "None"
  end.

(** ** tStyle.py: the transaction log and the helpers

    *** class TransactionLogger

    [json.dumps] of a log entry and [json.loads] of a line belong to the
    library, as above; [None] stands for [json.JSONDecodeError].  What a
    line parses to is a JSON value. *)

Record TransactionLogger : Type := mk_TransactionLogger {
  log_folder : string
}.

(** The dictionary [log_entry] of [log_transaction]; [None] is the value
    of a service or a token that is not given. *)
Record log_entry : Type := mk_log_entry {
  log_timestamp : string;
  log_type : string;
  log_amount : float;
  log_service : option string;
  log_token : option string
}.

Class LogCodec : Type := {
  dumps_entry : log_entry -> string;
  loads_line : string -> option Reference.json
}.

Section Helpers.
Context `{PyBuiltins} `{LogCodec}.

Definition log_file_of (self : TransactionLogger) (account_id : Z) : string :=
  os_path_join (log_folder self)
    ("account_" +:+ str_of_int account_id +:+ "_transactions.log").

Definition log_transaction (self : TransactionLogger) (account_id : Z)
    (transaction_type : string) (amount : pyobj)
    (service token : option string) : IO bool :=
  try_except
    (let log_file := log_file_of self account_id in
     t <- datetime_now;;
     let timestamp := strftime_iso t in
     amount <- lift (py_float amount);;
     let log_entry :=
       {| log_timestamp := timestamp; log_type := transaction_type;
          log_amount := amount; log_service := service;
          log_token := token |} in
     append_text log_file (dumps_entry log_entry +:+ line_feed);;;
     ret true)
    (fun _ => ret false).

(** The loop over [lines[-limit:]] keeps the lines that parse, in their
    order. *)
Definition get_transaction_history (self : TransactionLogger)
    (account_id : Z) (limit : Z) : IO (list Reference.json) :=
  try_except
    (let log_file := log_file_of self account_id in
     there <- os_path_exists log_file;;
     if negb there then ret []
     else
       lines <- readlines log_file;;
       ret (omap (fun line => loads_line (strip line))
              (slice_from (- limit) lines)))
    (fun _ => ret []).

(** The text of a log that holds the entries [es], oldest first. *)
Definition log_text (es : list log_entry) : string :=
  foldr (fun e rest => dumps_entry e +:+ line_feed +:+ rest) EmptyString es.

(** *** generate_token

    [draws k] is what the call number [k] of [random.randint(1000, 9999)]
    returns.  [randint] does not raise, so the fallback of the [except]
    clause is never taken. *)
Definition generate_token (draws : nat -> Z) : string :=
  join " " (map (fun k => str_of_int (draws k)) (seq 0 4)).

(** *** format_currency *)

Definition format_currency (amount : pyobj) : result string :=
  match py_float amount with
  | Ok x => Ok ("R" +:+ format_money x)
  | Raise e =>
      if is_ValueError e || is_TypeError e then Ok ("R" +:+ py_str amount)
      else Raise e
  end.

(** *** validate_amount

    For a string argument.  The second component of the result is the
    message when the first is [False] and the amount when it is
    [True]. *)

Definition clean_amount (amount_str : string) : string :=
  remove_char " " (remove_char "," (remove_char "R" amount_str)).

Definition validate_amount (amount_str : string) : bool * (string + float) :=
  let clean_amount := clean_amount amount_str in
  match float_of_str clean_amount with
  | Some amount =>
      if (amount <? 0)%float then (false, inl "Amount cannot be negative")
      else if (999999999 <? amount)%float then
        (false, inl "Amount exceeds maximum limit")
      else if contains_char "." clean_amount
              && (2 <? String.length (second_field clean_amount))%nat then
        (false, inl "Amount cannot have more than 2 decimal places")
      else (true, inr amount)
  | None => (false, inl "Invalid amount format")
  end.

End Helpers.

(** ** Biller.py: class BillingSystem without its console

    The menus and [print] are left out, and a method that asks for a line
    with [input] takes the line as an argument.  Of the object, the
    fields that the methods below read and write. *)

Record BillingSystem : Type := mk_BillingSystem {
  bs_account_manager : AccountManager;
  current_account : option BankAccount;
  running : bool
}.

Definition set_current_account (self : BillingSystem)
    (account : option BankAccount) : BillingSystem :=
  {| bs_account_manager := bs_account_manager self;
     current_account := account; running := running self |}.

Section Biller.
Context `{PyBuiltins}.

(** [accounts[account_id_str]['balance'] = balance] on an entry. *)
Definition set_info_balance (info : account_info) (b : float) : account_info :=
  {| id := id info; name := name info; created := created info;
     info_balance := b |}.

(** An attribute of [self.current_account] that is asked for when there
    is no current account. *)
Definition no_attribute (attribute : string) : exn :=
  Exception_ ("'NoneType' object has no attribute '" +:+ attribute +:+ "'").

(** Without a current account, [self.current_account.account_id] raises
    [AttributeError] (a subclass of [Exception], which is all that the
    handler looks at) after the registry has been read.  On a registry
    that is not a dictionary the membership test is false or raises
    [TypeError], or the item assignment raises it: nothing is written,
    and the [except] clause catches what is raised. *)
Definition update_account_registry (self : BillingSystem) : IO unit :=
  try_except
    (loaded <- get_accounts_list (bs_account_manager self);;
     match current_account self with
     | None => raise (no_attribute "account_id")
     | Some account =>
         let account_id_str := str_of_int (account_id account) in
         match loaded with
         | JDict accounts =>
             match accounts !! account_id_str with
             | Some info =>
                 let accounts :=
                   <[account_id_str := set_info_balance info (get_balance account)]>
                     accounts in
                 save_accounts_list (bs_account_manager self) accounts;;;
                 ret tt
             | None => ret tt
             end
         | JOther => ret tt
         end
     end)
    (fun _ => ret tt).

Definition logout (self : BillingSystem) : IO BillingSystem :=
  match current_account self with
  | Some _ =>
      update_account_registry self;;;
      ret (set_current_account self None)
  | None => ret self
  end.

(** [deposit_money] on the line typed at its prompt.  [deposit] changes
    the account object in place; the object it leaves is the current
    account from then on. *)
Definition deposit_money (self : BillingSystem) (line : string)
    : IO BillingSystem :=
  try_except
    (amount <- lift (py_float (PyStr line));;
     if (amount <=? 0)%float then ret self
     else
       match current_account self with
       | None => raise (no_attribute "deposit")
       | Some account =>
           r <- deposit account (PyFloat amount);;
           let self := set_current_account self (Some (fst r)) in
           if fst (snd r) then update_account_registry self;;; ret self
           else ret self
       end)
    (fun _ => ret self).

(** The part that [withdraw_money], [process_purchase] and
    [process_payment] share: the amount is read, checked and withdrawn,
    and the registry is updated after a withdrawal that succeeded. *)
Definition withdraw_line (self : BillingSystem) (line : string)
    : IO BillingSystem :=
  amount <- lift (py_float (PyStr line));;
  if (amount <=? 0)%float then ret self
  else
    match current_account self with
    | None => raise (no_attribute "withdraw")
    | Some account =>
        r <- withdraw account (PyFloat amount);;
        let self := set_current_account self (Some (fst r)) in
        if fst (snd r) then update_account_registry self;;; ret self
        else ret self
    end.

(** [withdraw_money] reads the balance for its first message before it
    asks for the amount. *)
Definition withdraw_money (self : BillingSystem) (line : string)
    : IO BillingSystem :=
  try_except
    (match current_account self with
     | None => raise (no_attribute "get_balance")
     | Some _ => withdraw_line self line
     end)
    (fun _ => ret self).

(** The token of a purchase is printed and kept nowhere. *)
Definition process_purchase (self : BillingSystem)
    (service description line : string) : IO BillingSystem :=
  try_except (withdraw_line self line) (fun _ => ret self).

Definition process_payment (self : BillingSystem)
    (bill description line : string) : IO BillingSystem :=
  try_except (withdraw_line self line) (fun _ => ret self).

End Biller.

(** The objects of the console: [BillingSystem()] makes its manager with
    [AccountManager()], and hands it to the accounts it opens. *)
Definition console_account (i : Z) (b : float) : BankAccount :=
  {| account_id := i; account_manager := default_AccountManager;
     balance := b |}.

Definition console (account : option BankAccount) (r : bool) : BillingSystem :=
  {| bs_account_manager := default_AccountManager;
     current_account := account; running := r |}.

(** ** A reference implementation of the log's JSON

    [json.dumps] of a log entry, with its default [ensure_ascii=True]
    and separators, and [json.loads] of a line, over code points below
    256. *)

Module LogReference.

Definition hex_digit (n : N) : string :=
  substring (N.to_nat n) 1 "0123456789abcdef".

(** Everything outside the printable ASCII characters is escaped. *)
Fixpoint json_escape (s : string) : string :=
  match s with
  | EmptyString => EmptyString
  | String c s' =>
      (if Ascii.eqb c "034" then "\" +:+ Reference.quote
       else if Ascii.eqb c "\" then "\\"
       else if Ascii.eqb c "008" then "\b"
       else if Ascii.eqb c "012" then "\f"
       else if Ascii.eqb c "010" then "\n"
       else if Ascii.eqb c "013" then "\r"
       else if Ascii.eqb c "009" then "\t"
       else if (N_of_ascii c <? 32)%N || (126 <? N_of_ascii c)%N
       then "\u00" +:+ hex_digit (N_of_ascii c / 16)
            +:+ hex_digit (N_of_ascii c mod 16)
       else String c EmptyString) +:+ json_escape s'
  end.

Definition json_string (s : string) : string :=
  Reference.quote +:+ json_escape s +:+ Reference.quote.

Definition json_optional (o : option string) : string :=
  match o with Some s => json_string s | None => "null" end.

Definition dumps_entry (e : log_entry) : string :=
  "{" +:+ json_string "timestamp" +:+ ": " +:+ json_string (log_timestamp e)
  +:+ ", " +:+ json_string "type" +:+ ": " +:+ json_string (log_type e)
  +:+ ", " +:+ json_string "amount" +:+ ": "
  +:+ Reference.json_number (log_amount e)
  +:+ ", " +:+ json_string "service" +:+ ": " +:+ json_optional (log_service e)
  +:+ ", " +:+ json_string "token" +:+ ": " +:+ json_optional (log_token e)
  +:+ "}".

Definition codec : LogCodec := Build_LogCodec dumps_entry Reference.parse_json.

End LogReference.

(** [TransactionLogger()] *)
Definition default_TransactionLogger : TransactionLogger :=
  {| log_folder := "logs" |}.

(** ** Inputs of the further examples *)

(** A blank text and a balance, each with the line end [\r\n], and the
    same with the line end [\n]. *)
Definition blank_crlf : string :=
  String " " (String "013" (String "010" EmptyString)).

Definition blank_lf : string := String " " (String "010" EmptyString).

Definition balance_crlf : string :=
  "50.0" +:+ String "013" (String "010" EmptyString).

Definition balance_lf : string := "50.0" +:+ String "010" EmptyString.

(** A registry that holds the keys ["1"] and ["3"], and a world whose
    registry file holds it. *)
Definition registry_1_3 : gmap string account_info :=
  {[ "1" := mk_account_info 1 "Ann" "2024-05-16 08:00:00" 10;
     "3" := mk_account_info 3 "Cy" "2024-05-16 08:05:00" 30 ]}.

Definition registry_1_3_world : world :=
  world_with {[ "accounts_registry.json" := Reference.json_dumps registry_1_3 ]}
             ∅.

(** The same for a registry that holds the key ["2"] alone. *)
Definition registry_2 : gmap string account_info :=
  {[ "2" := mk_account_info 2 "Bob" "2024-05-17 09:30:00" 12.5 ]}.

Definition registry_2_world : world :=
  world_with {[ "accounts_registry.json" := Reference.json_dumps registry_2 ]}
             ∅.

(** The entry of the account 1, and a registry that lists it. *)
Definition entry_1 (b : float) : account_info :=
  {| id := 1; name := "Al"; created := "2024-05-17 09:30:00";
     info_balance := b |}.

Definition registry_1 (b : float) : gmap string account_info :=
  {[ "1" := entry_1 b ]}.

(** A world whose registry file lists the account 1 with the balance
    50.0. *)
Definition registry_world : world :=
  world_with
    {[ "accounts_registry.json" := Reference.json_dumps (registry_1 50) ]} ∅.

(** A deposit, a withdrawal that is refused and one that goes through,
    on a balance of 50.0. *)
Definition three_operations : list operation :=
  [Deposit (PyInt 25); Withdraw (PyInt 100); Withdraw (PyFloat 30)].

(** A log entry, and the log of the account 1. *)
Definition deposit_entry : log_entry :=
  {| log_timestamp := "2024-05-17 09:30:00"; log_type := "deposit";
     log_amount := 25; log_service := None; log_token := None |}.

Definition log_file_1 : string := "logs/account_1_transactions.log".

(** * Properties *)

(** ** Floating-point comparisons *)

Lemma SFcompare_Lt_swap (x y : spec_float) :
  SFcompare x y = Some Lt -> SFcompare y x = Some Gt.
Proof.
  destruct x as [sx|sx| |sx mx ex], y as [sy|sy| |sy my ey]; simpl;
    try discriminate; try (destruct sx; discriminate);
    try (destruct sy; discriminate);
    try (destruct sx, sy; (discriminate || reflexivity)).
  destruct sx, sy; try discriminate; try reflexivity;
    rewrite (Z.compare_antisym ex ey);
    destruct (ex ?= ey); simpl; try discriminate; try reflexivity;
    rewrite !Pos.compare_cont_spec; simpl;
    rewrite (Pos.compare_antisym mx my);
    destruct (mx ?= my)%positive; simpl; (discriminate || reflexivity).
Qed.

(** [x < y] excludes [y <= x]. *)
Lemma ltb_not_leb (x y : float) :
  (x <? y)%float = true -> (y <=? x)%float = false.
Proof.
  rewrite ltb_spec, leb_spec. unfold SFltb, SFleb.
  destruct (SFcompare (Prim2SF x) (Prim2SF y)) as [[]|] eqn:E; try discriminate.
  intros _. now rewrite (SFcompare_Lt_swap _ _ E).
Qed.

Lemma leb_not_ltb (x y : float) :
  (x <=? y)%float = true -> (y <? x)%float = false.
Proof.
  intros Hle. destruct (y <? x)%float eqn:E; [|reflexivity].
  apply ltb_not_leb in E. congruence.
Qed.

(** NaN is absorbing for the sum. *)
Lemma add_nan (x : float) : Prim2SF (x + nan) = S754_nan.
Proof.
  rewrite add_spec. unfold SF64add, SFadd.
  change (Prim2SF nan) with S754_nan.
  now destruct (Prim2SF x) as [| | |[]].
Qed.

(** ** Sums and differences that stay at or above zero *)

Lemma SFleb_zero_nonneg (x : spec_float) :
  SFleb (S754_zero false) x = SF_nonneg x.
Proof. destruct x as [s|[]| |[] m e]; reflexivity. Qed.

Lemma SFleb_zero_r_pos (x : spec_float) :
  x <> S754_nan -> SFleb x (S754_zero false) = negb (SF_pos x).
Proof. destruct x as [s|[]| |[] m e]; intros Hx; try reflexivity. now elim Hx. Qed.

Lemma shr_1_nonneg (mrs : shr_record) : 0 <= shr_m mrs -> 0 <= shr_m (shr_1 mrs).
Proof.
  destruct mrs as [m r s]. cbn [shr_m].
  destruct m as [|[p|p|]|p]; cbn; lia.
Qed.

Lemma iter_pos_shr_1_nonneg (n : positive) :
  forall mrs, 0 <= shr_m mrs -> 0 <= shr_m (SpecFloat.iter_pos shr_1 n mrs).
Proof.
  induction n as [n IH|n IH|]; intros mrs Hm; cbn [SpecFloat.iter_pos].
  - apply IH, IH, shr_1_nonneg, Hm.
  - apply IH, IH, Hm.
  - apply shr_1_nonneg, Hm.
Qed.

Lemma shr_fexp_nonneg (m e : Z) (l : location) :
  0 <= m -> 0 <= shr_m (fst (shr_fexp prec emax m e l)).
Proof.
  intros Hm. unfold shr_fexp, shr.
  assert (0 <= shr_m (shr_record_of_loc m l)) as H0
    by (destruct l as [|[]]; exact Hm).
  destruct (fexp prec emax (Zdigits2 m + e) - e); cbn [fst]; auto.
  now apply iter_pos_shr_1_nonneg.
Qed.

Lemma round_nearest_even_nonneg (m : Z) (l : location) :
  0 <= m -> 0 <= round_nearest_even m l.
Proof.
  intros Hm. destruct l as [|[]]; cbn; try lia. destruct (Z.even m); lia.
Qed.

Lemma binary_round_aux_nonneg (m e : Z) (l : location) :
  0 <= m -> SF_nonneg (binary_round_aux prec emax false m e l) = true.
Proof.
  intros Hm. unfold binary_round_aux.
  pose proof (shr_fexp_nonneg m e l Hm) as H1.
  destruct (shr_fexp prec emax m e l) as [mrs' e']. cbn [fst] in H1.
  pose proof (shr_fexp_nonneg _ e' loc_Exact
                (round_nearest_even_nonneg _ (loc_of_shr_record mrs') H1)) as H2.
  destruct (shr_fexp prec emax _ e' loc_Exact) as [mrs'' e'']. cbn [fst] in H2.
  destruct (shr_m mrs'') as [|p|p]; [reflexivity| |lia].
  now destruct (e'' <=? emax - prec).
Qed.

Lemma binary_normalize_nonneg (m e : Z) (szero : bool) :
  0 <= m -> SF_nonneg (binary_normalize prec emax m e szero) = true.
Proof.
  intros Hm. destruct m as [|p|p]; cbn [binary_normalize]; [reflexivity| |lia].
  unfold binary_round. destruct (shl_align _ _ _) as [mz ez].
  now apply binary_round_aux_nonneg.
Qed.

(** The sum of two doubles that are not below zero is not below zero. *)
Lemma SFadd_nonneg (x y : spec_float) :
  SF_nonneg x = true -> SF_nonneg y = true ->
  SF_nonneg (SFadd prec emax x y) = true.
Proof.
  destruct x as [sx|[]| |[] mx ex], y as [sy|[]| |[] my ey]; try discriminate;
    intros _ _; try reflexivity.
  - now destruct sx, sy.
  - cbn [SFadd cond_Zopp]. apply binary_normalize_nonneg. lia.
Qed.

Lemma digits2_pos_bounds (p : positive) :
  2 ^ (Zpos (digits2_pos p) - 1) <= Zpos p < 2 ^ Zpos (digits2_pos p).
Proof.
  induction p as [p IH|p IH|]; cbn [digits2_pos]; [| |cbn; lia].
  - rewrite Pos2Z.inj_succ, Z.pow_succ_r by lia.
    replace (Z.succ (Zpos (digits2_pos p)) - 1)
      with (Z.succ (Zpos (digits2_pos p) - 1)) by lia.
    rewrite Z.pow_succ_r by lia. lia.
  - rewrite Pos2Z.inj_succ, Z.pow_succ_r by lia.
    replace (Z.succ (Zpos (digits2_pos p)) - 1)
      with (Z.succ (Zpos (digits2_pos p) - 1)) by lia.
    rewrite Z.pow_succ_r by lia. lia.
Qed.

Lemma iter_xO (d m : positive) : Zpos (Pos.iter xO m d) = Zpos m * 2 ^ Zpos d.
Proof.
  change (Pos.iter xO m d) with (shift_pos d m).
  rewrite shift_pos_correct, Zpower_pos_nat, Zpower_nat_Z, positive_nat_Z.
  lia.
Qed.

(** Of two valid positive doubles, the one with the larger exponent has
    the larger value once both are written with the smaller exponent. *)
Lemma aligned_mantissa_le (mx my : positive) (ex ey : Z) :
  bounded prec emax mx ex = true ->
  bounded prec emax my ey = true ->
  ey < ex ->
  Zpos my <= Zpos (fst (shl_align mx ex ey)).
Proof.
  assert (0 < prec) as prec_pos by reflexivity.
  unfold bounded, canonical_mantissa, fexp.
  intros [Hx _]%andb_prop [Hy _]%andb_prop Hlt.
  apply Z.eqb_eq in Hx, Hy.
  unfold shl_align. destruct (ey - ex) as [|d|d] eqn:Hd; try lia.
  cbn [fst]. rewrite iter_xO.
  pose proof (digits2_pos_bounds mx) as [Hmx _].
  pose proof (digits2_pos_bounds my) as [_ Hmy].
  assert (Zpos (digits2_pos my) <= prec) as Hdy by lia.
  assert (Zpos (digits2_pos mx) = prec) as Hdx by lia.
  rewrite Hdx in Hmx.
  assert (2 ^ Zpos (digits2_pos my) <= 2 ^ prec) as Hpow
    by (apply Z.pow_le_mono_r; lia).
  assert (2 ^ prec = 2 * 2 ^ (prec - 1)) as Hprec by reflexivity.
  assert (2 <= 2 ^ Zpos d) as H2d.
  { change 2 with (2 ^ 1) at 1. apply Z.pow_le_mono_r; lia. }
  nia.
Qed.

(** [x - y] is not below zero when [0 < y], [y] is finite, [x] is not
    below zero and [x < y] is false. *)
Lemma SFsub_nonneg (x y : spec_float) :
  valid_binary x = true ->
  valid_binary y = true ->
  SF_nonneg x = true ->
  SF_pos y = true -> SF_finite y = true ->
  SFltb x y = false ->
  SF_nonneg (SFsub prec emax x y) = true.
Proof.
  destruct y as [sy|[]| |[] my ey]; try discriminate.
  destruct x as [sx|[]| |[] mx ex]; try discriminate; intros Vx Vy _ _ _ Hlt;
    try reflexivity.
  cbn [SpecFloat.valid_binary] in Vx, Vy.
  unfold SFltb, SFcompare in Hlt.
  cbn [SFsub cond_Zopp]. apply binary_normalize_nonneg.
  destruct (Z.compare_spec ex ey) as [Heq|Hlt'|Hgt]; [|discriminate|].
  - subst ey. rewrite Z.min_id. unfold shl_align. rewrite Z.sub_diag.
    cbn [fst]. rewrite Pos.compare_cont_spec in Hlt. cbn in Hlt.
    destruct (Pos.compare_spec mx my); try discriminate; lia.
  - rewrite Z.min_r by lia.
    pose proof (aligned_mantissa_le mx my ex ey Vx Vy Hgt) as Hle.
    assert (fst (shl_align my ey ey) = my) as ->
      by (unfold shl_align; now rewrite Z.sub_diag).
    lia.
Qed.

(** ** The invariant of the balance on doubles *)

Lemma leb_zero_nonneg (x : float) :
  (0 <=? x)%float = SF_nonneg (Prim2SF x).
Proof. rewrite leb_spec. apply SFleb_zero_nonneg. Qed.

Lemma not_leb_zero_pos (x : float) :
  Prim2SF x <> S754_nan -> (x <=? 0)%float = false -> SF_pos (Prim2SF x) = true.
Proof.
  intros Hnan. rewrite leb_spec.
  change (Prim2SF 0) with (S754_zero false).
  rewrite SFleb_zero_r_pos by exact Hnan. now destruct (SF_pos (Prim2SF x)).
Qed.

Lemma SF_pos_nonneg (x : spec_float) : SF_pos x = true -> SF_nonneg x = true.
Proof. now destruct x as [s|[]| |[] m e]. Qed.

Lemma add_nonneg (b a : float) :
  (0 <=? b)%float = true ->
  Prim2SF a <> S754_nan -> (a <=? 0)%float = false ->
  (0 <=? b + a)%float = true.
Proof.
  rewrite !leb_zero_nonneg, add_spec. intros Hb Hnan Ha.
  apply SFadd_nonneg; [exact Hb|].
  apply SF_pos_nonneg, not_leb_zero_pos; assumption.
Qed.

Lemma sub_nonneg (b a : float) :
  (0 <=? b)%float = true ->
  isfinite a = true -> (a <=? 0)%float = false -> (b <? a)%float = false ->
  (0 <=? b - a)%float = true.
Proof.
  rewrite !leb_zero_nonneg, sub_spec, ltb_spec. intros Hb Hfin Ha Hlt.
  apply SFsub_nonneg; try apply Prim2SF_valid; try assumption.
  apply not_leb_zero_pos; [|exact Ha].
  unfold isfinite in Hfin. intros E. now rewrite E in Hfin.
Qed.

(** ** Exact cases *)

Lemma sub_diag_finite (b : float) : isfinite b = true -> (b - b)%float = 0%float.
Proof.
  intros Hfin. rewrite <- (SF2Prim_Prim2SF (b - b)), sub_spec.
  unfold isfinite in Hfin. unfold SF64sub, SFsub.
  destruct (Prim2SF b) as [[]| | |s m e]; try discriminate; try reflexivity.
  assert (shl_align m e e = (m, e)) as Halign
    by (unfold shl_align; now rewrite Z.sub_diag).
  rewrite Z.min_id, Halign. cbn [fst]. rewrite Z.sub_diag. reflexivity.
Qed.



(** ** The persistent store *)

Section Store.
Context `{PyBuiltins}.

(** *** The save methods never raise *)

Lemma copy_backup_total (src dst : string) (w : world) :
  exists w', copy_backup src dst w = (Ok tt, w').
Proof.
  unfold copy_backup, try_except, bind, read_text, write_text, ret.
  destruct (files w !! src); [|eauto].
  destruct (bool_decide (src ∈ unreadable w)); [eauto|].
  destruct (bool_decide (dst ∈ unwritable w)); eauto.
Qed.

Lemma save_balance_to_file_total (fm : FileManager) (i : Z) (b : float)
    (w : world) :
  exists ok w', save_balance_to_file fm i b w = (Ok ok, w').
Proof.
  unfold save_balance_to_file, try_except, bind.
  destruct (b <? 0)%float; [unfold ret; eauto|].
  unfold os_path_exists at 1.
  set (p := get_account_balance_path fm i).
  destruct (bool_decide (is_Some (files w !! p))).
  - destruct (copy_backup_total p (p +:+ ".backup") w) as [w1 ->].
    unfold write_text, ret.
    destruct (bool_decide (p ∈ unwritable w1)); eauto.
  - unfold ret, write_text.
    destruct (bool_decide (p ∈ unwritable w)); eauto.
Qed.

Lemma save_balance_total (self : BankAccount) (w : world) :
  exists ok w', save_balance self w = (Ok ok, w').
Proof. apply save_balance_to_file_total. Qed.

(** *** What the save methods leave behind *)

Lemma copy_backup_unwritable (src dst : string) (w w' : world) :
  copy_backup src dst w = (Ok tt, w') ->
  unwritable w' = unwritable w /\ unreadable w' = unreadable w
  /\ now w' = now w
  /\ forall q, q <> dst -> files w' !! q = files w !! q.
Proof.
  unfold copy_backup, try_except, bind, read_text, write_text, ret.
  destruct (files w !! src); [|now intros [= <-]].
  destruct (bool_decide (src ∈ unreadable w)); [now intros [= <-]|].
  destruct (bool_decide (dst ∈ unwritable w)); intros [= <-]; [done|].
  repeat split; try done. intros q Hq. cbn. now rewrite lookup_insert_ne.
Qed.

Lemma copy_backup_copies (src dst text : string) (w : world) :
  files w !! src = Some text -> src ∉ unreadable w -> dst ∉ unwritable w ->
  copy_backup src dst w
  = (Ok tt, set_files (insert dst (universal_newlines text)) w).
Proof.
  intros Hsrc Hr Hw.
  unfold copy_backup, try_except, bind, read_text, write_text, ret.
  now rewrite Hsrc, !bool_decide_eq_false_2.
Qed.

Lemma append_nonempty_ne (p s : string) : s <> EmptyString -> p <> p +:+ s.
Proof.
  intros Hs Hp. apply Hs. clear Hs.
  induction p as [|c p IH]; cbn in Hp; [done|].
  injection Hp as Hp. auto.
Qed.

(** A balance that is not negative goes into a writable balance file. *)
Lemma save_balance_to_file_writes (fm : FileManager) (i : Z) (b : float)
    (w : world) :
  (b <? 0)%float = false ->
  get_account_balance_path fm i ∉ unwritable w ->
  exists w',
    save_balance_to_file fm i b w = (Ok true, w')
    /\ files w' !! get_account_balance_path fm i = Some (float_repr b)
    /\ unwritable w' = unwritable w.
Proof.
  intros Hb Hw. unfold save_balance_to_file, try_except, bind.
  rewrite Hb. unfold os_path_exists at 1.
  set (p := get_account_balance_path fm i) in *.
  destruct (bool_decide (is_Some (files w !! p))).
  - destruct (copy_backup_total p (p +:+ ".backup") w) as [w1 E]. rewrite E.
    apply copy_backup_unwritable in E as (Hu & _ & _ & _).
    unfold write_text, ret. rewrite bool_decide_eq_false_2 by now rewrite Hu.
    eexists. split; [reflexivity|]. cbn. now rewrite lookup_insert_eq.
  - unfold ret, write_text. rewrite bool_decide_eq_false_2 by done.
    eexists. split; [reflexivity|]. cbn. now rewrite lookup_insert_eq.
Qed.

(** A negative balance is refused and nothing is written. *)
Lemma save_balance_to_file_negative (fm : FileManager) (i : Z) (b : float)
    (w : world) :
  (b <? 0)%float = true -> save_balance_to_file fm i b w = (Ok false, w).
Proof.
  intros Hb. unfold save_balance_to_file, try_except. now rewrite Hb.
Qed.

(** *** load_balance_from_file *)

(** The fall-through of [load_balance_from_file]: save the default, return
    the default. *)
Lemma load_balance_absent (fm : FileManager) (i : Z) (d : float) (w : world) :
  files w !! get_account_balance_path fm i = None ->
  load_balance_from_file fm i d w
  = (Ok d, snd (save_balance_to_file fm i d w)).
Proof.
  intros Hp. unfold load_balance_from_file, try_except, bind at 1.
  unfold os_path_exists at 1. rewrite Hp.
  rewrite bool_decide_eq_false_2 by (intros [? [=]]).
  unfold bind.
  destruct (save_balance_to_file_total fm i d w) as (ok & w' & ->).
  reflexivity.
Qed.

Lemma load_balance_blank (fm : FileManager) (i : Z) (d : float) (w : world)
    (text : string) :
  files w !! get_account_balance_path fm i = Some text ->
  get_account_balance_path fm i ∉ unreadable w ->
  truthy (strip text) = false ->
  load_balance_from_file fm i d w
  = (Ok d, snd (save_balance_to_file fm i d w)).
Proof.
  intros Hp Hr Hblank. unfold load_balance_from_file, try_except, bind at 1.
  unfold os_path_exists at 1. rewrite Hp.
  rewrite bool_decide_eq_true_2 by eauto.
  unfold bind at 1, read_text. rewrite Hp, bool_decide_eq_false_2 by done.
  rewrite Hblank. unfold bind.
  destruct (save_balance_to_file_total fm i d w) as (ok & w' & ->).
  reflexivity.
Qed.

(** C9. A balance file that holds a negative number makes
    [load_balance_from_file] return the default and write nothing: the
    world is unchanged, so the next load of the same account returns its
    default again. *)
Theorem load_negative_balance_keeps_file (fm : FileManager) (i : Z)
    (d d' x : float) (w : world) (text : string) :
  files w !! get_account_balance_path fm i = Some text ->
  truthy (strip text) = true ->
  float_of_str (strip text) = Some x ->
  (x <? 0)%float = true ->
  load_balance_from_file fm i d w = (Ok d, w)
  /\ (load_balance_from_file fm i d;;; load_balance_from_file fm i d') w
     = (Ok d', w).
Proof.
  intros Hp Htext Hx Hneg.
  assert (Hload : forall d0, load_balance_from_file fm i d0 w = (Ok d0, w)).
  { intros d0. unfold load_balance_from_file, try_except, bind at 1.
    unfold os_path_exists at 1. rewrite Hp.
    rewrite bool_decide_eq_true_2 by eauto.
    unfold bind at 1, read_text. rewrite Hp.
    destruct (bool_decide _); [reflexivity|].
    rewrite Htext. unfold bind, lift, py_float. rewrite Hx.
    now rewrite (ltb_not_leb _ _ Hneg). }
  split; [apply Hload|]. unfold bind. now rewrite !Hload.
Qed.

(** C8, as the code has it.  On a readable balance file that is empty or
    blank, [load_balance_from_file] does what it does when the file is
    absent: it calls [save_balance_to_file] with the default and returns
    the default.  A default that is not negative then stands in the file
    when the file can be written.  The two cases differ in the backup:
    the blank text is first copied to [<file>.backup], as the read of the
    copy hands it over, with [\n] for each of its line ends. *)
Theorem load_blank_balance_file (fm : FileManager) (i : Z) (d : float)
    (w : world) (text : string) :
  let p := get_account_balance_path fm i in
  files w !! p = Some text ->
  p ∉ unreadable w ->
  truthy (strip text) = false ->
  load_balance_from_file fm i d w
    = (Ok d, snd (save_balance_to_file fm i d w))
  /\ load_balance_from_file fm i d (set_files (delete p) w)
    = (Ok d, snd (save_balance_to_file fm i d (set_files (delete p) w)))
  /\ ((d <? 0)%float = false -> p ∉ unwritable w ->
      files (snd (load_balance_from_file fm i d w)) !! p
        = Some (float_repr d)
      /\ files (snd (load_balance_from_file fm i d (set_files (delete p) w))) !! p
        = Some (float_repr d))
  /\ ((d <? 0)%float = false -> p +:+ ".backup" ∉ unwritable w ->
      files (snd (load_balance_from_file fm i d w)) !! (p +:+ ".backup")
        = Some (universal_newlines text)
      /\ files (snd (load_balance_from_file fm i d (set_files (delete p) w)))
           !! (p +:+ ".backup")
        = files w !! (p +:+ ".backup")).
Proof.
  intros p Hp Hr Hblank.
  assert (Habs : files (set_files (delete p) w) !! p = None)
    by apply lookup_delete_eq.
  rewrite (load_balance_blank fm i d w text Hp Hr Hblank).
  rewrite (load_balance_absent fm i d _ Habs). cbn [snd].
  split; [done|]. split; [done|]. split.
  - intros Hd Hw.
    destruct (save_balance_to_file_writes fm i d w Hd Hw) as (w1 & -> & E1 & _).
    destruct (save_balance_to_file_writes fm i d (set_files (delete p) w) Hd Hw)
      as (w2 & -> & E2 & _).
    done.
  - intros Hd Hw.
    assert (Hne : p <> p +:+ ".backup") by now apply append_nonempty_ne.
    unfold save_balance_to_file, try_except, bind. rewrite Hd.
    unfold os_path_exists. fold p. rewrite Habs, Hp.
    rewrite bool_decide_eq_true_2 by eauto.
    rewrite bool_decide_eq_false_2 by (intros [? [=]]).
    rewrite (copy_backup_copies p _ text w Hp Hr Hw).
    unfold write_text, ret. cbn [unwritable set_files].
    destruct (bool_decide (p ∈ unwritable w)); cbn.
    + rewrite lookup_insert_eq, lookup_delete_ne by done. done.
    + rewrite lookup_insert_ne, lookup_insert_eq by done.
      rewrite lookup_insert_ne, lookup_delete_ne by done. done.
Qed.

(** *** save_json_file and load_json_file *)

Lemma save_json_file_total (p : string) (data : gmap string account_info)
    (w : world) :
  exists ok w', save_json_file p data w = (Ok ok, w').
Proof.
  unfold save_json_file, try_except, bind. unfold os_path_exists at 1.
  destruct (bool_decide (is_Some (files w !! p))).
  - destruct (copy_backup_total p (p +:+ ".backup") w) as [w1 ->].
    unfold write_text, ret.
    destruct (bool_decide (p ∈ unwritable w1)); eauto.
  - unfold ret, write_text.
    destruct (bool_decide (p ∈ unwritable w)); eauto.
Qed.


Lemma load_json_file_frame (p : string) (w : world) :
  unwritable (snd (load_json_file p w)) = unwritable w
  /\ now (snd (load_json_file p w)) = now w.
Proof.
  unfold load_json_file, try_except, bind, os_path_exists, read_text.
  destruct (files w !! p) as [text|] eqn:Hp.
  2:{ now rewrite bool_decide_eq_false_2 by (intros [? [=]]). }
  rewrite bool_decide_eq_true_2 by eauto. rewrite Hp.
  destruct (bool_decide (p ∈ unreadable w)); [done|].
  destruct (truthy (strip text)); [|done].
  destruct (json_loads (strip text)); [done|].
  unfold raise. cbn [is_JSONDecodeError].
  unfold datetime_now, os_rename. rewrite Hp.
  now destruct (bool_decide (_ ∈ unwritable w)).
Qed.

(** C7, as the code has it.  [load_json_file] returns the empty dictionary
    when the file is absent and when its text is not JSON; in the second
    case it tries to rename the file to [<file>.corrupted_<timestamp>]
    first: the text then stands under the new name and the old name is
    gone, unless the rename fails, which is ignored and leaves the file in
    place.  It never raises. *)
Theorem load_json_file_absent_or_corrupt (file_path : string) (w : world) :
  (files w !! file_path = None ->
   load_json_file file_path w = (Ok (JDict ∅), w))
  /\ (forall text,
        files w !! file_path = Some text ->
        file_path ∉ unreadable w ->
        truthy (strip text) = true ->
        json_loads (strip text) = None ->
        let backup_path :=
          file_path +:+ ".corrupted_" +:+ strftime_compact (now w) in
        load_json_file file_path w =
          (Ok (JDict ∅),
           if bool_decide (backup_path ∈ unwritable w) then w
           else set_files (fun fs => <[backup_path:=text]> (delete file_path fs)) w))
  /\ (exists data w', load_json_file file_path w = (Ok data, w')).
Proof.
  split; [|split].
  - intros Hp. unfold load_json_file, try_except, bind, os_path_exists.
    rewrite Hp. now rewrite bool_decide_eq_false_2 by (intros [? [=]]).
  - intros text Hp Hr Htext Hjson backup_path.
    unfold load_json_file, try_except, bind, os_path_exists, read_text.
    rewrite Hp. rewrite bool_decide_eq_true_2 by eauto.
    rewrite Hp, bool_decide_eq_false_2 by done.
    rewrite Htext, Hjson. unfold raise. cbn [is_JSONDecodeError].
    unfold datetime_now, os_rename. rewrite Hp. fold backup_path.
    now destruct (bool_decide (backup_path ∈ unwritable w)).
  - unfold load_json_file, try_except, bind, os_path_exists, read_text.
    destruct (files w !! file_path) as [text|] eqn:Hp.
    2:{ rewrite bool_decide_eq_false_2 by (intros [? [=]]). unfold ret. eauto. }
    rewrite bool_decide_eq_true_2 by eauto. rewrite Hp.
    destruct (bool_decide (file_path ∈ unreadable w)).
    { cbn. unfold ret. eauto. }
    destruct (truthy (strip text)); [|unfold ret; eauto].
    destruct (json_loads (strip text)); [unfold ret; eauto|].
    unfold raise. cbn [is_JSONDecodeError].
    unfold datetime_now, os_rename. rewrite Hp.
    destruct (bool_decide (_ ∈ unwritable w)); unfold ret; eauto.
Qed.

End Store.

(** ** The account entity *)

Section Entity.
Context `{PyBuiltins}.

(** *** deposit and withdraw, step by step *)

Lemma set_balance_back (self : BankAccount) (b : float) :
  set_balance (set_balance self b) (balance self) = self.
Proof. now destruct self. Qed.

Lemma deposit_unfold (self : BankAccount) (v : pyobj) (w : world) :
  deposit self v w =
  match py_float v with
  | Raise e => (Ok (self, (false, except_message "Deposit" e)), w)
  | Ok amount =>
      if (amount <=? 0)%float then
        (Ok (self, (false, "Deposit amount must be positive")), w)
      else
        let self' := set_balance self (balance self + amount)%float in
        match save_balance self' w with
        | (Ok true, w') =>
            (Ok (self', (true, "Deposit successful. New balance: R"
                               +:+ format_money (balance self'))), w')
        | (Ok false, w') =>
            (Ok (self, (false, "Failed to save transaction to file")), w')
        | (Raise e, w') =>
            (Ok (self, (false, except_message "Deposit" e)), w')
        end
  end.
Proof.
  unfold deposit, try_except, bind, lift, except_message.
  destruct (py_float v) as [amount|e].
  - destruct (amount <=? 0)%float; [reflexivity|].
    destruct (save_balance _ w) as [[[]|e] w']; cbn;
      rewrite ?set_balance_back; try reflexivity.
    now destruct (is_ValueError e || is_TypeError e).
  - now destruct (is_ValueError e || is_TypeError e).
Qed.

Lemma withdraw_unfold (self : BankAccount) (v : pyobj) (w : world) :
  withdraw self v w =
  match py_float v with
  | Raise e => (Ok (self, (false, except_message "Withdrawal" e)), w)
  | Ok amount =>
      if (amount <=? 0)%float then
        (Ok (self, (false, "Withdrawal amount must be positive")), w)
      else if (balance self <? amount)%float then
        (Ok (self, (false, "Insufficient funds. Available: R"
                           +:+ format_money (balance self))), w)
      else
        let self' := set_balance self (balance self - amount)%float in
        match save_balance self' w with
        | (Ok true, w') =>
            (Ok (self', (true, "Withdrawal successful. New balance: R"
                               +:+ format_money (balance self'))), w')
        | (Ok false, w') =>
            (Ok (self, (false, "Failed to save transaction to file")), w')
        | (Raise e, w') =>
            (Ok (self, (false, except_message "Withdrawal" e)), w')
        end
  end.
Proof.
  unfold withdraw, try_except, bind, lift, except_message.
  destruct (py_float v) as [amount|e].
  - destruct (amount <=? 0)%float; [reflexivity|].
    destruct (balance self <? amount)%float; [reflexivity|].
    destruct (save_balance _ w) as [[[]|e] w']; cbn;
      rewrite ?set_balance_back; try reflexivity.
    now destruct (is_ValueError e || is_TypeError e).
  - now destruct (is_ValueError e || is_TypeError e).
Qed.

(** *** Refusals, rollback and coercion *)

(** C2, as the code has it.  The amount is compared after [float()] has
    coerced it.  When the coercion gives a double above zero and above
    the balance, the withdrawal is refused: [withdraw] returns [(False,
    "Insufficient funds. Available: R<balance>")], the balance printed
    with two decimals, and neither the object nor the files change. *)
Theorem withdraw_insufficient_funds (self : BankAccount) (v : pyobj)
    (amount : float) (w : world) :
  py_float v = Ok amount ->
  (0 <? amount)%float = true ->
  (balance self <? amount)%float = true ->
  withdraw self v w =
    (Ok (self, (false, "Insufficient funds. Available: R"
                       +:+ format_money (get_balance self))), w).
Proof.
  intros Hv Hpos Hgt. rewrite withdraw_unfold, Hv.
  now rewrite (ltb_not_leb _ _ Hpos), Hgt.
Qed.

(** C3. When [save_balance] returns [False] inside [deposit] or inside
    [withdraw], the method returns [(False, "Failed to save transaction to
    file")] and the object is the one the method was called on: the
    balance is back at its value from before the call. *)
Theorem save_failure_rolls_back (self : BankAccount) (v : pyobj)
    (amount : float) (w w' : world) :
  py_float v = Ok amount ->
  (0 <? amount)%float = true ->
  (save_balance (set_balance self (balance self + amount)%float) w
     = (Ok false, w') ->
   deposit self v w =
     (Ok (self, (false, "Failed to save transaction to file")), w'))
  /\
  ((balance self <? amount)%float = false ->
   save_balance (set_balance self (balance self - amount)%float) w
     = (Ok false, w') ->
   withdraw self v w =
     (Ok (self, (false, "Failed to save transaction to file")), w')).
Proof.
  intros Hv Hpos. apply ltb_not_leb in Hpos. split.
  - intros Hsave. rewrite deposit_unfold, Hv, Hpos. cbn zeta. now rewrite Hsave.
  - intros Hle Hsave. rewrite withdraw_unfold, Hv, Hpos, Hle. cbn zeta.
    now rewrite Hsave.
Qed.


(** C10, as the code has it.  [deposit] and [withdraw] first coerce their
    argument with [float()].  When the coercion succeeds the call behaves
    as on the resulting float, so a string such as ["50"] is the amount
    50.0.  When it raises, the call returns [False] with the message
    ["Invalid amount format"] for a [ValueError] or a [TypeError], and
    with ["Deposit error: ..."] or ["Withdrawal error: ..."] for any other
    exception.  In no case does the call raise. *)
Theorem amount_coercion (self : BankAccount) (v : pyobj) (w : world) :
  match py_float v with
  | Ok x =>
      deposit self v w = deposit self (PyFloat x) w
      /\ withdraw self v w = withdraw self (PyFloat x) w
  | Raise e =>
      deposit self v w = (Ok (self, (false, except_message "Deposit" e)), w)
      /\ withdraw self v w
         = (Ok (self, (false, except_message "Withdrawal" e)), w)
  end
  /\ (exists r w', deposit self v w = (Ok r, w'))
  /\ (exists r w', withdraw self v w = (Ok r, w')).
Proof.
  split; [|split].
  - rewrite !deposit_unfold, !withdraw_unfold.
    destruct (py_float v) as [x|e]; [|split; reflexivity].
    rewrite !deposit_unfold, !withdraw_unfold. now cbn [py_float].
  - rewrite deposit_unfold. destruct (py_float v) as [x|e]; [|eauto].
    destruct (x <=? 0)%float; [eauto|]. cbn zeta.
    destruct (save_balance_total (set_balance self (balance self + x)%float) w)
      as (ok & w' & ->).
    destruct ok; eauto.
  - rewrite withdraw_unfold. destruct (py_float v) as [x|e]; [|eauto].
    destruct (x <=? 0)%float; [eauto|].
    destruct (balance self <? x)%float; [eauto|]. cbn zeta.
    destruct (save_balance_total (set_balance self (balance self - x)%float) w)
      as (ok & w' & ->).
    destruct ok; eauto.
Qed.

(** *** The sign of the balance *)

Lemma add_nan_eq (x : float) : (x + nan)%float = nan.
Proof.
  rewrite <- (SF2Prim_Prim2SF (x + nan)), add_nan. reflexivity.
Qed.

(** C1, the defect.  [deposit(float('nan'))] is accepted, because
    [nan <= 0] is false; the balance becomes NaN, which
    [save_balance_to_file] writes, because [nan < 0] is false; and
    [get_balance() >= 0] is false from then on. *)
Theorem deposit_nan_breaks_invariant (self : BankAccount) (w : world) :
  let balance_file :=
    get_account_balance_path (file_manager (account_manager self))
      (account_id self) in
  let w' := snd (save_balance (set_balance self nan) w) in
  balance_file ∉ unwritable w ->
  deposit self (PyFloat nan) w
  = (Ok (set_balance self nan,
         (true, "Deposit successful. New balance: Rnan")), w')
  /\ files w' !! balance_file = Some (float_repr nan)
  /\ (0 <=? get_balance (set_balance self nan))%float = false.
Proof.
  intros balance_file w' Hw. rewrite deposit_unfold. cbn [py_float].
  change (nan <=? 0)%float with false. cbn zeta. rewrite add_nan_eq.
  destruct (save_balance_to_file_writes (file_manager (account_manager self))
              (account_id self) nan w eq_refl Hw) as (w1 & Hsave & Hfile & _).
  unfold w', save_balance.
  cbn [set_balance balance account_id account_manager]. rewrite Hsave.
  split; [reflexivity|]. split; [done|]. reflexivity.
Qed.

Lemma isfinite_not_nan (x : float) : isfinite x = true -> Prim2SF x <> S754_nan.
Proof. unfold isfinite. intros Hfin E. now rewrite E in Hfin. Qed.

Lemma perform_keeps_nonneg (self : BankAccount) (op : operation) (w : world) :
  (0 <=? get_balance self)%float = true ->
  (forall x, py_float (amount_of op) = Ok x -> isfinite x = true) ->
  exists r w',
    perform self op w = (Ok r, w')
    /\ (0 <=? get_balance (fst r))%float = true.
Proof.
  intros Hb Hfin. destruct op as [v|v]; cbn [perform amount_of] in *.
  - rewrite deposit_unfold. destruct (py_float v) as [x|e]; [|eauto].
    specialize (Hfin x eq_refl).
    destruct (x <=? 0)%float eqn:Hx; [eauto|]. cbn zeta.
    destruct (save_balance_total (set_balance self (balance self + x)%float) w)
      as ([] & w' & ->); [|eauto].
    do 2 eexists. split; [reflexivity|]. cbn.
    apply add_nonneg; auto using isfinite_not_nan.
  - rewrite withdraw_unfold. destruct (py_float v) as [x|e]; [|eauto].
    specialize (Hfin x eq_refl).
    destruct (x <=? 0)%float eqn:Hx; [eauto|].
    destruct (balance self <? x)%float eqn:Hlt; [eauto|]. cbn zeta.
    destruct (save_balance_total (set_balance self (balance self - x)%float) w)
      as ([] & w' & ->); [|eauto].
    do 2 eexists. split; [reflexivity|]. cbn.
    now apply sub_nonneg.
Qed.

(** What holds of C1: an account whose balance is at or above zero keeps
    such a balance through every sequence of deposits and withdrawals
    whose amounts, when [float()] accepts them, are finite numbers. *)
Lemma balance_nonneg_for_finite_amounts (ops : list operation) :
  forall (self : BankAccount) (w : world),
    (0 <=? get_balance self)%float = true ->
    Forall (fun op => forall x, py_float (amount_of op) = Ok x ->
                                isfinite x = true) ops ->
    exists self' w',
      perform_all self ops w = (Ok self', w')
      /\ (0 <=? get_balance self')%float = true.
Proof.
  induction ops as [|op ops IH]; intros self w Hb Hops; cbn [perform_all].
  - unfold ret. eauto.
  - apply Forall_cons in Hops as [Hop Hops].
    destruct (perform_keeps_nonneg self op w Hb Hop) as (r & w1 & E & Hr).
    unfold bind. rewrite E. now apply IH.
Qed.

End Entity.

(** ** The account directory *)

(** *** The loop that picks the next account id *)

Lemma next_id_loop_spec (turns : nat) (accounts : gmap string account_info) :
  forall (start : Z) (seen : gset string),
    (forall k, start <= k -> is_Some (accounts !! str_of_int k) ->
               str_of_int k ∈ seen) ->
    (size seen < turns)%nat ->
    let i := next_id_loop turns accounts start in
    start <= i
    /\ accounts !! str_of_int i = None
    /\ forall k, start <= k < i -> is_Some (accounts !! str_of_int k).
Proof.
  induction turns as [|turns IH]; intros start seen Hseen Hsize; [lia|].
  cbn [next_id_loop]. case_bool_decide as Hstart.
  - destruct (IH (start + 1) (seen ∖ {[str_of_int start]})) as (Hle & Hfree & Hused).
    + intros k Hk Hsome. apply elem_of_difference. split; [apply Hseen; [lia|done]|].
      rewrite elem_of_singleton. intros Heq.
      apply (inj (pretty : Z -> string)) in Heq. lia.
    + assert (Hin : str_of_int start ∈ seen) by (apply Hseen; [lia|done]).
      rewrite size_difference, size_singleton
        by (intros x Hx; apply elem_of_singleton in Hx; now subst).
      assert (size seen <> 0)%nat; [|lia].
      intros Hzero. apply size_empty_inv in Hzero.
      apply (not_elem_of_empty (C:=gset string) (str_of_int start)).
      now apply Hzero.
    + cbn zeta. split; [lia|]. split; [done|].
      intros k Hk. destruct (decide (k = start)) as [->|]; [done|].
      apply Hused. lia.
  - cbn zeta. split; [lia|]. split; [|lia].
    destruct (accounts !! str_of_int start) eqn:E; [|done].
    exfalso. apply Hstart. eauto.
Qed.

(** The id that [create_new_account] picks is the smallest positive
    integer whose decimal string is not a key of the registry. *)
Lemma next_account_id_spec (accounts : gmap string account_info) :
  let i := next_account_id accounts in
  1 <= i
  /\ accounts !! str_of_int i = None
  /\ forall k, 1 <= k < i -> is_Some (accounts !! str_of_int k).
Proof.
  unfold next_account_id.
  apply (next_id_loop_spec _ accounts 1 (dom accounts)).
  - intros k _ Hk. now apply elem_of_dom.
  - rewrite size_dom. lia.
Qed.

Lemma next_account_id_unique (accounts : gmap string account_info) (i : Z) :
  1 <= i ->
  accounts !! str_of_int i = None ->
  (forall k, 1 <= k < i -> is_Some (accounts !! str_of_int k)) ->
  i = next_account_id accounts.
Proof.
  intros Hpos Hfree Hused.
  destruct (next_account_id_spec accounts) as (Hpos' & Hfree' & Hused').
  destruct (Z.lt_trichotomy i (next_account_id accounts)) as [Hlt|[Heq|Hgt]];
    [|done|].
  - destruct (Hused' i ltac:(lia)) as [x Hx]. congruence.
  - destruct (Hused (next_account_id accounts) ltac:(lia)) as [x Hx]. congruence.
Qed.

Lemma truthy_strip (s : string) : truthy (strip s) = true -> truthy s = true.
Proof. now destruct s. Qed.

Section Directory.
Context `{PyBuiltins}.

(** *** create_new_account *)


(** Whatever [create_new_account] returns carries the id that the loop
    has picked in the registry it has loaded. *)
Lemma create_new_account_returned (self : AccountManager)
    (account_name : string) (v : pyobj) (w : world)
    (accounts : gmap string account_info) (i : Z) (info : account_info) :
  returned (get_accounts_list self w) = Some (JDict accounts) ->
  returned (create_new_account self account_name v w) = Some (i, info) ->
  i = next_account_id accounts /\ id info = i
  /\ name info = strip account_name.
Proof.
  unfold returned at 1.
  destruct (get_accounts_list self w) as [[loaded|e] w1] eqn:Eload;
    [|discriminate].
  cbn. intros [= ->]. unfold returned, create_new_account.
  destruct (negb (truthy account_name) || negb (truthy (strip account_name)));
    [discriminate|].
  unfold bind at 1, lift. destruct (py_float v) as [b|e]; [|discriminate].
  destruct (b <? 0)%float; [discriminate|].
  unfold bind at 1. rewrite Eload.
  unfold bind at 1, datetime_now. unfold bind at 1.
  destruct (save_accounts_list self _ w1) as [[[]|e] w2]; try discriminate.
  unfold negb. unfold bind at 1.
  destruct (save_balance_to_file _ _ b w2) as [[[]|e] w3]; try discriminate.
  - unfold negb, ret. cbn. intros [= <- <-]. done.
  - unfold negb, bind.
    destruct (save_accounts_list self _ w3) as [[?|?] ?]; discriminate.
Qed.


End Directory.

(** *** validate_account_name *)


Section NameValidation.
Context `{PyBuiltins}.


End NameValidation.

(** * The program on concrete inputs *)

Section Examples.
#[local] Existing Instance Reference.builtins.

(** [withdraw(100)] on a balance of 50.00. *)
Lemma withdraw_insufficient_funds_witness :
  py_float (PyInt 100) = Ok 100%float
  /\ (0 <? 100)%float = true
  /\ (balance (account_with 50) <? 100)%float = true
  /\ withdraw (account_with 50) (PyInt 100) fresh_world
     = (Ok (account_with 50,
            (false, "Insufficient funds. Available: R50.00")), fresh_world).
Proof.
  pose proof (withdraw_insufficient_funds (account_with 50) (PyInt 100)
                100%float fresh_world eq_refl eq_refl eq_refl) as W.
  split; [reflexivity|]. split; [reflexivity|]. split; [reflexivity|].
  exact W.
Defined.

(** C2 as stated fails for amounts that [float()] changes or refuses.
    The [int] [10 ** 400] is above a balance of 50.0 and gets the answer
    of the last [except] clause; the [int] [2 ** 53 + 1] is above a
    balance of [2 ** 53], is coerced to [2 ** 53], and is paid out. *)
Lemma withdraw_insufficient_funds_counterexample :
  (0 < 10 ^ 400 /\ float_of_int 50 = Ok (balance (account_with 50))
   /\ 50 < 10 ^ 400
   /\ withdraw (account_with 50) (PyInt (10 ^ 400)) fresh_world
      = (Ok (account_with 50,
             (false, "Withdrawal error: int too large to convert to float")),
         fresh_world))
  /\ (0 < 2 ^ 53 + 1
      /\ float_of_int (2 ^ 53)
         = Ok (balance (account_with 9007199254740992))
      /\ 2 ^ 53 < 2 ^ 53 + 1
      /\ withdraw (account_with 9007199254740992) (PyInt (2 ^ 53 + 1))
           fresh_world
         = (Ok (account_with 0,
                (true, "Withdrawal successful. New balance: R0.00")),
            world_with {[ balance_file_1 := "0.0" ]} ∅)).
Proof. repeat split; vm_compute; reflexivity. Qed.

(** A deposit and a withdrawal whose save fails: the balance file of the
    account is write-protected. *)
Lemma save_failure_rolls_back_witness :
  let w := world_with {[ balance_file_1 := "50.0" ]} {[ balance_file_1 ]} in
  let w' :=
    world_with {[ balance_file_1 := "50.0";
                  balance_file_1 +:+ ".backup" := "50.0" ]}
               {[ balance_file_1 ]} in
  deposit (account_with 50) (PyInt 25) w
    = (Ok (account_with 50, (false, "Failed to save transaction to file")), w')
  /\ withdraw (account_with 50) (PyInt 25) w
    = (Ok (account_with 50, (false, "Failed to save transaction to file")), w').
Proof.
  intros w w'.
  destruct (save_failure_rolls_back (account_with 50) (PyInt 25) 25%float w w')
    as [Hdeposit Hwithdraw]; [reflexivity|reflexivity|].
  split.
  - apply Hdeposit. vm_compute. reflexivity.
  - apply Hwithdraw; [reflexivity|]. vm_compute. reflexivity.
Defined.



(** C10 as stated fails: an [int] beyond the range of doubles cannot be
    coerced, and the message is not ["Invalid amount format"]. *)
Lemma amount_coercion_counterexample :
  py_float (PyInt (10 ^ 400))
  = Raise (OverflowError "int too large to convert to float")
  /\ deposit (account_with 50) (PyInt (10 ^ 400)) fresh_world
     = (Ok (account_with 50,
            (false, "Deposit error: int too large to convert to float")),
        fresh_world)
  /\ withdraw (account_with 50) (PyInt (10 ^ 400)) fresh_world
     = (Ok (account_with 50,
            (false, "Withdrawal error: int too large to convert to float")),
        fresh_world).
Proof. repeat split; vm_compute; reflexivity. Qed.

(** The string ["50"] is the amount 50.0; the string ["abc"] and [None]
    are refused with ["Invalid amount format"]. *)
Example deposit_string_amounts :
  deposit (account_with 50) (PyStr "50") fresh_world
  = (Ok (account_with 100,
         (true, "Deposit successful. New balance: R100.00")),
     world_with {[ balance_file_1 := "100.0" ]} ∅)
  /\ deposit (account_with 50) (PyStr "abc") fresh_world
     = (Ok (account_with 50, (false, "Invalid amount format")), fresh_world)
  /\ withdraw (account_with 50) PyNone fresh_world
     = (Ok (account_with 50, (false, "Invalid amount format")), fresh_world).
Proof. repeat split; vm_compute; reflexivity. Qed.

(** Infinite amounts reach NaN in two steps: [deposit(inf)] makes the
    balance infinite and [withdraw(inf)] computes [inf - inf]. *)
Example deposit_withdraw_infinity :
  returned ((r <- deposit (account_with 50) (PyFloat infinity);;
             withdraw (fst r) (PyFloat infinity)) fresh_world)
  = Some (account_with nan,
          (true, "Withdrawal successful. New balance: Rnan")).
Proof. vm_compute. reflexivity. Qed.

(** [deposit(float('nan'))] on a balance of 50.00. *)
Lemma deposit_nan_breaks_invariant_witness :
  (0 <=? get_balance (account_with 50))%float = true
  /\ deposit (account_with 50) (PyFloat nan) fresh_world
     = (Ok (account_with nan,
            (true, "Deposit successful. New balance: Rnan")),
        world_with {[ balance_file_1 := "nan" ]} ∅)
  /\ (0 <=? get_balance (account_with nan))%float = false.
Proof.
  destruct (deposit_nan_breaks_invariant (account_with 50) fresh_world)
    as (Hdeposit & Hfile & Hneg).
  - intros Hin. vm_compute in Hin. discriminate Hin.
  - split; [reflexivity|]. split; [|exact Hneg].
    rewrite Hdeposit. vm_compute. reflexivity.
Defined.

(** A registry file that is not JSON is moved aside. *)
Lemma load_json_file_absent_or_corrupt_witness :
  let w := world_with {[ "accounts_registry.json" := "{bad json" ]} ∅ in
  load_json_file "accounts_registry.json" fresh_world
    = (Ok (JDict ∅), fresh_world)
  /\ json_loads (strip "{bad json") = None
  /\ load_json_file "accounts_registry.json" w
    = (Ok (JDict ∅),
       world_with {[ "accounts_registry.json.corrupted_20240517_093000"
                     := "{bad json" ]} ∅).
Proof.
  intros w.
  destruct (load_json_file_absent_or_corrupt "accounts_registry.json"
              fresh_world) as (Habsent & _ & _).
  destruct (load_json_file_absent_or_corrupt "accounts_registry.json" w)
    as (_ & Hcorrupt & _).
  split; [apply Habsent; reflexivity|]. split; [reflexivity|].
  assert (Hreadable : "accounts_registry.json" ∉ unreadable w)
    by (intros Hin; vm_compute in Hin; discriminate Hin).
  pose proof (Hcorrupt "{bad json" eq_refl Hreadable eq_refl eq_refl) as Hc.
  cbn zeta in Hc. rewrite Hc. vm_compute. reflexivity.
Defined.

(** C7 as stated fails: when the rename raises, the registry file that is
    not JSON stays where it is. *)
Lemma load_json_file_counterexample :
  let w :=
    world_with {[ "accounts_registry.json" := "{bad json" ]}
               {[ "accounts_registry.json.corrupted_20240517_093000" ]} in
  json_loads (strip "{bad json") = None
  /\ load_json_file "accounts_registry.json" w = (Ok (JDict ∅), w)
  /\ files w !! "accounts_registry.json" = Some "{bad json"
  /\ files w !! "accounts_registry.json.corrupted_20240517_093000" = None.
Proof. repeat split; vm_compute; reflexivity. Qed.

(** A blank balance file, a space and the line end [\r\n]: the default
    is written, and the backup holds the space and [\n]. *)
Lemma load_blank_balance_file_witness :
  let w := world_with {[ balance_file_1 := blank_crlf ]} ∅ in
  load_balance_from_file default_FileManager 1 1000000 w
    = (Ok 1000000%float,
       world_with {[ balance_file_1 := "1000000.0";
                     balance_file_1 +:+ ".backup" := blank_lf ]} ∅)
  /\ load_balance_from_file default_FileManager 1 1000000
       (set_files (delete balance_file_1) w)
    = (Ok 1000000%float, world_with {[ balance_file_1 := "1000000.0" ]} ∅)
  /\ files (snd (load_balance_from_file default_FileManager 1 1000000 w))
       !! (balance_file_1 +:+ ".backup") = Some blank_lf.
Proof.
  intros w.
  destruct (load_blank_balance_file default_FileManager 1 1000000 w blank_crlf)
    as (Hblank & Habsent & _ & Hbackup); try reflexivity.
  - intros Hin. vm_compute in Hin. discriminate Hin.
  - split; [|split].
    + rewrite Hblank. vm_compute. reflexivity.
    + etransitivity; [exact Habsent|]. vm_compute. reflexivity.
    + destruct Hbackup as [Hcopy _]; [reflexivity| |exact Hcopy].
      intros Hin. vm_compute in Hin. discriminate Hin.
Defined.

(** C8 as stated fails: the blank file and the absent file do not leave
    the same files behind. *)
Lemma load_blank_balance_file_counterexample :
  let w := world_with {[ balance_file_1 := "   " ]} ∅ in
  let blank := load_balance_from_file default_FileManager 1 1000000 w in
  let absent := load_balance_from_file default_FileManager 1 1000000 fresh_world in
  returned blank = Some 1000000%float
  /\ returned absent = Some 1000000%float
  /\ files (snd blank) !! (balance_file_1 +:+ ".backup") = Some "   "
  /\ files (snd absent) !! (balance_file_1 +:+ ".backup") = None
  /\ snd blank <> snd absent.
Proof.
  repeat split; try (vm_compute; reflexivity).
  intros Heq.
  apply (f_equal (fun w => files w !! (balance_file_1 +:+ ".backup"))) in Heq.
  vm_compute in Heq. discriminate Heq.
Qed.

(** A balance file that holds [-5.0]. *)
Lemma load_negative_balance_keeps_file_witness :
  let w := world_with {[ balance_file_1 := "-5.0" ]} ∅ in
  float_of_str (strip "-5.0") = Some (-5)%float
  /\ (-5 <? 0)%float = true
  /\ load_balance_from_file default_FileManager 1 1000000 w
     = (Ok 1000000%float, w)
  /\ (load_balance_from_file default_FileManager 1 1000000;;;
      load_balance_from_file default_FileManager 1 250) w
     = (Ok 250%float, w).
Proof.
  intros w. split; [reflexivity|]. split; [reflexivity|].
  exact (load_negative_balance_keeps_file default_FileManager 1 1000000 250
           (-5)%float w "-5.0" eq_refl eq_refl eq_refl eq_refl).
Defined.

(** Two creations in an empty directory yield the ids 1 and 2; when the
    registry holds the key ["2"] alone, the next creation yields 1. *)
Example create_two_accounts :
  returned ((first <- create_new_account default_AccountManager "Ann"
                        (PyInt 1000000);;
             second <- create_new_account default_AccountManager "Bob"
                         (PyStr "12.5");;
             ret (fst first, fst second)) fresh_world)
  = Some (1, 2)
  /\ fst <$> returned (create_new_account default_AccountManager "Cy"
                         (PyFloat 3)
                         (world_with
                            {[ "accounts_registry.json" :=
                                 Reference.json_dumps
                                   {[ "2" := mk_account_info 2 "Bob"
                                               "2024-05-17 09:30:00" 12.5 ]} ]}
                            ∅))
     = Some 1.
Proof. split; vm_compute; reflexivity. Qed.



End Examples.

(** * Further properties of the store *)

Section StoreMore.
Context `{PyBuiltins}.

(** ** save_balance_to_file *)

(** The cases of [save_balance_to_file], for the proofs below. *)
Lemma save_balance_to_file_cases (fm : FileManager) (i : Z) (b : float)
    (w : world) :
  let p := get_account_balance_path fm i in
  let ok := negb (b <? 0)%float && bool_decide (p ∉ unwritable w) in
  exists w',
    save_balance_to_file fm i b w = (Ok ok, w')
    /\ files w' !! p = (if ok then Some (float_repr b) else files w !! p)
    /\ (forall q, q <> p -> q <> p +:+ ".backup" ->
                  files w' !! q = files w !! q)
    /\ unwritable w' = unwritable w /\ unreadable w' = unreadable w
    /\ now w' = now w.
Proof.
  intros p ok. unfold ok, save_balance_to_file, try_except, bind.
  assert (Hne : p <> p +:+ ".backup") by now apply append_nonempty_ne.
  destruct (b <? 0)%float; cbn [negb andb]; [unfold ret; eauto 10|].
  unfold os_path_exists at 1. fold p.
  assert (Hstep : forall w1,
            unwritable w1 = unwritable w -> unreadable w1 = unreadable w ->
            now w1 = now w ->
            (forall q, q <> p +:+ ".backup" -> files w1 !! q = files w !! q) ->
            exists w',
              (let (r, w'0) :=
                 let (r, w'0) := write_text p (float_repr b) w1 in
                 match r with
                 | Ok _ => ret true w'0
                 | Raise e => (Raise e, w'0)
                 end in
               match r with
               | Ok a => (Ok a, w'0)
               | Raise _ => ret false w'0
               end) = (Ok (bool_decide (p ∉ unwritable w)), w')
              /\ files w' !! p
                 = (if bool_decide (p ∉ unwritable w) then Some (float_repr b)
                    else files w !! p)
              /\ (forall q, q <> p -> q <> p +:+ ".backup" ->
                            files w' !! q = files w !! q)
              /\ unwritable w' = unwritable w /\ unreadable w' = unreadable w
              /\ now w' = now w).
  { intros w1 Hu Hr Hn Hf. unfold write_text, ret. rewrite Hu.
    destruct (decide (p ∈ unwritable w)) as [Hin|Hout].
    - rewrite bool_decide_eq_true_2, bool_decide_eq_false_2 by tauto.
      exists w1. repeat split; auto.
    - rewrite bool_decide_eq_false_2, bool_decide_eq_true_2 by tauto.
      eexists. split; [reflexivity|]. cbn.
      rewrite lookup_insert_eq. repeat split; auto.
      intros q Hq Hq'. rewrite lookup_insert_ne by done. auto. }
  destruct (bool_decide (is_Some (files w !! p))).
  - destruct (copy_backup_total p (p +:+ ".backup") w) as [w1 E]. rewrite E.
    apply copy_backup_unwritable in E as (Hu & Hr & Hn & Hf).
    now apply Hstep.
  - unfold ret at 1. now apply Hstep.
Qed.

(** X1. [save_balance_to_file] returns [True] exactly when the balance
    is not negative and the balance file can be written. The file then
    holds the text of the balance; when the call returns [False] the
    file is as it was. In both cases no file but the balance file and
    its [.backup] has changed, and the call does not raise. *)
Theorem save_balance_to_file_outcome (fm : FileManager) (i : Z) (b : float)
    (w : world) :
  let p := get_account_balance_path fm i in
  let ok := negb (b <? 0)%float && bool_decide (p ∉ unwritable w) in
  exists w',
    save_balance_to_file fm i b w = (Ok ok, w')
    /\ files w' !! p = (if ok then Some (float_repr b) else files w !! p)
    /\ (forall q, q <> p -> q <> p +:+ ".backup" ->
                  files w' !! q = files w !! q)
    /\ unwritable w' = unwritable w /\ unreadable w' = unreadable w
    /\ now w' = now w.
Proof. apply save_balance_to_file_cases. Qed.

(** X2. The backup is one step of undo: when the balance file exists and
    can be read, and its [.backup] can be written, a call with a balance
    that is not negative leaves the former text of the file in the
    [.backup], whether the write of the new balance succeeds or not.  The
    copy goes through a read in text mode, so it holds the former text
    with [\n] for each of its line ends. *)
Theorem save_balance_to_file_keeps_backup (fm : FileManager) (i : Z)
    (b : float) (w : world) (old : string) :
  let p := get_account_balance_path fm i in
  files w !! p = Some old ->
  p ∉ unreadable w ->
  p +:+ ".backup" ∉ unwritable w ->
  (b <? 0)%float = false ->
  files (snd (save_balance_to_file fm i b w)) !! (p +:+ ".backup")
  = Some (universal_newlines old).
Proof.
  intros p Hp Hr Hw Hb.
  assert (Hne : p <> p +:+ ".backup") by now apply append_nonempty_ne.
  unfold save_balance_to_file, try_except, bind. rewrite Hb.
  unfold os_path_exists at 1. fold p. rewrite Hp.
  rewrite bool_decide_eq_true_2 by eauto.
  rewrite (copy_backup_copies p _ old w Hp Hr Hw).
  unfold write_text, ret. cbn [unwritable set_files].
  destruct (bool_decide (p ∈ unwritable w)); cbn.
  - now rewrite lookup_insert_eq.
  - now rewrite lookup_insert_ne, lookup_insert_eq.
Qed.

(** ** load_balance_from_file *)

(** The cases of [load_balance_from_file], for the proofs below. *)
Lemma load_balance_from_file_cases (fm : FileManager) (i : Z) (d : float)
    (w : world) :
  let p := get_account_balance_path fm i in
  exists x w',
    load_balance_from_file fm i d w = (Ok x, w')
    /\ (x = d \/ (0 <=? x)%float = true)
    /\ (forall q, q <> p -> q <> p +:+ ".backup" ->
                  files w' !! q = files w !! q).
Proof.
  intros p.
  destruct (save_balance_to_file_cases fm i d w)
    as (ws & Hsave & _ & Hframe & _).
  unfold load_balance_from_file, try_except, bind at 1.
  unfold os_path_exists at 1. fold p.
  assert (Hdefault :
            exists x w',
              (let (r, w'0) :=
                 (save_balance_to_file fm i d;;; ret d) w in
               match r with
               | Ok a => (Ok a, w'0)
               | Raise e =>
                   (if is_ValueError e || is_FileNotFoundError e
                    then ret d else ret d) w'0
               end) = (Ok x, w')
              /\ (x = d \/ (0 <=? x)%float = true)
              /\ (forall q, q <> p -> q <> p +:+ ".backup" ->
                            files w' !! q = files w !! q)).
  { unfold bind. rewrite Hsave. unfold ret. eauto 10. }
  destruct (bool_decide (is_Some (files w !! p))); [|exact Hdefault].
  unfold bind at 1, read_text.
  destruct (files w !! p) as [text|].
  2:{ cbn. unfold ret. eauto 10. }
  destruct (bool_decide (p ∈ unreadable w)).
  { cbn. unfold ret. eauto 10. }
  destruct (truthy (strip text)); [|exact Hdefault].
  unfold bind, lift. destruct (py_float (PyStr (strip text))) as [x|e].
  - unfold ret. destruct (0 <=? x)%float eqn:Hx; eauto 10.
  - destruct (is_ValueError e || is_FileNotFoundError e); unfold ret; eauto 10.
Qed.

(** X3. [load_balance_from_file] does not raise, and what it returns is
    the default or a number that is at or above zero: a negative number
    or NaN in the file never becomes the balance. No file but the
    balance file and its [.backup] changes. *)
Theorem load_balance_from_file_result (fm : FileManager) (i : Z) (d : float)
    (w : world) :
  let p := get_account_balance_path fm i in
  exists x w',
    load_balance_from_file fm i d w = (Ok x, w')
    /\ (x = d \/ (0 <=? x)%float = true)
    /\ (forall q, q <> p -> q <> p +:+ ".backup" ->
                  files w' !! q = files w !! q).
Proof. apply load_balance_from_file_cases. Qed.

(** X4. What [save_balance_to_file] has written,
    [load_balance_from_file] reads back, for a balance at or above zero
    whose text [float()] reads back as the same number. *)
Theorem save_then_load_balance (fm : FileManager) (i : Z) (b d : float)
    (w : world) :
  let p := get_account_balance_path fm i in
  (0 <=? b)%float = true ->
  p ∉ unwritable w ->
  p ∉ unreadable w ->
  truthy (strip (float_repr b)) = true ->
  float_of_str (strip (float_repr b)) = Some b ->
  returned ((save_balance_to_file fm i b;;; load_balance_from_file fm i d) w)
  = Some b.
Proof.
  intros p Hb Hw Hr Htext Hback.
  destruct (save_balance_to_file_cases fm i b w)
    as (w1 & Hsave & Hfile & _ & _ & Hr1 & _).
  fold p in Hfile.
  rewrite (leb_not_ltb _ _ Hb) in Hsave, Hfile.
  rewrite bool_decide_eq_true_2 in Hsave, Hfile by done.
  cbn [negb andb] in Hsave, Hfile.
  unfold returned, bind. rewrite Hsave.
  unfold load_balance_from_file, try_except, bind at 1.
  unfold os_path_exists at 1. fold p. rewrite Hfile.
  rewrite bool_decide_eq_true_2 by eauto.
  unfold bind at 1, read_text. rewrite Hfile, Hr1.
  rewrite bool_decide_eq_false_2 by done.
  rewrite Htext. unfold bind, lift, py_float. rewrite Hback. unfold ret.
  now rewrite Hb.
Qed.

(** ** load_json_file and save_json_file *)

(** X5. A registry file that is empty or blank, or that cannot be read,
    is an empty registry, and it stays where it is: only text that is
    not JSON is moved aside. *)
Theorem load_json_file_blank_or_unreadable (file_path : string) (w : world)
    (text : string) :
  files w !! file_path = Some text ->
  truthy (strip text) = false \/ file_path ∈ unreadable w ->
  load_json_file file_path w = (Ok (JDict ∅), w).
Proof.
  intros Hp Hcase.
  unfold load_json_file, try_except, bind, os_path_exists, read_text.
  rewrite Hp. rewrite bool_decide_eq_true_2 by eauto. rewrite Hp.
  destruct (decide (file_path ∈ unreadable w)) as [Hin|Hout].
  - now rewrite bool_decide_eq_true_2 by done.
  - rewrite bool_decide_eq_false_2 by done.
    destruct Hcase as [->|Hin]; [reflexivity|contradiction].
Qed.

(** X6. What [save_json_file] has written, [load_json_file] reads back,
    for a registry whose text [json.loads] reads back as the same
    registry. *)
Theorem save_then_load_json (file_path : string)
    (data : gmap string account_info) (w : world) :
  file_path ∉ unwritable w ->
  file_path ∉ unreadable w ->
  truthy (strip (json_dumps data)) = true ->
  json_loads (strip (json_dumps data)) = Some (JDict data) ->
  returned ((save_json_file file_path data;;; load_json_file file_path) w)
  = Some (JDict data).
Proof.
  intros Hw Hr Htext Hback.
  unfold returned, bind at 1.
  unfold save_json_file, try_except, bind at 1.
  unfold os_path_exists at 1.
  assert (Hstep : forall w1,
            unwritable w1 = unwritable w -> unreadable w1 = unreadable w ->
            fst (load_json_file file_path
                   (set_files (insert file_path (json_dumps data)) w1))
            = Ok (JDict data)).
  { intros w1 Hu Hr1.
    unfold load_json_file, try_except, bind, os_path_exists, read_text.
    cbn [files set_files unreadable]. rewrite lookup_insert_eq.
    rewrite bool_decide_eq_true_2 by eauto.
    cbn [files set_files unreadable]. rewrite lookup_insert_eq.
    rewrite bool_decide_eq_false_2 by now rewrite Hr1.
    now rewrite Htext, Hback. }
  destruct (bool_decide (is_Some (files w !! file_path))).
  - destruct (copy_backup_total file_path (file_path +:+ ".backup") w)
      as [w1 E]. unfold bind. rewrite E.
    apply copy_backup_unwritable in E as (Hu & Hr1 & _).
    unfold write_text, ret. rewrite bool_decide_eq_false_2 by now rewrite Hu.
    now rewrite (Hstep w1 Hu Hr1).
  - unfold bind, ret, write_text. rewrite bool_decide_eq_false_2 by done.
    now rewrite (Hstep w eq_refl eq_refl).
Qed.

End StoreMore.

(** * Further properties of the account entity *)

(** ** Paths of balance files *)

Lemma list_ascii_of_string_app (s t : string) :
  list_ascii_of_string (s +:+ t)
  = (list_ascii_of_string s ++ list_ascii_of_string t)%list.
Proof.
  induction s as [|c s IH]; [reflexivity|].
  change (c :: list_ascii_of_string (s +:+ t)
          = c :: (list_ascii_of_string s ++ list_ascii_of_string t)%list).
  now rewrite IH.
Qed.

Lemma list_ascii_of_string_inj (s t : string) :
  list_ascii_of_string s = list_ascii_of_string t -> s = t.
Proof.
  intros E. rewrite <- (string_of_list_ascii_of_string s),
    <- (string_of_list_ascii_of_string t). now rewrite E.
Qed.

Lemma append_inj_r (s1 s2 t : string) : s1 +:+ t = s2 +:+ t -> s1 = s2.
Proof.
  intros E. apply list_ascii_of_string_inj.
  apply (f_equal list_ascii_of_string) in E.
  rewrite !list_ascii_of_string_app in E. now apply app_inv_tail in E.
Qed.

(** [os.path.join] puts the same prefix before every file name. *)
Lemma os_path_join_prefix (folder : string) :
  exists prefix, forall file, os_path_join folder file = prefix +:+ file.
Proof.
  unfold os_path_join.
  destruct (rev (list_ascii_of_string folder)) as [|c l].
  - now exists EmptyString.
  - destruct (Ascii.eqb c "/").
    + now exists folder.
    + exists (folder +:+ "/"). intros file.
      apply list_ascii_of_string_inj.
      rewrite !list_ascii_of_string_app. now rewrite <- app_assoc.
Qed.

Lemma last_of_append (s t : string) (l : list ascii) (c : ascii) :
  list_ascii_of_string t = (l ++ [c])%list ->
  last (list_ascii_of_string (s +:+ t)) = Some c.
Proof.
  intros Ht. rewrite list_ascii_of_string_app, Ht, app_assoc.
  apply last_snoc.
Qed.

(** Two accounts never share a balance file, and the backup of one is
    never the balance file of another. *)
Lemma get_account_balance_path_inj (fm : FileManager) (i j : Z) :
  get_account_balance_path fm i = get_account_balance_path fm j -> i = j.
Proof.
  unfold get_account_balance_path.
  destruct (os_path_join_prefix (accounts_folder fm)) as [prefix Hprefix].
  rewrite !Hprefix. intros E. apply (inj (String.app prefix)) in E.
  apply (inj (String.app "account_")) in E.
  apply append_inj_r in E. now apply (inj (pretty : Z -> string)) in E.
Qed.

Lemma balance_path_not_backup (fm : FileManager) (i j : Z) :
  get_account_balance_path fm j
  <> get_account_balance_path fm i +:+ ".backup".
Proof.
  intros E. apply (f_equal (fun s => last (list_ascii_of_string s))) in E.
  unfold get_account_balance_path in E.
  destruct (os_path_join_prefix (accounts_folder fm)) as [prefix Hprefix].
  rewrite !Hprefix in E.
  rewrite (last_of_append _ ".backup" (list_ascii_of_string ".backu") "p")
    in E by reflexivity.
  assert (forall a b c : string, a +:+ b +:+ c = (a +:+ b) +:+ c) as Hassoc.
  { intros a b c. apply list_ascii_of_string_inj.
    rewrite !list_ascii_of_string_app. now rewrite app_assoc. }
  rewrite (Hassoc "account_"), (Hassoc prefix) in E.
  rewrite (last_of_append _ "_balance.txt"
             (list_ascii_of_string "_balance.tx") "t") in E by reflexivity.
  discriminate E.
Qed.

(** X8. Two accounts never share a file: different ids have different
    balance files, and the balance file of one is not the [.backup] of
    the other's. *)
Theorem balance_files_are_distinct (fm : FileManager) (i j : Z) :
  i <> j ->
  get_account_balance_path fm i <> get_account_balance_path fm j
  /\ get_account_balance_path fm i
     <> get_account_balance_path fm j +:+ ".backup".
Proof.
  intros Hij. split.
  - intros Heq. now apply get_account_balance_path_inj in Heq.
  - apply balance_path_not_backup.
Qed.

Section EntityMore.
Context `{PyBuiltins}.

(** ** What a call leaves in the files *)

(** One call of [deposit] or [withdraw]: it does not raise; it keeps the
    id of the object; it changes no file but the balance file of the
    account and its [.backup]; and if the balance file held the balance
    of the object before the call, it holds the balance of the object
    after it, whatever the outcome. *)
Lemma perform_outcome (self : BankAccount) (op : operation) (w : world) :
  exists r w',
    perform self op w = (Ok r, w')
    /\ account_id (fst r) = account_id self
    /\ account_manager (fst r) = account_manager self
    /\ (forall q, q <> balance_file_of self ->
                  q <> balance_file_of self +:+ ".backup" ->
                  files w' !! q = files w !! q)
    /\ (files w !! balance_file_of self = Some (float_repr (balance self)) ->
        files w' !! balance_file_of self
        = Some (float_repr (balance (fst r))))
    /\ unreadable w' = unreadable w.
Proof.
  unfold balance_file_of.
  assert (Hsave : forall b : float,
            exists r w',
              match save_balance (set_balance self b) w with
              | (Ok true, w') =>
                  (Ok (set_balance self b, (true, EmptyString)), w')
              | (Ok false, w') => (Ok (self, (false, EmptyString)), w')
              | (Raise e, w') => (Ok (self, (false, EmptyString)), w')
              end = (Ok r, w')
              /\ account_id (fst r) = account_id self
              /\ account_manager (fst r) = account_manager self
              /\ (forall q, q <> balance_file_of self ->
                            q <> balance_file_of self +:+ ".backup" ->
                            files w' !! q = files w !! q)
              /\ (files w !! balance_file_of self
                  = Some (float_repr (balance self)) ->
                  files w' !! balance_file_of self
                  = Some (float_repr (balance (fst r))))
              /\ unreadable w' = unreadable w).
  { intros b. unfold save_balance, balance_file_of.
    cbn [set_balance account_id account_manager balance].
    destruct (save_balance_to_file_cases
                (file_manager (account_manager self)) (account_id self) b w)
      as (w' & -> & Hfile & Hframe & _ & Hunreadable & _).
    destruct (negb (b <? 0)%float && bool_decide (_ ∉ unwritable w));
      do 2 eexists; (split; [reflexivity|]); cbn [fst];
      (split; [reflexivity|]); (split; [reflexivity|]);
      (split; [exact Hframe|]); (split; [|exact Hunreadable]);
      intros Hstep; rewrite Hfile; [reflexivity|exact Hstep]. }
  destruct op as [v|v]; cbn [perform].
  - rewrite deposit_unfold. destruct (py_float v) as [amount|e].
    2:{ do 2 eexists. split; [reflexivity|]. cbn. auto. }
    destruct (amount <=? 0)%float.
    { do 2 eexists. split; [reflexivity|]. cbn. auto. }
    cbn zeta. destruct (Hsave (balance self + amount)%float)
      as (r & w' & E & Hr).
    destruct (save_balance _ w) as [[[]|e] w1]; injection E as <- <-;
      do 2 eexists; (split; [reflexivity|]); exact Hr.
  - rewrite withdraw_unfold. destruct (py_float v) as [amount|e].
    2:{ do 2 eexists. split; [reflexivity|]. cbn. auto. }
    destruct (amount <=? 0)%float.
    { do 2 eexists. split; [reflexivity|]. cbn. auto. }
    destruct (balance self <? amount)%float.
    { do 2 eexists. split; [reflexivity|]. cbn. auto. }
    cbn zeta. destruct (Hsave (balance self - amount)%float)
      as (r & w' & E & Hr).
    destruct (save_balance _ w) as [[[]|e] w1]; injection E as <- <-;
      do 2 eexists; (split; [reflexivity|]); exact Hr.
Qed.

(** X9. Memory and file stay in step. If the balance file holds the
    balance of the object, it still does after any sequence of deposits
    and withdrawals, whichever of them succeed, are refused or fail to
    save. *)
Theorem balance_file_in_step (ops : list operation) :
  forall (self : BankAccount) (w : world),
    files w !! balance_file_of self = Some (float_repr (balance self)) ->
    exists self' w',
      perform_all self ops w = (Ok self', w')
      /\ files w' !! balance_file_of self = Some (float_repr (get_balance self')).
Proof.
  induction ops as [|op ops IH]; intros self w Hstep; cbn [perform_all].
  - unfold ret. eauto.
  - destruct (perform_outcome self op w)
      as (r & w1 & E & Hid & Hmgr & _ & Hfile & _).
    unfold bind. rewrite E. unfold balance_file_of in *.
    destruct (IH (fst r) w1) as (self' & w' & E' & Hstep').
    + rewrite Hid, Hmgr. auto.
    + rewrite Hid, Hmgr in Hstep'. eauto.
Qed.

(** X10. Accounts do not touch each other's files: a sequence of
    deposits and withdrawals on one account leaves the balance file of
    every other account as it was. *)
Theorem other_accounts_untouched (ops : list operation) :
  forall (self : BankAccount) (w : world) (j : Z),
    j <> account_id self ->
    exists self' w',
      perform_all self ops w = (Ok self', w')
      /\ files w' !! get_account_balance_path
                       (file_manager (account_manager self)) j
         = files w !! get_account_balance_path
                        (file_manager (account_manager self)) j.
Proof.
  induction ops as [|op ops IH]; intros self w j Hj; cbn [perform_all].
  - unfold ret. eauto.
  - destruct (perform_outcome self op w)
      as (r & w1 & E & Hid & Hmgr & Hframe & _).
    unfold bind. rewrite E.
    destruct (IH (fst r) w1 j) as (self' & w' & E' & Hsame).
    + now rewrite Hid.
    + rewrite Hmgr in Hsame. do 2 eexists. split; [exact E'|].
      rewrite Hsame. unfold balance_file_of in Hframe. apply Hframe.
      * intros Heq. now apply get_account_balance_path_inj in Heq.
      * apply balance_path_not_backup.
Qed.

(** The invariant of a sequence of calls whose amounts are finite: the
    id and the manager stay, the balance stays at or above zero, the
    balance file stays in step and stays readable. *)
Lemma perform_all_invariant (ops : list operation) :
  forall (self : BankAccount) (w : world),
    (0 <=? get_balance self)%float = true ->
    files w !! balance_file_of self = Some (float_repr (balance self)) ->
    Forall (fun op => forall x, py_float (amount_of op) = Ok x ->
                                isfinite x = true) ops ->
    exists self' w',
      perform_all self ops w = (Ok self', w')
      /\ account_id self' = account_id self
      /\ account_manager self' = account_manager self
      /\ (0 <=? get_balance self')%float = true
      /\ files w' !! balance_file_of self = Some (float_repr (balance self'))
      /\ unreadable w' = unreadable w.
Proof.
  induction ops as [|op ops IH]; intros self w Hb Hstep Hops;
    cbn [perform_all].
  - unfold ret. eauto 10.
  - apply Forall_cons in Hops as [Hop Hops].
    destruct (perform_outcome self op w)
      as (r & w1 & E & Hid & Hmgr & _ & Hfile & Hunreadable).
    destruct (perform_keeps_nonneg self op w Hb Hop) as (r' & w1' & E' & Hr).
    rewrite E in E'. injection E' as <- <-.
    unfold bind. rewrite E.
    destruct (IH (fst r) w1 Hr) as (self' & w' & Eall & Hid' & Hmgr' & Hb'
                                    & Hstep' & Hunreadable'); [|exact Hops|].
    { unfold balance_file_of in *. rewrite Hid, Hmgr. auto. }
    exists self', w'. split; [exact Eall|].
    unfold balance_file_of in *. rewrite Hid, Hmgr in Hstep'.
    repeat split; try congruence; assumption.
Qed.

(** X15. Logging in again shows the same balance. From an account whose
    balance is at or above zero and whose readable balance file holds
    that balance, any sequence of deposits and withdrawals of finite
    amounts goes through without raising and leaves a balance at or
    above zero; and [BankAccount(account_id)] made afterwards is the
    object as the calls left it, when [float()] reads the text of the
    final balance back as the same number. *)
Theorem reopened_account_has_same_balance (ops : list operation) :
  forall (self : BankAccount) (w : world),
    (0 <=? get_balance self)%float = true ->
    files w !! balance_file_of self = Some (float_repr (balance self)) ->
    balance_file_of self ∉ unreadable w ->
    Forall (fun op => forall x, py_float (amount_of op) = Ok x ->
                                isfinite x = true) ops ->
    exists self' w',
      perform_all self ops w = (Ok self', w')
      /\ (0 <=? get_balance self')%float = true
      /\ (truthy (strip (float_repr (get_balance self'))) = true ->
          float_of_str (strip (float_repr (get_balance self')))
          = Some (get_balance self') ->
          BankAccount_init (account_id self) (account_manager self) w'
          = (Ok self', w')).
Proof.
  intros self w Hb Hstep Hreadable Hops.
  destruct (perform_all_invariant ops self w Hb Hstep Hops)
    as (self' & w' & E & Hid & Hmgr & Hb' & Hstep' & Hunreadable).
  exists self', w'. split; [exact E|]. split; [exact Hb'|].
  intros Htext Hback. unfold get_balance in *.
  unfold BankAccount_init, bind at 1.
  unfold load_balance_from_file, try_except, bind at 1.
  unfold os_path_exists at 1. unfold balance_file_of in *.
  rewrite Hstep'. rewrite bool_decide_eq_true_2 by eauto.
  unfold bind at 1, read_text. rewrite Hstep', Hunreadable.
  rewrite bool_decide_eq_false_2 by done.
  rewrite Htext. unfold bind, lift, py_float. rewrite Hback. unfold ret.
  rewrite Hb'. destruct self' as [i' mgr' b']. cbn in *. now subst.
Qed.

(** ** Amounts at the boundaries *)

(** X11. An amount of zero or below is refused by [deposit] and by
    [withdraw], and nothing changes, neither the object nor the files.
    *)
Theorem nonpositive_amount_refused (self : BankAccount) (v : pyobj)
    (amount : float) (w : world) :
  py_float v = Ok amount ->
  (amount <=? 0)%float = true ->
  deposit self v w
  = (Ok (self, (false, "Deposit amount must be positive")), w)
  /\ withdraw self v w
     = (Ok (self, (false, "Withdrawal amount must be positive")), w).
Proof.
  intros Hv Hle. rewrite deposit_unfold, withdraw_unfold, Hv, Hle. done.
Qed.

Lemma ltb_irrefl (b : float) : (b <? b)%float = false.
Proof.
  destruct (b <? b)%float eqn:E; [|reflexivity].
  pose proof (ltb_not_leb _ _ E) as Hle.
  rewrite ltb_spec in E. rewrite leb_spec in Hle.
  unfold SFltb in E. unfold SFleb in Hle.
  destruct (SFcompare (Prim2SF b) (Prim2SF b)) as [[]|]; discriminate.
Qed.

(** X12. The refusal test of [withdraw] is strict: an amount equal to
    the balance is paid out, and the account is left with exactly 0.0.
    *)
Theorem withdraw_whole_balance (self : BankAccount) (v : pyobj) (w : world) :
  py_float v = Ok (balance self) ->
  (0 <? balance self)%float = true ->
  isfinite (balance self) = true ->
  balance_file_of self ∉ unwritable w ->
  exists w',
    withdraw self v w
    = (Ok (set_balance self 0,
           (true, "Withdrawal successful. New balance: R0.00")), w')
    /\ files w' !! balance_file_of self = Some (float_repr 0).
Proof.
  unfold balance_file_of. intros Hv Hpos Hfin Hw.
  rewrite withdraw_unfold, Hv, (ltb_not_leb _ _ Hpos), ltb_irrefl. cbn zeta.
  rewrite (sub_diag_finite _ Hfin). unfold save_balance.
  cbn [set_balance account_id account_manager balance].
  destruct (save_balance_to_file_writes (file_manager (account_manager self))
              (account_id self) 0 w eq_refl Hw) as (w' & -> & Hfile & _).
  exists w'. split; [reflexivity|exact Hfile].
Qed.

(** ** Construction and refresh *)

(** X13. [BankAccount(account_id)] does not raise, and the new object
    has the id given and a balance at or above zero, whatever the
    balance file holds: a negative number or NaN in the file is not
    taken over. *)
Theorem BankAccount_init_balance (i : Z) (mgr : AccountManager) (w : world) :
  exists self w',
    BankAccount_init i mgr w = (Ok self, w')
    /\ account_id self = i
    /\ (0 <=? get_balance self)%float = true.
Proof.
  unfold BankAccount_init, bind.
  destruct (load_balance_from_file_cases (file_manager mgr) i 1000000 w)
    as (x & w' & -> & Hx & _).
  unfold ret. do 2 eexists. split; [reflexivity|]. split; [reflexivity|].
  cbn. destruct Hx as [->|Hx]; [reflexivity|exact Hx].
Qed.

(** X14. [update_balance_from_file] does not raise, returns the balance
    that the object holds from then on, and keeps a balance that is at
    or above zero at or above zero, whatever the balance file holds. *)
Theorem update_balance_from_file_keeps_sign (self : BankAccount) (w : world) :
  (0 <=? get_balance self)%float = true ->
  exists self' b w',
    update_balance_from_file self w = (Ok (self', b), w')
    /\ get_balance self' = b
    /\ account_id self' = account_id self
    /\ (0 <=? b)%float = true.
Proof.
  intros Hb. unfold update_balance_from_file, bind.
  destruct (load_balance_from_file_cases
              (file_manager (account_manager self)) (account_id self)
              (balance self) w) as (x & w' & -> & Hx & _).
  unfold ret. do 3 eexists. split; [reflexivity|].
  repeat split. destruct Hx as [->|Hx]; [exact Hb|exact Hx].
Qed.

End EntityMore.

(** * Further properties of the account directory *)

Section DirectoryMore.
Context `{PyBuiltins}.

Lemma load_json_file_unreadable (p : string) (w : world) :
  unreadable (snd (load_json_file p w)) = unreadable w.
Proof.
  unfold load_json_file, try_except, bind, os_path_exists, read_text.
  destruct (files w !! p) as [text|] eqn:Hp.
  2:{ now rewrite bool_decide_eq_false_2 by (intros [? [=]]). }
  rewrite bool_decide_eq_true_2 by eauto. rewrite Hp.
  destruct (bool_decide (p ∈ unreadable w)); [done|].
  destruct (truthy (strip text)); [|done].
  destruct (json_loads (strip text)); [done|].
  unfold raise. cbn [is_JSONDecodeError].
  unfold datetime_now, os_rename. rewrite Hp.
  now destruct (bool_decide (_ ∈ unwritable w)).
Qed.

(** The cases of [save_json_file], for the proofs below. *)
Lemma save_json_file_cases (p : string) (data : gmap string account_info)
    (w : world) :
  let ok := bool_decide (p ∉ unwritable w) in
  exists w',
    save_json_file p data w = (Ok ok, w')
    /\ files w' !! p = (if ok then Some (json_dumps data) else files w !! p)
    /\ (forall q, q <> p -> q <> p +:+ ".backup" ->
                  files w' !! q = files w !! q)
    /\ unwritable w' = unwritable w /\ unreadable w' = unreadable w
    /\ now w' = now w.
Proof.
  intros ok. unfold ok, save_json_file, try_except, bind.
  assert (Hne : p <> p +:+ ".backup") by now apply append_nonempty_ne.
  unfold os_path_exists at 1.
  assert (Hstep : forall w1,
            unwritable w1 = unwritable w -> unreadable w1 = unreadable w ->
            now w1 = now w ->
            (forall q, q <> p +:+ ".backup" -> files w1 !! q = files w !! q) ->
            exists w',
              (let (r, w'0) :=
                 let (r, w'0) := write_text p (json_dumps data) w1 in
                 match r with
                 | Ok _ => ret true w'0
                 | Raise e => (Raise e, w'0)
                 end in
               match r with
               | Ok a => (Ok a, w'0)
               | Raise _ => ret false w'0
               end) = (Ok (bool_decide (p ∉ unwritable w)), w')
              /\ files w' !! p
                 = (if bool_decide (p ∉ unwritable w) then Some (json_dumps data)
                    else files w !! p)
              /\ (forall q, q <> p -> q <> p +:+ ".backup" ->
                            files w' !! q = files w !! q)
              /\ unwritable w' = unwritable w /\ unreadable w' = unreadable w
              /\ now w' = now w).
  { intros w1 Hu Hr Hn Hf. unfold write_text, ret. rewrite Hu.
    destruct (decide (p ∈ unwritable w)) as [Hin|Hout].
    - rewrite bool_decide_eq_true_2, bool_decide_eq_false_2 by tauto.
      exists w1. repeat split; auto.
    - rewrite bool_decide_eq_false_2, bool_decide_eq_true_2 by tauto.
      eexists. split; [reflexivity|]. cbn.
      rewrite lookup_insert_eq. repeat split; auto.
      intros q Hq Hq'. rewrite lookup_insert_ne by done. auto. }
  destruct (bool_decide (is_Some (files w !! p))).
  - destruct (copy_backup_total p (p +:+ ".backup") w) as [w1 E]. rewrite E.
    apply copy_backup_unwritable in E as (Hu & Hr & Hn & Hf).
    now apply Hstep.
  - unfold ret at 1. now apply Hstep.
Qed.

(** X7. [save_json_file] does not raise and returns [True] exactly when
    the file can be written. The file then holds the text of the data;
    when the call returns [False] the file is as it was. No file but
    this one and its [.backup] has changed. *)
Theorem save_json_file_outcome (p : string) (data : gmap string account_info)
    (w : world) :
  let ok := bool_decide (p ∉ unwritable w) in
  exists w',
    save_json_file p data w = (Ok ok, w')
    /\ files w' !! p = (if ok then Some (json_dumps data) else files w !! p)
    /\ (forall q, q <> p -> q <> p +:+ ".backup" ->
                  files w' !! q = files w !! q)
    /\ unwritable w' = unwritable w /\ unreadable w' = unreadable w
    /\ now w' = now w.
Proof. apply save_json_file_cases. Qed.

(** [create_new_account] on valid inputs, step by step. *)
Lemma create_new_account_unfold (self : AccountManager)
    (account_name : string) (v : pyobj) (b : float) (w w1 : world)
    (accounts : gmap string account_info) :
  truthy (strip account_name) = true ->
  py_float v = Ok b ->
  (b <? 0)%float = false ->
  get_accounts_list self w = (Ok (JDict accounts), w1) ->
  create_new_account self account_name v w =
  let i := next_account_id accounts in
  let info :=
    {| id := i; name := strip account_name; created := strftime_iso (now w1);
       info_balance := b |} in
  let accounts' := <[str_of_int i := info]> accounts in
  match save_accounts_list self accounts' w1 with
  | (Ok true, w2) =>
      match save_balance_to_file (file_manager self) i b w2 with
      | (Ok true, w3) => (Ok (i, info), w3)
      | (Ok false, w3) =>
          (Raise (Exception_ "Failed to create balance file"),
           snd (save_accounts_list self (delete (str_of_int i) accounts') w3))
      | (Raise e, w3) => (Raise e, w3)
      end
  | (Ok false, w2) => (Raise (Exception_ "Failed to save account registry"), w2)
  | (Raise e, w2) => (Raise e, w2)
  end.
Proof.
  intros Hname Hb Hnonneg Hload. unfold create_new_account.
  rewrite Hname, (truthy_strip _ Hname). cbn [negb orb].
  unfold bind at 1, lift. rewrite Hb, Hnonneg.
  unfold bind at 1. rewrite Hload.
  unfold bind at 1, datetime_now. unfold bind at 1. cbn zeta.
  destruct (save_accounts_list self _ w1) as [[[]|e] w2]; try reflexivity.
  unfold negb. unfold bind at 1.
  destruct (save_balance_to_file _ _ b w2) as [[[]|e] w3]; try reflexivity.
  unfold negb, bind, save_accounts_list.
  destruct (save_json_file_total (registry_file (file_manager self))
              (delete (str_of_int (next_account_id accounts))
                 (<[str_of_int (next_account_id accounts) :=
                      {| id := next_account_id accounts;
                         name := strip account_name;
                         created := strftime_iso (now w1);
                         info_balance := b |}]> accounts)) w3)
    as (ok & w4 & ->).
  reflexivity.
Qed.

(** A creation that succeeds, for the proofs below. *)
Lemma create_new_account_cases (self : AccountManager)
    (account_name : string) (v : pyobj) (b : float) (w : world)
    (accounts : gmap string account_info) :
  let i := next_account_id accounts in
  let info :=
    {| id := i; name := strip account_name; created := strftime_iso (now w);
       info_balance := b |} in
  let registry := registry_file (file_manager self) in
  let balance_file := get_account_balance_path (file_manager self) i in
  returned (get_accounts_list self w) = Some (JDict accounts) ->
  truthy (strip account_name) = true ->
  py_float v = Ok b ->
  (b <? 0)%float = false ->
  registry ∉ unwritable w ->
  balance_file ∉ unwritable w ->
  exists w',
    create_new_account self account_name v w = (Ok (i, info), w')
    /\ files w' !! balance_file = Some (float_repr b)
    /\ unreadable w' = unreadable w
    /\ (registry <> balance_file -> registry <> balance_file +:+ ".backup" ->
        files w' !! registry
        = Some (json_dumps (<[str_of_int i := info]> accounts)))
    /\ (forall k old, accounts !! k = Some old ->
                      (<[str_of_int i := info]> accounts) !! k = Some old).
Proof.
  intros i info registry balance_file Hload Hname Hb Hnonneg Hreg Hbal.
  unfold returned in Hload.
  destruct (get_accounts_list self w) as [[loaded|e] w1] eqn:Eload;
    [|discriminate].
  cbn in Hload. injection Hload as ->.
  destruct (load_json_file_frame registry w) as [Hu1 Hn1].
  pose proof (load_json_file_unreadable registry w) as Hr1.
  unfold get_accounts_list in Eload. fold registry in Eload.
  rewrite Eload in Hu1, Hn1, Hr1. cbn [snd] in Hu1, Hn1, Hr1.
  rewrite (create_new_account_unfold self account_name v b w w1 accounts
             Hname Hb Hnonneg Eload).
  cbn zeta. rewrite Hn1. fold i info. unfold save_accounts_list. fold registry.
  destruct (save_json_file_cases registry (<[str_of_int i := info]> accounts) w1)
    as (w2 & -> & Hfile2 & _ & Hu2 & Hr2 & _).
  rewrite bool_decide_eq_true_2 in Hfile2 |- * by now rewrite Hu1.
  destruct (save_balance_to_file_cases (file_manager self) i b w2)
    as (w3 & -> & Hfile3 & Hframe3 & _ & Hr3 & _).
  fold balance_file in Hfile3, Hframe3 |- *.
  rewrite Hnonneg in Hfile3 |- *.
  rewrite bool_decide_eq_true_2 in Hfile3 |- * by now rewrite Hu2, Hu1.
  cbn [negb andb] in Hfile3 |- *.
  exists w3. split; [reflexivity|]. split; [exact Hfile3|].
  split; [now rewrite Hr3, Hr2, Hr1|]. split.
  - intros Hne Hne'. now rewrite Hframe3.
  - intros k old Hk. rewrite lookup_insert_ne; [exact Hk|].
    intros <-. destruct (next_account_id_spec accounts) as (_ & Hfree & _).
    fold i in Hfree. congruence.
Qed.

(** The id that has been given out is in use: the next one is greater. *)
Lemma next_account_id_insert (accounts : gmap string account_info)
    (info : account_info) :
  let i := next_account_id accounts in
  i < next_account_id (<[str_of_int i := info]> accounts).
Proof.
  intros i.
  destruct (next_account_id_spec accounts) as (Hpos & Hfree & Hused).
  fold i in Hpos, Hfree, Hused.
  destruct (next_account_id_spec (<[str_of_int i := info]> accounts))
    as (Hpos' & Hfree' & _).
  set (i' := next_account_id (<[str_of_int i := info]> accounts)) in *.
  destruct (Z.lt_ge_cases i i') as [|Hge]; [done|]. exfalso.
  destruct (decide (i' = i)) as [Heq|Hne].
  - rewrite Heq, lookup_insert_eq in Hfree'. discriminate.
  - destruct (Hused i') as [x Hx]; [lia|].
    rewrite lookup_insert_ne in Hfree'; [congruence|].
    unfold str_of_int. intros Heq. apply (inj pretty) in Heq. congruence.
Qed.

(** C4. [create_new_account] gives the new account the smallest positive
    integer whose decimal string is not a key of the registry it has
    loaded, and records the account under that key: with a name that is
    not blank, a balance that is not negative and files that can be
    written, the call returns this id and the registry file holds the
    registry with the new entry, so that the id is in use from then on
    and the next creation, which reads that registry, returns a greater
    one.  An empty registry gives 1 and then, with the key ["1"]
    recorded, 2; a registry without the key ["1"] gives 1 whatever other
    keys it holds. *)
Theorem create_assigns_smallest_unused_id (self : AccountManager)
    (account_name : string) (v : pyobj) (w : world)
    (accounts : gmap string account_info) :
  let i := next_account_id accounts in
  let registry := registry_file (file_manager self) in
  let balance_file := get_account_balance_path (file_manager self) i in
  returned (get_accounts_list self w) = Some (JDict accounts) ->
  (1 <= i
   /\ accounts !! str_of_int i = None
   /\ forall k, 1 <= k < i -> is_Some (accounts !! str_of_int k))
  /\ (forall j info,
        returned (create_new_account self account_name v w) = Some (j, info) ->
        j = i /\ id info = i)
  /\ (forall b,
        truthy (strip account_name) = true ->
        py_float v = Ok b ->
        (b <? 0)%float = false ->
        registry ∉ unwritable w ->
        balance_file ∉ unwritable w ->
        let info :=
          {| id := i; name := strip account_name;
             created := strftime_iso (now w); info_balance := b |} in
        let accounts' := <[str_of_int i := info]> accounts in
        exists w1,
          create_new_account self account_name v w = (Ok (i, info), w1)
          /\ (registry <> balance_file ->
              registry <> balance_file +:+ ".backup" ->
              files w1 !! registry = Some (json_dumps accounts'))
          /\ i < next_account_id accounts'
          /\ (forall name2 v2 j info2,
                returned (get_accounts_list self w1) = Some (JDict accounts') ->
                returned (create_new_account self name2 v2 w1)
                = Some (j, info2) ->
                j = next_account_id accounts' /\ i < j))
  /\ next_account_id ∅ = 1
  /\ (forall info, next_account_id (<["1" := info]> ∅) = 2)
  /\ (accounts !! "1" = None -> i = 1).
Proof.
  intros i registry balance_file Hload.
  destruct (next_account_id_spec accounts) as (Hpos & Hfree & Hused).
  fold i in Hpos, Hfree, Hused.
  split; [done|]. split; [|split; [|split; [|split]]].
  - intros j info Hcreate.
    destruct (create_new_account_returned _ _ _ _ _ _ _ Hload Hcreate)
      as (-> & Hid & _).
    done.
  - intros b Hname Hb Hnonneg Hreg Hbal info accounts'.
    destruct (create_new_account_cases self account_name v b w accounts
                Hload Hname Hb Hnonneg Hreg Hbal)
      as (w1 & E & _ & _ & Hregistry & _).
    assert (Hnext : i < next_account_id accounts')
      by apply next_account_id_insert.
    exists w1. split; [exact E|]. split; [exact Hregistry|].
    split; [exact Hnext|].
    intros name2 v2 j info2 Hload1 Hcreate2.
    destruct (create_new_account_returned _ _ _ _ _ _ _ Hload1 Hcreate2)
      as (-> & _).
    done.
  - reflexivity.
  - intros info. unfold next_account_id.
    change (<["1" := info]> (∅ : gmap string account_info))
      with ({[ "1" := info ]} : gmap string account_info).
    rewrite map_size_singleton. cbn [next_id_loop].
    rewrite bool_decide_eq_true_2 by (rewrite lookup_singleton_eq; eauto).
    now rewrite bool_decide_eq_false_2 by (intros [? [=]]).
  - intros Hone. symmetry. apply next_account_id_unique; [lia|done|lia].
Qed.

(** X16. A creation that succeeds. The account is returned under the
    stripped name and with the balance given; its balance file holds
    that balance; and, when the registry file is neither the balance
    file nor its backup, the registry file holds the old registry with
    the new entry added: every account that was there is still there, as
    it was. *)
Theorem create_new_account_success (self : AccountManager)
    (account_name : string) (v : pyobj) (b : float) (w : world)
    (accounts : gmap string account_info) :
  let i := next_account_id accounts in
  let info :=
    {| id := i; name := strip account_name; created := strftime_iso (now w);
       info_balance := b |} in
  let registry := registry_file (file_manager self) in
  let balance_file := get_account_balance_path (file_manager self) i in
  returned (get_accounts_list self w) = Some (JDict accounts) ->
  truthy (strip account_name) = true ->
  py_float v = Ok b ->
  (b <? 0)%float = false ->
  registry ∉ unwritable w ->
  balance_file ∉ unwritable w ->
  exists w',
    create_new_account self account_name v w = (Ok (i, info), w')
    /\ files w' !! balance_file = Some (float_repr b)
    /\ unreadable w' = unreadable w
    /\ (registry <> balance_file -> registry <> balance_file +:+ ".backup" ->
        files w' !! registry
        = Some (json_dumps (<[str_of_int i := info]> accounts)))
    /\ (forall k old, accounts !! k = Some old ->
                      (<[str_of_int i := info]> accounts) !! k = Some old).
Proof. apply create_new_account_cases. Qed.

(** X17. A creation whose balance file cannot be written is rolled back.
    The call raises, and the registry file holds the registry as it was
    loaded, without the new entry. *)
Theorem create_new_account_rollback (self : AccountManager)
    (account_name : string) (v : pyobj) (b : float) (w : world)
    (accounts : gmap string account_info) :
  let registry := registry_file (file_manager self) in
  let balance_file :=
    get_account_balance_path (file_manager self) (next_account_id accounts) in
  returned (get_accounts_list self w) = Some (JDict accounts) ->
  truthy (strip account_name) = true ->
  py_float v = Ok b ->
  (b <? 0)%float = false ->
  registry ∉ unwritable w ->
  balance_file ∈ unwritable w ->
  exists w',
    create_new_account self account_name v w
    = (Raise (Exception_ "Failed to create balance file"), w')
    /\ files w' !! registry = Some (json_dumps accounts).
Proof.
  intros registry balance_file Hload Hname Hb Hnonneg Hreg Hbal.
  unfold returned in Hload.
  destruct (get_accounts_list self w) as [[loaded|e] w1] eqn:Eload;
    [|discriminate].
  cbn in Hload. injection Hload as ->.
  destruct (load_json_file_frame registry w) as [Hu1 _].
  unfold get_accounts_list in Eload. fold registry in Eload.
  rewrite Eload in Hu1. cbn [snd] in Hu1.
  rewrite (create_new_account_unfold self account_name v b w w1 accounts
             Hname Hb Hnonneg Eload).
  cbn zeta. unfold save_accounts_list. fold registry.
  set (i := next_account_id accounts) in *.
  set (info := {| id := i; name := strip account_name;
                  created := strftime_iso (now w1); info_balance := b |}).
  destruct (save_json_file_cases registry (<[str_of_int i := info]> accounts) w1)
    as (w2 & -> & _ & _ & Hu2 & _).
  rewrite bool_decide_eq_true_2 by now rewrite Hu1.
  destruct (save_balance_to_file_cases (file_manager self) i b w2)
    as (w3 & -> & _ & _ & Hu3 & _).
  fold balance_file.
  rewrite (bool_decide_eq_false_2 (balance_file ∉ unwritable w2))
    by (rewrite Hu2, Hu1; tauto).
  rewrite andb_false_r.
  destruct (save_json_file_cases registry
              (delete (str_of_int i) (<[str_of_int i := info]> accounts)) w3)
    as (w4 & E4 & Hfile4 & _).
  rewrite E4. cbn [snd]. eexists. split; [reflexivity|].
  rewrite Hfile4, bool_decide_eq_true_2 by now rewrite Hu3, Hu2, Hu1.
  destruct (next_account_id_spec accounts) as (_ & Hfree & _). fold i in Hfree.
  now rewrite delete_insert_id.
Qed.

(** X18. A balance that [float()] refuses or that is negative stops the
    creation before the registry is read: the call raises and the world
    is as it was. *)
Theorem create_new_account_invalid_balance (self : AccountManager)
    (account_name : string) (v : pyobj) (w : world) :
  truthy (strip account_name) = true ->
  match py_float v with
  | Raise e => create_new_account self account_name v w = (Raise e, w)
  | Ok b =>
      (b <? 0)%float = true ->
      create_new_account self account_name v w
      = (Raise (ValueError "Initial balance cannot be negative"), w)
  end.
Proof.
  intros Hname. unfold create_new_account.
  rewrite Hname, (truthy_strip _ Hname). cbn [negb orb].
  unfold bind, lift. destruct (py_float v) as [b|e]; [|reflexivity].
  now intros ->.
Qed.

(** X19. The account that has just been created opens with the balance
    it was created with, for a balance at or above zero whose text
    [float()] reads back as the same number. *)
Theorem create_then_open (self : AccountManager) (account_name : string)
    (v : pyobj) (b : float) (w : world)
    (accounts : gmap string account_info) :
  let balance_file :=
    get_account_balance_path (file_manager self) (next_account_id accounts) in
  returned (get_accounts_list self w) = Some (JDict accounts) ->
  truthy (strip account_name) = true ->
  py_float v = Ok b ->
  (0 <=? b)%float = true ->
  registry_file (file_manager self) ∉ unwritable w ->
  balance_file ∉ unwritable w ->
  balance_file ∉ unreadable w ->
  truthy (strip (float_repr b)) = true ->
  float_of_str (strip (float_repr b)) = Some b ->
  returned ((created <- create_new_account self account_name v;;
             BankAccount_init (fst created) self) w)
  = Some {| account_id := next_account_id accounts; account_manager := self;
            balance := b |}.
Proof.
  intros balance_file Hload Hname Hb Hnonneg Hreg Hbal Hread Htext Hback.
  destruct (create_new_account_cases self account_name v b w accounts
              Hload Hname Hb (leb_not_ltb _ _ Hnonneg) Hreg Hbal)
    as (w' & E & Hfile & Hr & _).
  unfold returned, bind at 1. rewrite E. cbn [fst].
  unfold BankAccount_init, bind at 1.
  unfold load_balance_from_file, try_except, bind at 1.
  unfold os_path_exists at 1. fold balance_file in Hfile |- *. rewrite Hfile.
  rewrite bool_decide_eq_true_2 by eauto.
  unfold bind at 1, read_text. rewrite Hfile, Hr.
  rewrite bool_decide_eq_false_2 by done.
  rewrite Htext. unfold bind, lift, py_float. rewrite Hback. unfold ret.
  now rewrite Hnonneg.
Qed.

(** ** Biller.py: update_account_registry *)

Lemma load_json_file_parses (p text : string) (d : jdoc) (w : world) :
  files w !! p = Some text -> p ∉ unreadable w ->
  truthy (strip text) = true -> json_loads (strip text) = Some d ->
  load_json_file p w = (Ok d, w).
Proof.
  intros Hp Hr Htext Hd.
  unfold load_json_file, try_except, bind, os_path_exists, read_text.
  rewrite bool_decide_eq_true_2 by eauto. rewrite Hp.
  rewrite bool_decide_eq_false_2 by done.
  now rewrite Htext, Hd.
Qed.

Lemma update_account_registry_total (self : BillingSystem) (w : world) :
  exists w', update_account_registry self w = (Ok tt, w').
Proof.
  unfold update_account_registry, try_except.
  destruct (bind _ _ w) as [[[]|e] w']; unfold ret; eauto.
Qed.

Lemma update_account_registry_cases (self : BillingSystem)
    (account : BankAccount) (w w1 : world)
    (accounts : gmap string account_info) (info : account_info) :
  let registry := registry_file (file_manager (bs_account_manager self)) in
  let key := str_of_int (account_id account) in
  let updated := <[key := set_info_balance info (get_balance account)]> accounts in
  current_account self = Some account ->
  get_accounts_list (bs_account_manager self) w = (Ok (JDict accounts), w1) ->
  accounts !! key = Some info ->
  registry ∉ unwritable w1 ->
  exists w',
    update_account_registry self w = (Ok tt, w')
    /\ files w' !! registry = Some (json_dumps updated)
    /\ forall q, q <> registry -> q <> registry +:+ ".backup" ->
                 files w' !! q = files w1 !! q.
Proof.
  intros registry key updated Hcur Eload Hkey Hreg.
  unfold update_account_registry, try_except, bind at 1.
  rewrite Eload, Hcur. fold key. rewrite Hkey.
  unfold bind, save_accounts_list. fold registry updated.
  destruct (save_json_file_cases registry updated w1)
    as (w2 & -> & Hfile2 & Hframe2 & _).
  rewrite bool_decide_eq_true_2 in Hfile2 by done.
  unfold ret. eauto.
Qed.

End DirectoryMore.

(** * Biller.py: the registry follows the account *)

Section BillerProps.
Context `{PyBuiltins}.

Lemma nan_of_SF (a : float) : Prim2SF a = S754_nan -> a = nan.
Proof. intros E. now rewrite <- (SF2Prim_Prim2SF a), E. Qed.

Lemma ltb_nan_l (y : float) : (nan <? y)%float = false.
Proof. rewrite ltb_spec. reflexivity. Qed.

(** A deposit that [deposit] accepts never makes a balance negative. *)
Lemma add_not_negative (b a : float) :
  (0 <=? b)%float = true -> (a <=? 0)%float = false ->
  (b + a <? 0)%float = false.
Proof.
  intros Hb Ha. destruct (Prim2SF a) eqn:E.
  all: try (apply leb_not_ltb, add_nonneg; [exact Hb| |exact Ha];
            rewrite E; discriminate).
  apply nan_of_SF in E. subst a. rewrite add_nan_eq. apply ltb_nan_l.
Qed.

Lemma sub_not_negative (b a : float) :
  (0 <=? b)%float = true -> (a <=? 0)%float = false ->
  (b <? a)%float = false ->
  (b - a <? 0)%float = false.
Proof.
  intros Hb Ha Hlt.
  destruct (isfinite a) eqn:Hfin.
  { now apply leb_not_ltb, sub_nonneg. }
  rewrite ltb_spec, sub_spec. rewrite leb_zero_nonneg in Hb.
  rewrite leb_spec in Ha. rewrite ltb_spec in Hlt.
  unfold isfinite in Hfin.
  destruct (Prim2SF a) as [sa|[]| |]; try discriminate.
  - destruct (Prim2SF b) as [sb|[]| |[]]; try discriminate; reflexivity.
  - destruct (Prim2SF b) as [sb|[]| |[]]; try discriminate; reflexivity.
Qed.

Lemma load_json_file_entry_inv (p : string) (w w1 : world)
    (accounts : gmap string account_info) (k : string) (info : account_info) :
  load_json_file p w = (Ok (JDict accounts), w1) ->
  accounts !! k = Some info ->
  w1 = w
  /\ (exists text,
        files w !! p = Some text /\ (p ∉ unreadable w)
        /\ truthy (strip text) = true
        /\ json_loads (strip text) = Some (JDict accounts)).
Proof.
  intros E Hk.
  assert (Hempty : forall w', (Ok (JDict accounts), w1) <> (Ok (JDict ∅), w')).
  { intros w' [= -> _]. now rewrite lookup_empty in Hk. }
  revert E. unfold load_json_file, try_except, bind, os_path_exists, read_text.
  destruct (files w !! p) as [text|] eqn:Hp.
  2:{ rewrite bool_decide_eq_false_2 by (intros [? [=]]).
      intros E. symmetry in E. now apply Hempty in E. }
  rewrite bool_decide_eq_true_2 by eauto. rewrite Hp.
  destruct (decide (p ∈ unreadable w)) as [Hin|Hout].
  { rewrite bool_decide_eq_true_2 by done. cbn.
    intros E. symmetry in E. now apply Hempty in E. }
  rewrite bool_decide_eq_false_2 by done.
  destruct (truthy (strip text)) eqn:Htext.
  2:{ intros E. symmetry in E. now apply Hempty in E. }
  destruct (json_loads (strip text)) as [d|] eqn:Hd.
  - unfold ret. intros [= -> <-]. eauto 10.
  - unfold raise. cbn [is_JSONDecodeError].
    unfold datetime_now, os_rename. rewrite Hp.
    destruct (bool_decide (_ ∈ unwritable w)); cbn;
      intros E; symmetry in E; now apply Hempty in E.
Qed.

Lemma default_paths_distinct (i : Z) :
  let p := get_account_balance_path default_FileManager i in
  let registry := registry_file default_FileManager in
  registry <> p /\ registry <> p +:+ ".backup"
  /\ p <> registry /\ p <> registry +:+ ".backup".
Proof. cbn. repeat split; discriminate. Qed.

(** A balance that is not negative is saved, and the update of the
    registry that follows writes it into the entry of the account. *)
Lemma save_then_update (i : Z) (b' : float) (r : bool) (w : world)
    (accounts : gmap string account_info) (info : account_info) :
  let account' := console_account i b' in
  let self' := console (Some account') r in
  let registry := registry_file default_FileManager in
  let p := get_account_balance_path default_FileManager i in
  (b' <? 0)%float = false ->
  returned (get_accounts_list default_AccountManager w) = Some (JDict accounts) ->
  accounts !! str_of_int i = Some info ->
  registry ∉ unwritable w ->
  p ∉ unwritable w ->
  exists w1 w2,
    save_balance account' w = (Ok true, w1)
    /\ update_account_registry self' w1 = (Ok tt, w2)
    /\ files w2 !! p = Some (float_repr b')
    /\ files w2 !! registry
       = Some (json_dumps (<[str_of_int i := set_info_balance info b']> accounts)).
Proof.
  intros account' self' registry p Hb Hload Hkey Hreg Hbal.
  destruct (default_paths_distinct i) as (Hd1 & Hd2 & Hd3 & Hd4).
  fold p registry in Hd1, Hd2, Hd3, Hd4.
  unfold returned in Hload.
  destruct (get_accounts_list default_AccountManager w)
    as [[loaded|e] w0] eqn:Eload; [|discriminate].
  cbn in Hload. injection Hload as ->.
  unfold get_accounts_list in Eload.
  destruct (load_json_file_entry_inv _ _ _ _ _ _ Eload Hkey)
    as (-> & text & Hfile & Hread & Htext & Hjson).
  change (registry_file (file_manager default_AccountManager))
    with registry in Hfile, Hread.
  unfold save_balance.
  destruct (save_balance_to_file_cases default_FileManager i b' w)
    as (w1 & E1 & Hfile1 & Hframe1 & Hu1 & Hr1 & _).
  fold p in E1, Hfile1, Hframe1. rewrite Hb in E1, Hfile1.
  rewrite bool_decide_eq_true_2 in E1, Hfile1 by done.
  cbn [negb andb] in E1, Hfile1.
  assert (Eload1 : get_accounts_list (bs_account_manager self') w1
                   = (Ok (JDict accounts), w1)).
  { apply (load_json_file_parses registry text); try done.
    - now rewrite Hframe1.
    - now rewrite Hr1. }
  destruct (update_account_registry_cases self' account' w1 w1 accounts info
              eq_refl Eload1 Hkey) as (w2 & E2 & Hfile2 & Hframe2).
  { change (registry ∉ unwritable w1). now rewrite Hu1. }
  exists w1, w2. split; [exact E1|]. split; [exact E2|]. split.
  - change (files w2 !! p = Some (float_repr b')).
    rewrite <- Hfile1. now apply Hframe2.
  - exact Hfile2.
Qed.

(** X20. [update_account_registry] and [logout] write the balance of the
    account into its entry of the registry. When the registry lists the
    current account and can be written, neither call raises, the
    registry file holds the registry with that one balance replaced, and
    no entry is added or removed; [logout] leaves no current account. *)
Theorem logout_syncs_registry (self : BillingSystem) (account : BankAccount)
    (w : world) (accounts : gmap string account_info) (info : account_info) :
  let registry := registry_file (file_manager (bs_account_manager self)) in
  let key := str_of_int (account_id account) in
  let updated := <[key := set_info_balance info (get_balance account)]> accounts in
  current_account self = Some account ->
  returned (get_accounts_list (bs_account_manager self) w)
  = Some (JDict accounts) ->
  accounts !! key = Some info ->
  registry ∉ unwritable w ->
  exists w',
    update_account_registry self w = (Ok tt, w')
    /\ logout self w = (Ok (set_current_account self None), w')
    /\ files w' !! registry = Some (json_dumps updated)
    /\ dom updated = dom accounts
    /\ (forall k, k <> key -> updated !! k = accounts !! k).
Proof.
  intros registry key updated Hcur Hload Hkey Hreg.
  unfold returned in Hload.
  destruct (get_accounts_list (bs_account_manager self) w)
    as [[loaded|e] w1] eqn:Eload; [|discriminate].
  cbn in Hload. injection Hload as ->.
  pose proof Eload as Einv. unfold get_accounts_list in Einv.
  destruct (load_json_file_entry_inv _ _ _ _ _ _ Einv Hkey) as (-> & _).
  destruct (update_account_registry_cases self account w w accounts info
              Hcur Eload Hkey Hreg) as (w' & E & Hfile & _).
  exists w'. split; [exact E|]. split; [|split; [exact Hfile|split]].
  - unfold logout. rewrite Hcur. unfold bind. now rewrite E.
  - unfold updated. apply dom_insert_lookup_L. eauto.
  - intros k Hk. unfold updated. now rewrite lookup_insert_ne.
Qed.

(** X21. After a deposit at the console the balance file and the
    registry agree. For an account whose balance is at or above zero and
    a line that [float()] reads as an amount that is not at or below
    zero, [deposit_money] does not raise, the account holds the sum, the
    balance file holds the text of the sum, and the registry file holds
    the registry with the sum as the balance of the account. *)
Theorem deposit_money_syncs_registry (i : Z) (b amount : float) (r : bool)
    (line : string) (w : world) (accounts : gmap string account_info)
    (info : account_info) :
  let self := console (Some (console_account i b)) r in
  let b' := (b + amount)%float in
  float_of_str line = Some amount ->
  (amount <=? 0)%float = false ->
  (0 <=? b)%float = true ->
  returned (get_accounts_list default_AccountManager w) = Some (JDict accounts) ->
  accounts !! str_of_int i = Some info ->
  registry_file default_FileManager ∉ unwritable w ->
  get_account_balance_path default_FileManager i ∉ unwritable w ->
  exists w',
    deposit_money self line w
    = (Ok (console (Some (console_account i b')) r), w')
    /\ files w' !! get_account_balance_path default_FileManager i
       = Some (float_repr b')
    /\ files w' !! registry_file default_FileManager
       = Some (json_dumps (<[str_of_int i := set_info_balance info b']> accounts)).
Proof.
  intros self b' Hline Hpos Hb Hload Hkey Hreg Hbal.
  destruct (save_then_update i b' r w accounts info
              (add_not_negative b amount Hb Hpos) Hload Hkey Hreg Hbal)
    as (w1 & w2 & E1 & E2 & Hfile & Hregistry).
  exists w2. split; [|split; [exact Hfile|exact Hregistry]].
  unfold deposit_money, try_except, bind at 1, lift.
  cbn [py_float]. rewrite Hline, Hpos. cbn [self console current_account].
  unfold bind at 1. rewrite deposit_unfold. cbn [py_float]. rewrite Hpos.
  cbn zeta.
  change (set_balance (console_account i b)
            (balance (console_account i b) + amount))
    with (console_account i b').
  rewrite E1. cbn [fst snd].
  unfold bind.
  change (set_current_account self (Some (console_account i b')))
    with (console (Some (console_account i b')) r).
  now rewrite E2.
Qed.

(** X22. The same for the three ways of paying out: [withdraw_money],
    [process_purchase] and [process_payment] on an amount that the
    balance covers leave the account, the balance file and the registry
    with the difference. *)
Theorem withdrawals_sync_registry (i : Z) (b amount : float) (r : bool)
    (line service description : string) (w : world)
    (accounts : gmap string account_info) (info : account_info) :
  let self := console (Some (console_account i b)) r in
  let b' := (b - amount)%float in
  float_of_str line = Some amount ->
  (amount <=? 0)%float = false ->
  (b <? amount)%float = false ->
  (0 <=? b)%float = true ->
  returned (get_accounts_list default_AccountManager w) = Some (JDict accounts) ->
  accounts !! str_of_int i = Some info ->
  registry_file default_FileManager ∉ unwritable w ->
  get_account_balance_path default_FileManager i ∉ unwritable w ->
  exists w',
    withdraw_money self line w
    = (Ok (console (Some (console_account i b')) r), w')
    /\ process_purchase self service description line w
       = (Ok (console (Some (console_account i b')) r), w')
    /\ process_payment self service description line w
       = (Ok (console (Some (console_account i b')) r), w')
    /\ files w' !! get_account_balance_path default_FileManager i
       = Some (float_repr b')
    /\ files w' !! registry_file default_FileManager
       = Some (json_dumps (<[str_of_int i := set_info_balance info b']> accounts)).
Proof.
  intros self b' Hline Hpos Hcover Hb Hload Hkey Hreg Hbal.
  destruct (save_then_update i b' r w accounts info
              (sub_not_negative b amount Hb Hpos Hcover) Hload Hkey Hreg Hbal)
    as (w1 & w2 & E1 & E2 & Hfile & Hregistry).
  exists w2.
  assert (E : withdraw_line self line w
              = (Ok (console (Some (console_account i b')) r), w2)).
  { unfold withdraw_line, bind at 1, lift.
    cbn [py_float]. rewrite Hline, Hpos. cbn [self console current_account].
    unfold bind at 1. rewrite withdraw_unfold. cbn [py_float]. rewrite Hpos.
    cbn [console_account balance]. rewrite Hcover. cbn zeta.
    change (set_balance (console_account i b) (b - amount))
      with (console_account i b').
    rewrite E1. cbn [fst snd].
    unfold bind.
    change (set_current_account self (Some (console_account i b')))
      with (console (Some (console_account i b')) r).
    now rewrite E2. }
  unfold withdraw_money, process_purchase, process_payment, try_except.
  cbn [self console current_account]. fold self. rewrite E.
  repeat split; assumption.
Qed.

(** X23. A line that is not a number, or an amount at or below zero,
    stops the four handlers before they touch the account: the object
    and the world are as they were. *)
Theorem money_handlers_reject (self : BillingSystem)
    (line service description : string) (w : world) :
  match float_of_str line with
  | Some amount => (amount <=? 0)%float = true
  | None => True
  end ->
  deposit_money self line w = (Ok self, w)
  /\ withdraw_money self line w = (Ok self, w)
  /\ process_purchase self service description line w = (Ok self, w)
  /\ process_payment self service description line w = (Ok self, w).
Proof.
  intros Hline.
  unfold deposit_money, withdraw_money, process_purchase, process_payment,
    withdraw_line, try_except, bind, lift.
  cbn [py_float].
  destruct (current_account self);
    (destruct (float_of_str line) as [amount|]; [rewrite Hline|]; done).
Qed.

End BillerProps.

(** * The helpers of tStyle.py *)

(** ** Strings and lists *)

Lemma append_assoc (s t u : string) : (s +:+ t) +:+ u = s +:+ (t +:+ u).
Proof.
  induction s as [|c s IH]; [reflexivity|].
  change (String c ((s +:+ t) +:+ u) = String c (s +:+ t +:+ u)).
  now rewrite IH.
Qed.

Lemma append_empty_r (s : string) : s +:+ EmptyString = s.
Proof.
  induction s as [|c s IH]; [reflexivity|].
  change (String c (s +:+ EmptyString) = String c s). now rewrite IH.
Qed.

Lemma remove_char_app (c : ascii) (s t : string) :
  remove_char c (s +:+ t) = remove_char c s +:+ remove_char c t.
Proof.
  induction s as [|d s IH]; [reflexivity|].
  change (String d s +:+ t) with (String d (s +:+ t)).
  cbn [remove_char]. destruct (Ascii.eqb d c); [exact IH|].
  change (String d (remove_char c (s +:+ t))
          = String d (remove_char c s +:+ remove_char c t)).
  now rewrite IH.
Qed.

Lemma universal_newlines_plain (s t : string) :
  contains_char "013" s = false ->
  universal_newlines (s +:+ t) = s +:+ universal_newlines t.
Proof.
  induction s as [|c s IH]; intros Hs; [reflexivity|].
  cbn [contains_char] in Hs. rewrite Ascii.eqb_sym in Hs.
  destruct (Ascii.eqb c "013") eqn:Hc; [discriminate|].
  change (String c s +:+ t) with (String c (s +:+ t)).
  cbn [universal_newlines]. rewrite Hc. now rewrite IH.
Qed.

Lemma split_lines_line (s t : string) :
  contains_char "010" s = false ->
  split_lines (s +:+ line_feed +:+ t) = (s +:+ line_feed) :: split_lines t.
Proof.
  induction s as [|c s IH]; intros Hs; [reflexivity|].
  cbn [contains_char] in Hs. rewrite Ascii.eqb_sym in Hs.
  destruct (Ascii.eqb c "010") eqn:Hc; [discriminate|].
  change (String c s +:+ line_feed +:+ t)
    with (String c (s +:+ line_feed +:+ t)).
  cbn [split_lines]. rewrite Hc, IH by exact Hs. reflexivity.
Qed.

Lemma slice_from_map {A B} (f : A -> B) (start : Z) (l : list A) :
  slice_from start (f <$> l) = f <$> slice_from start l.
Proof. unfold slice_from. now rewrite length_fmap, fmap_drop. Qed.

Lemma slice_from_length {A} (limit : Z) (l : list A) :
  0 < limit -> Z.of_nat (length (slice_from (- limit) l)) <= limit.
Proof.
  intros Hlimit. unfold slice_from. rewrite length_drop.
  destruct (- limit <? 0) eqn:E; lia.
Qed.

Lemma slice_from_all {A} (limit : Z) (l : list A) :
  Z.of_nat (length l) <= limit -> slice_from (- limit) l = l.
Proof.
  intros Hlen. unfold slice_from.
  destruct (- limit <? 0) eqn:E.
  - now replace (Z.to_nat (Z.max 0 (- limit + Z.of_nat (length l)))) with 0%nat
      by lia.
  - now replace (Z.to_nat (- limit)) with 0%nat by lia.
Qed.

Lemma omap_fmap_total {A B C} (f : B -> option C) (g : A -> B) (v : A -> C)
    (l : list A) :
  Forall (fun a => f (g a) = Some (v a)) l -> omap f (g <$> l) = v <$> l.
Proof.
  induction 1 as [|a l Ha _ IH]; [reflexivity|].
  cbn. rewrite Ha. cbn. now rewrite IH.
Qed.

Lemma omap_length_le {A B} (f : A -> option B) (l : list A) :
  (length (omap f l) <= length l)%nat.
Proof.
  induction l as [|a l IH]; cbn; [lia|]. destruct (f a); cbn; lia.
Qed.

(** Two doubles that are numbers compare one way or the other. *)
Lemma SFcompare_swap (x y : spec_float) :
  SFcompare y x = option_map CompOpp (SFcompare x y).
Proof.
  destruct x as [sx|sx| |sx mx ex], y as [sy|sy| |sy my ey]; simpl;
    try reflexivity; try (destruct sx; reflexivity);
    try (destruct sy; reflexivity);
    try (destruct sx, sy; reflexivity).
  destruct sx, sy; try reflexivity;
    rewrite (Z.compare_antisym ex ey);
    destruct (ex ?= ey); simpl; try reflexivity;
    rewrite !Pos.compare_cont_spec; simpl;
    rewrite (Pos.compare_antisym mx my);
    destruct (mx ?= my)%positive; reflexivity.
Qed.

Lemma not_ltb_leb (x y : float) :
  Prim2SF x <> S754_nan -> Prim2SF y <> S754_nan ->
  (x <? y)%float = false -> (y <=? x)%float = true.
Proof.
  rewrite ltb_spec, leb_spec. unfold SFltb, SFleb. intros Hx Hy.
  rewrite (SFcompare_swap (Prim2SF x) (Prim2SF y)).
  destruct (SFcompare (Prim2SF x) (Prim2SF y)) as [[]|] eqn:E;
    try discriminate; try reflexivity.
  exfalso.
  destruct (Prim2SF x) as [sx|sx| |sx mx ex], (Prim2SF y) as [sy|sy| |sy my ey];
    try congruence; simpl in E; try discriminate;
    destruct sx; try destruct sy; discriminate.
Qed.

(** The decimal text of a number of four digits. *)
Lemma pretty_four_digits (n : Z) :
  1000 <= n <= 9999 ->
  exists c1 c2 c3 c4,
    str_of_int n = String c1 (String c2 (String c3 (String c4 EmptyString))).
Proof.
  intros Hn. unfold str_of_int.
  destruct n as [|q|q]; try lia.
  change (pretty (Z.pos q)) with (pretty (N.pos q)).
  unfold pretty, pretty_N.
  destruct (decide (N.pos q = 0%N)) as [|_]; [lia|].
  set (x := N.pos q).
  assert (Hx : (1000 <= x <= 9999)%N) by (unfold x; lia).
  clearbody x.
  rewrite pretty_N_go_step by lia.
  rewrite pretty_N_go_step
    by (apply N.div_str_pos; lia).
  assert (H100 : (100 <= N.div x 10)%N)
    by (apply (N.div_le_lower_bound x 10 100); lia).
  assert (H10 : (10 <= N.div (N.div x 10) 10)%N)
    by (apply (N.div_le_lower_bound _ 10 10); lia).
  assert (H1 : (1 <= N.div (N.div (N.div x 10) 10) 10)%N)
    by (apply (N.div_le_lower_bound _ 10 1); lia).
  rewrite pretty_N_go_step by lia.
  rewrite pretty_N_go_step by lia.
  assert (H0 : N.div (N.div (N.div (N.div x 10) 10) 10) 10 = 0%N).
  { rewrite !N.Div0.div_div. apply N.div_small. lia. }
  rewrite H0, pretty_N_go_0. eauto.
Qed.

Section HelperProps.
Context `{PyBuiltins} `{LogCodec}.

(** ** generate_token *)

(** X27. A token is nineteen characters long, with a space after each of
    the first three groups of four, and it tells the four numbers drawn:
    two runs of draws with the same token drew the same numbers. *)
Theorem generate_token_shape (draws draws' : nat -> Z) :
  (forall k, (k < 4)%nat -> 1000 <= draws k <= 9999) ->
  (forall k, (k < 4)%nat -> 1000 <= draws' k <= 9999) ->
  String.length (generate_token draws) = 19%nat
  /\ (forall k, (k < 3)%nat ->
        String.get (5 * k + 4) (generate_token draws) = Some " "%char)
  /\ (generate_token draws = generate_token draws' ->
      forall k, (k < 4)%nat -> draws k = draws' k).
Proof.
  intros Hd Hd'. unfold generate_token. cbn [seq map join].
  destruct (pretty_four_digits (draws 0%nat)) as (a1 & a2 & a3 & a4 & Ea);
    [apply Hd; lia|].
  destruct (pretty_four_digits (draws 1%nat)) as (b1 & b2 & b3 & b4 & Eb);
    [apply Hd; lia|].
  destruct (pretty_four_digits (draws 2%nat)) as (c1 & c2 & c3 & c4 & Ec);
    [apply Hd; lia|].
  destruct (pretty_four_digits (draws 3%nat)) as (d1 & d2 & d3 & d4 & Ed);
    [apply Hd; lia|].
  destruct (pretty_four_digits (draws' 0%nat)) as (a1' & a2' & a3' & a4' & Ea');
    [apply Hd'; lia|].
  destruct (pretty_four_digits (draws' 1%nat)) as (b1' & b2' & b3' & b4' & Eb');
    [apply Hd'; lia|].
  destruct (pretty_four_digits (draws' 2%nat)) as (c1' & c2' & c3' & c4' & Ec');
    [apply Hd'; lia|].
  destruct (pretty_four_digits (draws' 3%nat)) as (d1' & d2' & d3' & d4' & Ed');
    [apply Hd'; lia|].
  split; [|split].
  - rewrite Ea, Eb, Ec, Ed. reflexivity.
  - intros k Hk. rewrite Ea, Eb, Ec, Ed.
    destruct k as [|[|[|k]]]; [reflexivity|reflexivity|reflexivity|lia].
  - intros E k Hk.
    assert (Hall : str_of_int (draws 0%nat) = str_of_int (draws' 0%nat)
                   /\ str_of_int (draws 1%nat) = str_of_int (draws' 1%nat)
                   /\ str_of_int (draws 2%nat) = str_of_int (draws' 2%nat)
                   /\ str_of_int (draws 3%nat) = str_of_int (draws' 3%nat)).
    { rewrite Ea, Eb, Ec, Ed, Ea', Eb', Ec', Ed' in E |- *.
      cbn in E. injection E as -> -> -> -> -> -> -> -> -> -> -> -> -> -> -> ->.
      done. }
    destruct Hall as (E0 & E1 & E2 & E3).
    destruct k as [|[|[|[|k]]]]; try lia;
      [apply (inj pretty) in E0|apply (inj pretty) in E1
      |apply (inj pretty) in E2|apply (inj pretty) in E3]; assumption.
Qed.

(** ** format_currency *)

(** X28. [format_currency] returns a text that starts with the currency
    letter, and raises in one case only: on an [int] beyond the range of
    doubles, where the [OverflowError] of [float()] is not among the
    exceptions it catches. *)
Theorem format_currency_raises_only_overflow (v : pyobj) :
  match format_currency v with
  | Ok s => exists t, s = "R" +:+ t
  | Raise e =>
      exists n msg, v = PyInt n /\ float_of_int n = Raise e
                    /\ e = OverflowError msg
  end.
Proof.
  unfold format_currency. destruct v as [x|n|b|s|]; cbn [py_float]; eauto.
  - destruct (float_of_int n) as [x|e] eqn:E; [eauto|].
    assert (e = OverflowError "int too large to convert to float") as ->.
    { unfold float_of_int in E.
      destruct (binary_normalize prec emax n 0 false); congruence. }
    cbn. eauto.
  - destruct (float_of_str s); cbn; eauto.
  - cbn. eauto.
Qed.

(** ** validate_amount *)

Lemma clean_amount_app (s t : string) :
  clean_amount (s +:+ t) = clean_amount s +:+ clean_amount t.
Proof. unfold clean_amount. now rewrite !remove_char_app. Qed.

(** X29. The currency letter, the comma and the space count for nothing
    wherever they stand in the text. *)
Theorem validate_amount_ignores_decoration (s t : string) (c : ascii) :
  c = "R"%char \/ c = ","%char \/ c = " "%char ->
  validate_amount (s +:+ String c t) = validate_amount (s +:+ t).
Proof.
  intros Hc. unfold validate_amount.
  assert (E : clean_amount (s +:+ String c t) = clean_amount (s +:+ t)).
  { rewrite !clean_amount_app. f_equal.
    destruct Hc as [ -> | [ -> | -> ] ]; reflexivity. }
  now rewrite E.
Qed.

(** X30. An amount that [validate_amount] accepts is the number that
    [float()] reads in the cleaned text, and it lies between 0 and
    999999999, unless it is NaN, which passes both comparisons. *)
Theorem validate_amount_accepts_range (s : string) (r : string + float) :
  validate_amount s = (true, r) ->
  exists amount,
    r = inr amount
    /\ float_of_str (clean_amount s) = Some amount
    /\ (Prim2SF amount = S754_nan
        \/ ((0 <=? amount)%float = true
            /\ (amount <=? 999999999)%float = true)).
Proof.
  unfold validate_amount.
  destruct (float_of_str (clean_amount s)) as [amount|]; [|discriminate].
  destruct (amount <? 0)%float eqn:Hneg; [discriminate|].
  destruct (999999999 <? amount)%float eqn:Hbig; [discriminate|].
  destruct (_ && _); [discriminate|].
  intros [= <-]. exists amount. split; [reflexivity|]. split; [reflexivity|].
  destruct (Prim2SF amount) eqn:E; try (now left); right.
  all: split; apply not_ltb_leb; rewrite ?E; try discriminate; assumption.
Qed.

(** ** class TransactionLogger *)

Lemma log_text_cons (e : log_entry) (es : list log_entry) :
  log_text (e :: es) = dumps_entry e +:+ line_feed +:+ log_text es.
Proof. reflexivity. Qed.

Lemma log_text_snoc (es : list log_entry) (e : log_entry) :
  log_text (es ++ [e]) = log_text es +:+ dumps_entry e +:+ line_feed.
Proof.
  induction es as [|e0 es IH].
  - cbn [app]. rewrite log_text_cons. reflexivity.
  - change ((e0 :: es) ++ [e]) with (e0 :: (es ++ [e])).
    now rewrite !log_text_cons, IH, !append_assoc.
Qed.

Lemma lines_of_log_text (es : list log_entry) :
  Forall (fun e => single_line (dumps_entry e) = true) es ->
  split_lines (universal_newlines (log_text es))
  = (fun e => dumps_entry e +:+ line_feed) <$> es.
Proof.
  induction 1 as [|e es He _ IH]; [reflexivity|].
  unfold single_line in He.
  apply andb_true_iff in He as [Hn Hr]. apply negb_true_iff in Hn, Hr.
  rewrite log_text_cons, fmap_cons.
  rewrite universal_newlines_plain by exact Hr.
  change (universal_newlines (line_feed +:+ ?t))
    with (line_feed +:+ universal_newlines t).
  rewrite split_lines_line by exact Hn. now rewrite <- IH.
Qed.

(** X24. [get_transaction_history] does not raise, changes nothing, and
    with a limit above zero returns at most that many entries. *)
Theorem get_transaction_history_bound (self : TransactionLogger) (i limit : Z)
    (w : world) :
  exists l,
    get_transaction_history self i limit w = (Ok l, w)
    /\ (0 < limit -> Z.of_nat (length l) <= limit).
Proof.
  unfold get_transaction_history, try_except, bind, os_path_exists, readlines,
    bind, read_text, ret.
  destruct (files w !! log_file_of self i) as [text|] eqn:Hp.
  2:{ rewrite bool_decide_eq_false_2 by (intros [? [=]]). cbn.
      eexists. split; [reflexivity|]. cbn. lia. }
  rewrite bool_decide_eq_true_2 by eauto. cbn [negb]. rewrite ?Hp.
  destruct (bool_decide (log_file_of self i ∈ unreadable w)).
  { eexists. split; [reflexivity|]. cbn. lia. }
  eexists. split; [reflexivity|]. intros Hlimit.
  pose proof (omap_length_le (fun line => loads_line (strip line))
                (slice_from (- limit)
                   (split_lines (universal_newlines text)))).
  pose proof (slice_from_length limit
                (split_lines (universal_newlines text)) Hlimit).
  lia.
Qed.

(** X25. The limit 0 is no limit: [lines[-0:]] is the whole list, so the
    call returns what a limit as large as the log returns. *)
Theorem history_limit_zero_is_no_limit (self : TransactionLogger)
    (i limit : Z) (w : world) :
  (forall text,
     files w !! log_file_of self i = Some text ->
     Z.of_nat (length (split_lines (universal_newlines text))) <= limit) ->
  get_transaction_history self i 0 w = get_transaction_history self i limit w.
Proof.
  intros Hlines.
  unfold get_transaction_history, try_except, bind, os_path_exists, readlines,
    bind, read_text, ret.
  destruct (files w !! log_file_of self i) as [text|] eqn:Hp; [|reflexivity].
  rewrite bool_decide_eq_true_2 by eauto. cbn [negb]. rewrite ?Hp.
  destruct (bool_decide (log_file_of self i ∈ unreadable w)); [reflexivity|].
  rewrite (slice_from_all limit) by auto.
  reflexivity.
Qed.

(** X26. What is logged is what the history shows. On a log that holds
    the entries [es], a call of [log_transaction] whose amount [float()]
    accepts returns [True], and the history read after it is the slice
    [[-limit:]] of the old entries followed by the new one, each as
    [json.loads] reads it back. *)
Theorem history_after_logging (self : TransactionLogger) (i limit : Z)
    (transaction_type : string) (v : pyobj) (a : float)
    (service token : option string) (w : world) (es : list log_entry)
    (value : log_entry -> Reference.json) :
  let p := log_file_of self i in
  let e :=
    {| log_timestamp := strftime_iso (now w); log_type := transaction_type;
       log_amount := a; log_service := service; log_token := token |} in
  py_float v = Ok a ->
  p ∉ unwritable w ->
  p ∉ unreadable w ->
  default EmptyString (files w !! p) = log_text es ->
  Forall (fun e =>
            single_line (dumps_entry e) = true
            /\ loads_line (strip (dumps_entry e +:+ line_feed)) = Some (value e))
         (es ++ [e]) ->
  exists w',
    log_transaction self i transaction_type v service token w = (Ok true, w')
    /\ files w' !! p = Some (log_text (es ++ [e]))
    /\ get_transaction_history self i limit w'
       = (Ok (slice_from (- limit) (value <$> (es ++ [e]))), w').
Proof.
  intros p e Hv Hw Hr Hold Hcodec.
  set (w' := set_files
               (fun fs => <[p := default EmptyString (fs !! p)
                                 +:+ dumps_entry e +:+ line_feed]> fs) w).
  assert (Hfile : files w' !! p = Some (log_text (es ++ [e]))).
  { unfold w'. cbn [files set_files]. rewrite lookup_insert_eq, Hold.
    now rewrite <- log_text_snoc. }
  exists w'. split; [|split; [exact Hfile|]].
  { unfold log_transaction, try_except, bind at 1, datetime_now.
    unfold bind at 1, lift. rewrite Hv.
    unfold bind, append_text. fold p.
    rewrite bool_decide_eq_false_2 by tauto. reflexivity. }
  unfold get_transaction_history, try_except, bind, os_path_exists, readlines,
    bind, read_text, ret.
  fold p. rewrite Hfile.
  rewrite bool_decide_eq_true_2 by eauto. cbn [negb].
  change (unreadable w') with (unreadable w).
  rewrite bool_decide_eq_false_2 by tauto. rewrite Hfile.
  rewrite lines_of_log_text
    by (eapply Forall_impl; [exact Hcodec|]; now intros ? [? ?]).
  rewrite slice_from_map, slice_from_map.
  rewrite (omap_fmap_total _ _ value); [reflexivity|].
  unfold slice_from. apply Forall_drop.
  eapply Forall_impl; [exact Hcodec|]. now intros ? [? ?].
Qed.

End HelperProps.

(** * The further properties on concrete inputs *)

Section MoreExamples.
#[local] Existing Instance Reference.builtins.
#[local] Existing Instance LogReference.codec.

Ltac not_in_set := let Hin := fresh "Hin" in
  intros Hin; vm_compute in Hin; discriminate Hin.

Ltac by_computation := vm_compute; reflexivity.

(** A balance file that holds 50.0 and the line end [\r\n] is
    overwritten with 75.0: the backup holds 50.0 and [\n]. *)
Lemma save_balance_to_file_keeps_backup_witness :
  let w := world_with {[ balance_file_1 := balance_crlf ]} ∅ in
  files (snd (save_balance_to_file default_FileManager 1 75 w))
    !! (balance_file_1 +:+ ".backup") = Some balance_lf
  /\ files (snd (save_balance_to_file default_FileManager 1 75 w))
       !! balance_file_1 = Some "75.0".
Proof.
  intros w. split; [|by_computation].
  etransitivity; [|by_computation].
  apply (save_balance_to_file_keeps_backup default_FileManager 1 75%float w
           balance_crlf); [by_computation|not_in_set|not_in_set|by_computation].
Defined.

(** 12.5 is saved and read back. *)
Lemma save_then_load_balance_witness :
  returned ((save_balance_to_file default_FileManager 1 12.5;;;
             load_balance_from_file default_FileManager 1 1000000) fresh_world)
  = Some 12.5%float.
Proof.
  apply (save_then_load_balance default_FileManager 1 12.5%float 1000000%float
           fresh_world);
    [by_computation|not_in_set|not_in_set|by_computation|by_computation].
Defined.

(** A registry file that holds three spaces. *)
Lemma load_json_file_blank_or_unreadable_witness :
  let w := world_with {[ "accounts_registry.json" := "   " ]} ∅ in
  load_json_file "accounts_registry.json" w = (Ok (JDict ∅), w).
Proof.
  intros w.
  apply (load_json_file_blank_or_unreadable "accounts_registry.json" w "   ");
    [by_computation|left; by_computation].
Defined.

(** A registry with one account is saved and read back. *)
Lemma save_then_load_json_witness :
  returned ((save_json_file "accounts_registry.json" (registry_1 50);;;
             load_json_file "accounts_registry.json") fresh_world)
  = Some (JDict (registry_1 50)).
Proof.
  apply (save_then_load_json "accounts_registry.json" (registry_1 50)
           fresh_world); [not_in_set|not_in_set|by_computation|by_computation].
Defined.

(** The accounts 1 and 2. *)
Lemma balance_files_are_distinct_witness :
  get_account_balance_path default_FileManager 1
  <> get_account_balance_path default_FileManager 2
  /\ get_account_balance_path default_FileManager 1
     <> get_account_balance_path default_FileManager 2 +:+ ".backup".
Proof. apply (balance_files_are_distinct default_FileManager 1 2). lia. Defined.

(** A deposit, a withdrawal that is refused and one that goes through,
    on a balance of 50.0. *)
Lemma balance_file_in_step_witness :
  let w := world_with {[ balance_file_1 := "50.0" ]} ∅ in
  exists self' w',
    perform_all (account_with 50) three_operations w = (Ok self', w')
    /\ files w' !! balance_file_of (account_with 50)
       = Some (float_repr (get_balance self')).
Proof.
  intros w.
  apply (balance_file_in_step three_operations (account_with 50) w).
  by_computation.
Defined.

(** The same operations in a directory of two accounts: the balance
    file of the account 2 holds 7.5 before and after. *)
Lemma other_accounts_untouched_witness :
  let w := world_with {[ balance_file_1 := "50.0";
                         "accounts/account_2_balance.txt" := "7.5" ]} ∅ in
  exists w',
    perform_all (account_with 50) three_operations w
    = (Ok (account_with 45), w')
    /\ files w' !! balance_file_1 = Some "45.0"
    /\ files w' !! "accounts/account_2_balance.txt" = Some "7.5".
Proof.
  intros w.
  destruct (other_accounts_untouched three_operations (account_with 50) w 2)
    as (self' & w' & Hall & Hother); [cbn; lia|].
  assert (Hrun : perform_all (account_with 50) three_operations w
                 = (Ok (account_with 45), w')).
  { rewrite Hall. f_equal. f_equal.
    assert (E : returned (perform_all (account_with 50) three_operations w)
                = Some (account_with 45)) by by_computation.
    rewrite Hall in E. now injection E. }
  exists w'. split; [exact Hrun|]. split.
  - assert (Hw' : w' = snd (perform_all (account_with 50) three_operations w))
      by now rewrite Hrun.
    rewrite Hw'. by_computation.
  - etransitivity; [exact Hother|]. by_computation.
Defined.

(** [deposit(-5)], [withdraw(-5)], [deposit(0)] and [withdraw(0)]. *)
Lemma nonpositive_amount_refused_witness :
  (deposit (account_with 50) (PyInt (-5)) fresh_world
   = (Ok (account_with 50, (false, "Deposit amount must be positive")),
      fresh_world)
   /\ withdraw (account_with 50) (PyInt (-5)) fresh_world
      = (Ok (account_with 50, (false, "Withdrawal amount must be positive")),
         fresh_world))
  /\ (deposit (account_with 50) (PyInt 0) fresh_world
      = (Ok (account_with 50, (false, "Deposit amount must be positive")),
         fresh_world)
      /\ withdraw (account_with 50) (PyInt 0) fresh_world
         = (Ok (account_with 50, (false, "Withdrawal amount must be positive")),
            fresh_world)).
Proof.
  split.
  - apply (nonpositive_amount_refused (account_with 50) (PyInt (-5))
             (-5)%float fresh_world); by_computation.
  - apply (nonpositive_amount_refused (account_with 50) (PyInt 0)
             0%float fresh_world); by_computation.
Defined.

(** [withdraw(50)] on a balance of 50.0. *)
Lemma withdraw_whole_balance_witness :
  exists w',
    withdraw (account_with 50) (PyInt 50) fresh_world
    = (Ok (account_with 0,
           (true, "Withdrawal successful. New balance: R0.00")), w')
    /\ files w' !! balance_file_1 = Some "0.0".
Proof.
  destruct (withdraw_whole_balance (account_with 50) (PyInt 50) fresh_world)
    as (w' & Hwithdraw & Hfile);
    [by_computation|by_computation|by_computation|not_in_set|].
  exists w'. split; [exact Hwithdraw|].
  etransitivity; [exact Hfile|by_computation].
Defined.

(** A refresh from a balance file that holds [-5.0]. *)
Lemma update_balance_from_file_keeps_sign_witness :
  let w := world_with {[ balance_file_1 := "-5.0" ]} ∅ in
  exists self' b w',
    update_balance_from_file (account_with 50) w = (Ok (self', b), w')
    /\ get_balance self' = b
    /\ account_id self' = 1
    /\ (0 <=? b)%float = true.
Proof.
  intros w.
  apply (update_balance_from_file_keeps_sign (account_with 50) w).
  by_computation.
Defined.

(** The three operations on a balance of 50.0, and the account opened
    again. *)
Lemma reopened_account_has_same_balance_witness :
  let w := world_with {[ balance_file_1 := "50.0" ]} ∅ in
  exists w',
    perform_all (account_with 50) three_operations w
    = (Ok (account_with 45), w')
    /\ (0 <=? get_balance (account_with 45))%float = true
    /\ BankAccount_init 1 default_AccountManager w'
       = (Ok (account_with 45), w').
Proof.
  intros w.
  destruct (reopened_account_has_same_balance three_operations
              (account_with 50) w)
    as (self' & w' & Hall & Hb & Hopen);
    [by_computation|by_computation|not_in_set| |].
  { repeat constructor; intros x Hx; vm_compute in Hx; injection Hx as <-;
      reflexivity. }
  assert (Hself : self' = account_with 45).
  { assert (E : returned (perform_all (account_with 50) three_operations w)
                = Some (account_with 45)) by by_computation.
    rewrite Hall in E. now injection E. }
  subst self'. exists w'. split; [exact Hall|]. split; [exact Hb|].
  apply Hopen; by_computation.
Defined.

(** Two creations in an empty directory: the first returns the id 1 and
    records it, the second returns 2.  A registry that holds the keys
    ["1"] and ["3"]: the new account gets the id 2.  A registry that
    holds the key ["2"] alone: the new account gets the id 1. *)
Lemma create_assigns_smallest_unused_id_witness :
  returned ((first <- create_new_account default_AccountManager "Ann"
                        (PyInt 1000000);;
             second <- create_new_account default_AccountManager "Bob"
                         (PyStr "12.5");;
             ret (fst first, fst second)) fresh_world)
  = Some (1, 2)
  /\ files (snd (create_new_account default_AccountManager "Ann"
                   (PyInt 1000000) fresh_world)) !! "accounts_registry.json"
     = Some (json_dumps
               {[ "1" := mk_account_info 1 "Ann" "2024-05-17 09:30:00"
                           1000000 ]})
  /\ (forall j info,
        returned (create_new_account default_AccountManager "Bea" (PyInt 20)
                    registry_1_3_world) = Some (j, info) ->
        j = 2 /\ id info = 2)
  /\ returned (create_new_account default_AccountManager "Bea" (PyInt 20)
                 registry_1_3_world)
     = Some (2, mk_account_info 2 "Bea" "2024-05-17 09:30:00" 20)
  /\ returned (create_new_account default_AccountManager "Cy" (PyFloat 3)
                 registry_2_world)
     = Some (1, mk_account_info 1 "Cy" "2024-05-17 09:30:00" 3).
Proof.
  destruct (create_assigns_smallest_unused_id default_AccountManager "Ann"
              (PyInt 1000000) fresh_world ∅)
    as (_ & _ & Hfirst & _ & Htwo & _); [by_computation|].
  destruct (Hfirst 1000000%float)
    as (w1 & E1 & Hregistry & _ & _);
    [by_computation|by_computation|by_computation|not_in_set|not_in_set|].
  assert (Hw1 : w1 = snd (create_new_account default_AccountManager "Ann"
                            (PyInt 1000000) fresh_world)) by now rewrite E1.
  destruct (create_assigns_smallest_unused_id default_AccountManager "Bob"
              (PyStr "12.5") w1
              (<["1" := mk_account_info 1 "Ann" "2024-05-17 09:30:00"
                          1000000]> ∅))
    as (_ & _ & Hsecond & _); [rewrite Hw1; by_computation|].
  destruct (Hsecond 12.5%float) as (w2 & E2 & _);
    [by_computation|by_computation|by_computation
    |rewrite Hw1; not_in_set|rewrite Hw1; not_in_set|].
  destruct (create_assigns_smallest_unused_id default_AccountManager "Bea"
              (PyInt 20) registry_1_3_world registry_1_3)
    as (_ & Hany & Hthird & _); [by_computation|].
  destruct (Hthird 20%float) as (w3 & E3 & _);
    [by_computation|by_computation|by_computation|not_in_set|not_in_set|].
  destruct (create_assigns_smallest_unused_id default_AccountManager "Cy"
              (PyFloat 3) registry_2_world registry_2)
    as (_ & _ & Hfourth & _ & _ & Hreuse); [by_computation|].
  destruct (Hfourth 3%float) as (w4 & E4 & _);
    [by_computation|by_computation|by_computation|not_in_set|not_in_set|].
  split; [|split; [|split; [|split]]].
  - unfold returned, bind. rewrite E1. cbn [fst]. rewrite E2. cbn [fst].
    unfold ret. cbn [fst]. now rewrite (Htwo _).
  - rewrite <- Hw1. etransitivity; [apply Hregistry; discriminate|].
    reflexivity.
  - intros j info Hcreate. destruct (Hany j info Hcreate) as [-> Hid].
    split; [by_computation|rewrite Hid; by_computation].
  - unfold returned. rewrite E3. by_computation.
  - unfold returned. rewrite E4. cbn [fst]. rewrite (Hreuse eq_refl).
    by_computation.
Defined.

(** The first account, with a name that is stripped. *)
Lemma create_new_account_success_witness :
  let info := entry_1 50 in
  exists w',
    create_new_account default_AccountManager " Al " (PyInt 50) fresh_world
    = (Ok (1, info), w')
    /\ files w' !! balance_file_1 = Some "50.0"
    /\ files w' !! "accounts_registry.json" = Some (json_dumps (registry_1 50)).
Proof.
  intros info.
  destruct (create_new_account_success default_AccountManager " Al " (PyInt 50)
              50%float fresh_world ∅)
    as (w' & E & Hfile & _ & Hregistry & _);
    [by_computation|by_computation|by_computation|by_computation
    |not_in_set|not_in_set|].
  exists w'. split; [exact E|]. split; [exact Hfile|].
  apply Hregistry; discriminate.
Defined.

(** A creation when the balance file of the new account is
    write-protected. *)
Lemma create_new_account_rollback_witness :
  let w := world_with ∅ {[ balance_file_1 ]} in
  exists w',
    create_new_account default_AccountManager "Al" (PyInt 50) w
    = (Raise (Exception_ "Failed to create balance file"), w')
    /\ files w' !! "accounts_registry.json" = Some "{}".
Proof.
  intros w.
  destruct (create_new_account_rollback default_AccountManager "Al" (PyInt 50)
              50%float w ∅) as (w' & Hcreate & Hfile);
    [by_computation|by_computation|by_computation|by_computation
    |not_in_set|by_computation|].
  exists w'. split; [exact Hcreate|].
  etransitivity; [exact Hfile|by_computation].
Defined.

(** A balance of -5, and a balance that is no number. *)
Lemma create_new_account_invalid_balance_witness :
  create_new_account default_AccountManager "Al" (PyInt (-5)) fresh_world
  = (Raise (ValueError "Initial balance cannot be negative"), fresh_world)
  /\ create_new_account default_AccountManager "Al" (PyStr "much") fresh_world
     = (Raise (ValueError "could not convert string to float"), fresh_world).
Proof.
  pose proof (create_new_account_invalid_balance default_AccountManager "Al"
                (PyInt (-5)) fresh_world eq_refl) as Hnegative.
  pose proof (create_new_account_invalid_balance default_AccountManager "Al"
                (PyStr "much") fresh_world eq_refl) as Hword.
  split; [apply Hnegative; by_computation|exact Hword].
Defined.

(** The account that has been created with 50 opens with 50.0. *)
Lemma create_then_open_witness :
  returned ((created <- create_new_account default_AccountManager "Al"
                          (PyInt 50);;
             BankAccount_init (fst created) default_AccountManager)
              fresh_world)
  = Some (account_with 50).
Proof.
  refine (create_then_open default_AccountManager "Al" (PyInt 50) 50%float
            fresh_world ∅ _ _ _ _ _ _ _ _ _);
    [by_computation|by_computation|by_computation|by_computation
    |not_in_set|not_in_set|not_in_set|by_computation|by_computation].
Defined.

(** The account 1 has 75.0 and the registry lists it with 50.0. *)
Lemma logout_syncs_registry_witness :
  let self := console (Some (console_account 1 75)) true in
  exists w',
    update_account_registry self registry_world = (Ok tt, w')
    /\ logout self registry_world = (Ok (console None true), w')
    /\ files w' !! "accounts_registry.json" = Some (json_dumps (registry_1 75)).
Proof.
  intros self.
  destruct (logout_syncs_registry self (console_account 1 75) registry_world
              (registry_1 50) (entry_1 50))
    as (w' & Hupdate & Hlogout & Hfile & _);
    [by_computation|by_computation|by_computation|not_in_set|].
  exists w'. split; [exact Hupdate|]. split; [exact Hlogout|].
  etransitivity; [exact Hfile|by_computation].
Defined.

(** A deposit of 25 at the console. *)
Lemma deposit_money_syncs_registry_witness :
  exists w',
    deposit_money (console (Some (console_account 1 50)) true) "25"
      registry_world
    = (Ok (console (Some (console_account 1 75)) true), w')
    /\ files w' !! balance_file_1 = Some "75.0"
    /\ files w' !! "accounts_registry.json" = Some (json_dumps (registry_1 75)).
Proof.
  destruct (deposit_money_syncs_registry 1 50%float 25%float true "25"
              registry_world (registry_1 50) (entry_1 50))
    as (w' & Hdeposit & Hfile & Hregistry);
    [by_computation|by_computation|by_computation|by_computation
    |by_computation|not_in_set|not_in_set|].
  exists w'. split; [exact Hdeposit|]. split.
  - etransitivity; [exact Hfile|by_computation].
  - etransitivity; [exact Hregistry|by_computation].
Defined.

(** A withdrawal, a purchase and a payment of 20 at the console. *)
Lemma withdrawals_sync_registry_witness :
  let self := console (Some (console_account 1 50)) true in
  let self' := console (Some (console_account 1 30)) true in
  exists w',
    withdraw_money self "20" registry_world = (Ok self', w')
    /\ process_purchase self "airtime" "Airtime" "20" registry_world
       = (Ok self', w')
    /\ process_payment self "airtime" "Airtime" "20" registry_world
       = (Ok self', w')
    /\ files w' !! balance_file_1 = Some "30.0"
    /\ files w' !! "accounts_registry.json" = Some (json_dumps (registry_1 30)).
Proof.
  intros self self'.
  destruct (withdrawals_sync_registry 1 50%float 20%float true "20" "airtime"
              "Airtime" registry_world (registry_1 50) (entry_1 50))
    as (w' & Hwithdraw & Hpurchase & Hpayment & Hfile & Hregistry);
    [by_computation|by_computation|by_computation|by_computation
    |by_computation|by_computation|not_in_set|not_in_set|].
  exists w'. split; [exact Hwithdraw|]. split; [exact Hpurchase|].
  split; [exact Hpayment|]. split.
  - etransitivity; [exact Hfile|by_computation].
  - etransitivity; [exact Hregistry|by_computation].
Defined.

(** The lines [-5] and [much] at the four prompts. *)
Lemma money_handlers_reject_witness :
  let self := console (Some (console_account 1 50)) true in
  (deposit_money self "-5" fresh_world = (Ok self, fresh_world)
   /\ withdraw_money self "-5" fresh_world = (Ok self, fresh_world)
   /\ process_purchase self "airtime" "Airtime" "-5" fresh_world
      = (Ok self, fresh_world)
   /\ process_payment self "water" "Water" "-5" fresh_world
      = (Ok self, fresh_world))
  /\ deposit_money self "much" fresh_world = (Ok self, fresh_world).
Proof.
  intros self. split.
  - destruct (money_handlers_reject self "-5" "airtime" "Airtime" fresh_world)
      as (Hd & Hw & Hp & _); [by_computation|].
    destruct (money_handlers_reject self "-5" "water" "Water" fresh_world)
      as (_ & _ & _ & Hb); [by_computation|].
    repeat split; assumption.
  - apply (money_handlers_reject self "much" "airtime" "Airtime" fresh_world).
    exact I.
Defined.

(** A log of two lines, of which the second is no JSON. *)
Lemma history_limit_zero_is_no_limit_witness :
  let w :=
    world_with {[ log_file_1 := log_text [deposit_entry] +:+ "no json"
                                +:+ line_feed ]} ∅ in
  get_transaction_history default_TransactionLogger 1 0 w
  = get_transaction_history default_TransactionLogger 1 5 w.
Proof.
  intros w.
  apply (history_limit_zero_is_no_limit default_TransactionLogger 1 5 w).
  intros text Htext. vm_compute in Htext. injection Htext as <-.
  vm_compute. discriminate.
Defined.

(** The first entry of a log, and the history after it. *)
Lemma history_after_logging_witness :
  let value :=
    Reference.JObject
      [("timestamp", Reference.JString "2024-05-17 09:30:00");
       ("type", Reference.JString "deposit");
       ("amount", Reference.JFloat 25);
       ("service", Reference.JNull); ("token", Reference.JNull)] in
  exists w',
    log_transaction default_TransactionLogger 1 "deposit" (PyInt 25) None None
      fresh_world = (Ok true, w')
    /\ files w' !! log_file_1 = Some (log_text [deposit_entry])
    /\ get_transaction_history default_TransactionLogger 1 10 w'
       = (Ok [value], w').
Proof.
  intros value.
  apply (history_after_logging default_TransactionLogger 1 10 "deposit"
           (PyInt 25) 25%float None None fresh_world [] (fun _ => value));
    [by_computation|not_in_set|not_in_set|by_computation|].
  repeat constructor; by_computation.
Defined.

(** Two runs of four draws. *)
Lemma generate_token_shape_witness :
  let draws := fun k : nat => 1234 + 1111 * Z.of_nat k in
  let draws' := fun _ : nat => 9999 in
  String.length (generate_token draws) = 19%nat
  /\ (forall k, (k < 3)%nat ->
        String.get (5 * k + 4) (generate_token draws) = Some " "%char)
  /\ (generate_token draws = generate_token draws' ->
      forall k, (k < 4)%nat -> draws k = draws' k).
Proof.
  intros draws draws'.
  apply (generate_token_shape draws draws'); intros k Hk; unfold draws, draws';
    lia.
Defined.

(** A thousands separator. *)
Lemma validate_amount_ignores_decoration_witness :
  validate_amount ("1" +:+ String "," "000.50") = validate_amount "1000.50".
Proof.
  apply (validate_amount_ignores_decoration "1" "000.50" ","%char).
  right. left. reflexivity.
Defined.

(** The text [R1,000.50]. *)
Lemma validate_amount_accepts_range_witness :
  exists amount,
    @inr string float 1000.5%float = inr amount
    /\ float_of_str (clean_amount "R1,000.50") = Some amount
    /\ (Prim2SF amount = S754_nan
        \/ ((0 <=? amount)%float = true
            /\ (amount <=? 999999999)%float = true)).
Proof.
  apply (validate_amount_accepts_range "R1,000.50" (inr 1000.5%float)).
  by_computation.
Defined.

End MoreExamples.
